(** * Adobe_Document: heading detection and persona-driven ranking

    A shallow embedding of the decision logic of [utils.py],
    [round1a/outline_extractor.py] and [round1b/persona_analyzer.py], and of
    what [pdf_processor.py], [error_handler.py], [performance_benchmarks.py]
    and [main_enhanced.py] build on it, with the properties of the outline
    and ranking pipeline proved over it.

    Modelling conventions.
    - A Python [str] is a [string]; the development covers texts over the
      ASCII range, where [str.lower], [str.strip], [str.split] and the
      regular-expression classes [\s], [\d], [\w] are the ones given in
      module [Py].
    - A [dict] read with [.get(key, default)] is a record whose field is an
      [option]; [None] stands for the missing key.
    - The quotient [hits / max_possible] is an exact rational ([Q]).  All
      scores of one call share their denominator, so comparing them as
      rationals orders them as Python orders the rounded quotients.
    - [list.sort(key=..., reverse=True)] is stable; it is modelled by a stable
      insertion sort, the result of a stable sort being determined by the
      input and the keys.
    - A regular expression is a term of [Re.regex]; [re.match] is language
      membership of a prefix, decided with Brzozowski derivatives.
    - What comes from outside the repository enters as an argument: the
      answer of the clock, the texts and metadata that the PDF libraries
      extract, the cosine of the TF-IDF vectors ([None] when the library
      raises), the outcome of a call that may raise. *)

From Stdlib Require Import ZArith QArith Ascii String List Lia Bool.
From Stdlib Require Import Permutation Sorted.
From stdpp Require Import gmap strings.
Import ListNotations.

Local Open Scope string_scope.
#[local] Set Warnings "-clear-no-such-hyp".

(* ===================================================================== *)
(** ** Python string primitives                                           *)
(* ===================================================================== *)

Module Py.

Definition code (c : ascii) : nat := nat_of_ascii c.

Definition between (lo hi : nat) (c : ascii) : bool :=
  (lo <=? code c)%nat && (code c <=? hi)%nat.

(** [str.isspace] and the class [\s] on the ASCII range:
    TAB LF VT FF CR, the separators FS GS RS US, and the space. *)
Definition is_space (c : ascii) : bool :=
  between 9 13 c || between 28 32 c.

Definition is_upper (c : ascii) : bool := between 65 90 c.   (* [A-Z] *)
Definition is_lower (c : ascii) : bool := between 97 122 c.  (* [a-z] *)
Definition is_digit (c : ascii) : bool := between 48 57 c.   (* \d *)

(** The class [\w]: letters, digits and the underscore. *)
Definition is_word (c : ascii) : bool :=
  is_upper c || is_lower c || is_digit c || (code c =? 95)%nat.

Definition lower_char (c : ascii) : ascii :=
  if is_upper c then ascii_of_nat (code c + 32) else c.

(** [s.lower()] *)
Fixpoint lower (s : string) : string :=
  match s with
  | EmptyString => EmptyString
  | String c r => String (lower_char c) (lower r)
  end.

Fixpoint lstrip (s : string) : string :=
  match s with
  | EmptyString => EmptyString
  | String c r => if is_space c then lstrip r else s
  end.

Fixpoint rstrip (s : string) : string :=
  match s with
  | EmptyString => EmptyString
  | String c r =>
      match rstrip r with
      | EmptyString => if is_space c then EmptyString else String c EmptyString
      | r' => String c r'
      end
  end.

(** [s.strip()] *)
Definition strip (s : string) : string := rstrip (lstrip s).

(** Truthiness of a [str]: [not s] holds for the empty string only. *)
Definition is_empty (s : string) : bool :=
  match s with EmptyString => true | _ => false end.

(** [sub in s] *)
Fixpoint contains (sub s : string) : bool :=
  String.prefix sub s ||
  match s with
  | EmptyString => false
  | String _ r => contains sub r
  end.

(** [s.split(sep)] for the one-character separator [sep];
    [cur] is the field read so far, reversed. *)
Fixpoint split_go (sep : ascii) (cur : string) (s : string) : list string :=
  match s with
  | EmptyString => [String.rev cur]
  | String c r =>
      if Ascii.eqb c sep then String.rev cur :: split_go sep EmptyString r
      else split_go sep (String c cur) r
  end.

Definition newline : ascii := ascii_of_nat 10.

(** [s.split('\n')] *)
Definition split_lines (s : string) : list string :=
  split_go newline EmptyString s.

(** [s.split('\n\n')]: cut at each occurrence of two line feeds, scanning
    from the left without overlap. *)
Fixpoint split_blank_go (cur : string) (s : string) : list string :=
  match s with
  | EmptyString => [String.rev cur]
  | String c r =>
      match r with
      | String c' r' =>
          if Ascii.eqb c newline && Ascii.eqb c' newline
          then String.rev cur :: split_blank_go EmptyString r'
          else split_blank_go (String c cur) r
      | EmptyString => split_blank_go (String c cur) r
      end
  end.

Definition split_blank (s : string) : list string :=
  split_blank_go EmptyString s.

(** [s.split()]: the maximal runs of non-whitespace characters. *)
Fixpoint split_ws_go (cur : string) (s : string) : list string :=
  match s with
  | EmptyString => if is_empty cur then [] else [String.rev cur]
  | String c r =>
      if is_space c
      then (if is_empty cur then split_ws_go EmptyString r
            else String.rev cur :: split_ws_go EmptyString r)
      else split_ws_go (String c cur) r
  end.

Definition split_ws (s : string) : list string :=
  split_ws_go EmptyString s.

(** [sep.join(parts)] *)
Definition join (sep : string) (parts : list string) : string :=
  String.concat sep parts.

(** [s[:n]] *)
Fixpoint take (n : nat) (s : string) : string :=
  match n, s with
  | S n', String c r => String c (take n' r)
  | _, _ => EmptyString
  end.

(** [re.sub(r'\s+', ' ', s)]: every maximal run of whitespace becomes one
    space; [in_run] tells that the previous character was whitespace. *)
Fixpoint sub_spaces (in_run : bool) (s : string) : string :=
  match s with
  | EmptyString => EmptyString
  | String c r =>
      if is_space c
      then (if in_run then sub_spaces true r
            else String " "%char (sub_spaces true r))
      else String c (sub_spaces false r)
  end.

(** [re.sub(r'[^...]', '', s)] for a character class given by [keep]. *)
Fixpoint keep_chars (keep : ascii -> bool) (s : string) : string :=
  match s with
  | EmptyString => EmptyString
  | String c r =>
      if keep c then String c (keep_chars keep r) else keep_chars keep r
  end.

(** [re.findall(r'\b\w+\b', s)]: the maximal runs of word characters. *)
Fixpoint find_words_go (cur : string) (s : string) : list string :=
  match s with
  | EmptyString => if is_empty cur then [] else [String.rev cur]
  | String c r =>
      if is_word c then find_words_go (String c cur) r
      else (if is_empty cur then find_words_go EmptyString r
            else String.rev cur :: find_words_go EmptyString r)
  end.

Definition find_words (s : string) : list string :=
  find_words_go EmptyString s.

End Py.

(* ===================================================================== *)
(** ** Regular expressions, as far as the program uses them               *)
(* ===================================================================== *)

Module Re.

Inductive regex : Type :=
| Void : regex                          (* matches nothing *)
| Eps : regex                           (* the empty word *)
| Cls : (ascii -> bool) -> regex        (* one character of a class *)
| Seq : regex -> regex -> regex
| Alt : regex -> regex -> regex
| Star : regex -> regex.

Definition Plus (r : regex) : regex := Seq r (Star r).
Definition Chr (c : ascii) : regex := Cls (Ascii.eqb c).

(** The concatenation of the items of a pattern, left to right. *)
Fixpoint cat (rs : list regex) : regex :=
  match rs with
  | [] => Eps
  | [r] => r
  | r :: rs' => Seq r (cat rs')
  end.

Fixpoint nullable (r : regex) : bool :=
  match r with
  | Void => false
  | Eps => true
  | Cls _ => false
  | Seq r1 r2 => nullable r1 && nullable r2
  | Alt r1 r2 => nullable r1 || nullable r2
  | Star _ => true
  end.

Fixpoint deriv (c : ascii) (r : regex) : regex :=
  match r with
  | Void => Void
  | Eps => Void
  | Cls p => if p c then Eps else Void
  | Seq r1 r2 =>
      if nullable r1 then Alt (Seq (deriv c r1) r2) (deriv c r2)
      else Seq (deriv c r1) r2
  | Alt r1 r2 => Alt (deriv c r1) (deriv c r2)
  | Star r1 => Seq (deriv c r1) (Star r1)
  end.

(** The whole of [s] is a word of [r]. *)
Fixpoint full_match (r : regex) (s : string) : bool :=
  match s with
  | EmptyString => nullable r
  | String c s' => full_match (deriv c r) s'
  end.

(** Some prefix of [s] is a word of [r]. *)
Fixpoint prefix_match (r : regex) (s : string) : bool :=
  nullable r ||
  match s with
  | EmptyString => false
  | String c s' => prefix_match (deriv c r) s'
  end.

(** [s] without its last character, when that is a line feed. *)
Fixpoint chomp (s : string) : option string :=
  match s with
  | EmptyString => None
  | String c r =>
      match r with
      | EmptyString => if Ascii.eqb c Py.newline then Some EmptyString else None
      | _ => option_map (String c) (chomp r)
      end
  end.

(** A pattern [^r] or [^r$].  Without the MULTILINE flag, [$] matches at
    the end of the text and just before a line feed that ends it. *)
Record pattern : Type := { body : regex; to_end : bool }.

Definition anchored (r : regex) : pattern := {| body := r; to_end := false |}.
Definition anchored_end (r : regex) : pattern := {| body := r; to_end := true |}.

(** Truthiness of [re.match(p, s)]. *)
Definition re_match (p : pattern) (s : string) : bool :=
  if to_end p
  then full_match (body p) s ||
       match chomp s with
       | Some s' => full_match (body p) s'
       | None => false
       end
  else prefix_match (body p) s.

(** The words of a regular expression. *)
Inductive Lang : regex -> string -> Prop :=
| LEps : Lang Eps EmptyString
| LCls p c : p c = true -> Lang (Cls p) (String c EmptyString)
| LSeq r1 r2 s1 s2 : Lang r1 s1 -> Lang r2 s2 -> Lang (Seq r1 r2) (s1 ++ s2)
| LAltL r1 r2 s : Lang r1 s -> Lang (Alt r1 r2) s
| LAltR r1 r2 s : Lang r2 s -> Lang (Alt r1 r2) s
| LStarNil r : Lang (Star r) EmptyString
| LStarCons r s1 s2 :
    Lang r s1 -> Lang (Star r) s2 -> Lang (Star r) (s1 ++ s2).

End Re.

(** Stable sorting, as [list.sort] does it.  [before y x] tells that [y]
    has to come strictly before [x]; an element is inserted in front of the
    first element that need not precede it, so equal keys keep their order. *)
Module PySort.

Section Stable.
Context {A : Type} (before : A -> A -> bool).

Fixpoint place (x : A) (l : list A) : list A :=
  match l with
  | [] => [x]
  | y :: l' => if before y x then y :: place x l' else x :: l
  end.

Definition sort (l : list A) : list A := fold_right place [] l.
End Stable.

Definition Qltb (x y : Q) : bool := negb (Qle_bool y x).

(** [l.sort(key=key, reverse=True)] with rational keys *)
Definition sort_desc {A : Type} (key : A -> Q) (l : list A) : list A :=
  sort (fun y x => Qltb (key x) (key y)) l.

(** [l.sort(key=key)] with integer keys *)
Definition sort_asc {A : Type} (key : A -> Z) (l : list A) : list A :=
  sort (fun y x => (key y <? key x)%Z) l.

End PySort.

(* ===================================================================== *)
(** ** utils.py                                                           *)
(* ===================================================================== *)

Module Utils.
Import Py.

Definition in_chars (cs : string) (c : ascii) : bool :=
  existsb (Ascii.eqb c) (list_ascii_of_string cs).

(** The class [[\w\s\-\.\,\;\:\!\?\(\)\[\]]] whose complement is removed. *)
Definition allowed (c : ascii) : bool :=
  is_word c || is_space c || in_chars "-.,;:!?()[]" c.

Definition clean_text (text : string) : string :=
  if is_empty text then ""
  else
    let text := sub_spaces false (strip text) in
    keep_chars allowed text.

Definition upper_or_space (c : ascii) : bool := is_upper c || is_space c.

(** [^[A-Z][A-Z\s]+$] *)
Definition re_all_caps : Re.pattern :=
  Re.anchored_end (Re.cat [Re.Cls is_upper; Re.Plus (Re.Cls upper_or_space)]).

(** [^\d+\.\s+[A-Z]] *)
Definition re_numbered : Re.pattern :=
  Re.anchored (Re.cat [Re.Plus (Re.Cls is_digit); Re.Chr "."; 
                       Re.Plus (Re.Cls is_space); Re.Cls is_upper]).

(** [[A-Z][a-z]+] *)
Definition capitalised : Re.regex :=
  Re.Seq (Re.Cls is_upper) (Re.Plus (Re.Cls is_lower)).

(** [^[A-Z][a-z]+(\s+[A-Z][a-z]+)*$] *)
Definition re_title_case : Re.pattern :=
  Re.anchored_end
    (Re.cat [capitalised;
             Re.Star (Re.Seq (Re.Plus (Re.Cls is_space)) capitalised)]).

(** [^[A-Z][a-z]+(\s+[A-Z][a-z]+)*\s*$] *)
Definition re_title_case_trailing : Re.pattern :=
  Re.anchored_end
    (Re.cat [capitalised;
             Re.Star (Re.Seq (Re.Plus (Re.Cls is_space)) capitalised);
             Re.Star (Re.Cls is_space)]).

Definition heading_patterns : list Re.pattern :=
  [re_all_caps; re_numbered; re_title_case; re_title_case_trailing].

Definition heading_words : list string :=
  ["introduction"; "conclusion"; "abstract"; "summary"; "background";
   "method"; "methodology"; "results"; "discussion"; "analysis";
   "overview"; "review"; "related work"; "literature review";
   "chapter"; "section"; "part"; "appendix"; "references"].

Definition is_heading_candidate (text : string) : bool :=
  if is_empty text || (String.length (strip text) <? 2)%nat then false
  else
    let text := strip text in
    if existsb (fun pattern => Re.re_match pattern text) heading_patterns
    then true
    else
      let text_lower := lower text in
      existsb (fun word => contains word text_lower) heading_words.

Definition normalize_font_size (font_size : Q) : Z :=
  if Qle_bool 16 font_size then 3
  else if Qle_bool 14 font_size then 2
  else if Qle_bool 12 font_size then 1
  else 0.

Inductive level : Type := H1 | H2 | H3 | BODY.

Definition get_heading_level
    (font_size : Q) (font_weight : option string) (text : option string)
    : level :=
  let normalized_size := normalize_font_size font_size in
  let normalized_size :=
    match font_weight with
    | Some w =>
        if negb (is_empty w) && contains "bold" (lower w)
        then (normalized_size + 1)%Z else normalized_size
    | None => normalized_size
    end in
  let normalized_size :=
    match text with
    | Some t =>
        if negb (is_empty t) && is_heading_candidate t
        then (normalized_size + 1)%Z else normalized_size
    | None => normalized_size
    end in
  if (3 <=? normalized_size)%Z then H1
  else if (2 <=? normalized_size)%Z then H2
  else if (1 <=? normalized_size)%Z then H3
  else BODY.

(** A section dictionary [{"title", "content", "page"}]. *)
Record SectionRec : Type := mkSection {
  title : string;
  content : list string;
  page : Z
}.

Definition nonempty {A : Type} (l : list A) : bool :=
  match l with [] => false | _ => true end.

(** The state of the line scan: the sections closed so far and the one
    being filled. *)
Record SegState : Type := mkSegState {
  sections : list SectionRec;
  current_section : SectionRec
}.

Definition close_current (st : SegState) : list SectionRec :=
  if nonempty (content (current_section st))
  then sections st ++ [current_section st]
  else sections st.

(** One turn of the loop over the lines. *)
Definition segment_line (st : SegState) (line : string) : SegState :=
  let line := strip line in
  if is_empty line then st
  else if is_heading_candidate line then
    {| sections := close_current st;
       current_section := {| title := line; content := []; page := 1 |} |}
  else
    {| sections := sections st;
       current_section :=
         {| title := title (current_section st);
            content := content (current_section st) ++ [line];
            page := page (current_section st) |} |}.

Definition segment_text_by_sections (text : string) : list SectionRec :=
  let lines := split_lines text in
  let start :=
    {| sections := [];
       current_section := {| title := ""; content := []; page := 1 |} |} in
  close_current (fold_left segment_line lines start).

(** A section with its [importance_rank]; the section may carry any
    further keys ([{**section, "importance_rank": ...}]). *)
Record Ranked (S : Type) : Type := mkRanked {
  ranked_section : S;
  importance_rank : Q
}.
Arguments mkRanked {S} _ _.
Arguments ranked_section {S} _.
Arguments importance_rank {S} _.

Section Rank.
Context {S : Type} (content_of : S -> list string).

Definition score_section
    (persona_keywords job_keywords : list string) (section : S) : Ranked S :=
  let section_text := join " " (content_of section) in
  let section_text_lower := lower section_text in
  let persona_score :=
    length (List.filter (fun keyword => contains (lower keyword) section_text_lower)
                   persona_keywords) in
  let job_score :=
    length (List.filter (fun keyword => contains (lower keyword) section_text_lower)
                   job_keywords) in
  let total_score := (persona_score + job_score)%nat in
  let max_possible_score :=
    (length persona_keywords + length job_keywords)%nat in
  let normalized_score :=
    if (0 <? max_possible_score)%nat
    then Z.of_nat total_score # Pos.of_nat max_possible_score
    else 0%Q in
  mkRanked section normalized_score.

Definition rank_sections_by_relevance
    (sections : list S) (persona_keywords job_keywords : list string)
    : list (Ranked S) :=
  let ranked_sections :=
    map (score_section persona_keywords job_keywords) sections in
  PySort.sort_desc importance_rank ranked_sections.
End Rank.

(** The class [[A-Za-z\s\-\.,:;]] of the title pattern. *)
Definition title_char (c : ascii) : bool :=
  is_upper c || is_lower c || is_space c || in_chars "-.,:;" c.

(** [^[A-Z][A-Za-z\s\-\.,:;]+$] *)
Definition re_title_line : Re.pattern :=
  Re.anchored_end (Re.cat [Re.Cls is_upper; Re.Plus (Re.Cls title_char)]).

(** The test of the first loop of [extract_title_from_text]. *)
Definition looks_like_title (line : string) : bool :=
  let line := strip line in
  negb (is_empty line) && (3 <? String.length line)%nat
  && (String.length line <? 200)%nat && Re.re_match re_title_line line.

(** The test of the second loop. *)
Definition long_enough (line : string) : bool :=
  let line := strip line in
  negb (is_empty line) && (3 <? String.length line)%nat.

(** Each loop returns at the first line that passes its test: [find]. *)
Definition extract_title_from_text (text : string) : string :=
  if is_empty text then "Untitled Document"
  else
    let lines := firstn 10 (split_lines text) in
    match find looks_like_title lines with
    | Some line => strip line
    | None =>
        match find long_enough lines with
        | Some line => take 100 (strip line)
        | None => "Untitled Document"
        end
    end.

(** [set(text.lower().split())] *)
Definition text_words (text : string) : gset string :=
  list_to_set (split_ws (lower text)).

Definition calculate_text_similarity (text1 text2 : string) : Q :=
  if is_empty text1 || is_empty text2 then 0%Q
  else
    let words1 := text_words text1 in
    let words2 := text_words text2 in
    if bool_decide (words1 = ∅) || bool_decide (words2 = ∅) then 0%Q
    else
      let intersection := words1 ∩ words2 in
      let union := words1 ∪ words2 in
      if bool_decide (union = ∅) then 0%Q
      else Z.of_nat (size intersection) # Pos.of_nat (size union).

End Utils.

(* ===================================================================== *)
(** ** round1a/outline_extractor.py                                       *)
(* ===================================================================== *)

Module OutlineExtractor.
Import Py Utils.

(** [^\d+\.\d+\s+[A-Z]] *)
Definition re_sub_numbered : Re.pattern :=
  Re.anchored (Re.cat [Re.Plus (Re.Cls is_digit); Re.Chr ".";
                       Re.Plus (Re.Cls is_digit);
                       Re.Plus (Re.Cls is_space); Re.Cls is_upper]).

(** [^\d+\.\d+\.\d+\s+[A-Z]] *)
Definition re_sub_sub_numbered : Re.pattern :=
  Re.anchored (Re.cat [Re.Plus (Re.Cls is_digit); Re.Chr ".";
                       Re.Plus (Re.Cls is_digit); Re.Chr ".";
                       Re.Plus (Re.Cls is_digit);
                       Re.Plus (Re.Cls is_space); Re.Cls is_upper]).

(** [self.heading_patterns] *)
Definition heading_patterns : list Re.pattern :=
  [re_all_caps; re_numbered; re_sub_numbered; re_sub_sub_numbered;
   re_title_case; re_title_case_trailing].

(** [self.heading_keywords] *)
Definition heading_keywords : list string :=
  ["introduction"; "conclusion"; "abstract"; "summary"; "background";
   "method"; "methodology"; "results"; "discussion"; "analysis";
   "overview"; "review"; "related work"; "literature review";
   "chapter"; "section"; "part"; "appendix"; "references";
   "executive summary"; "table of contents"; "acknowledgments"].

(** The patterns of [_determine_level_by_pattern]: the numbering alone,
    without the capital letter that [heading_patterns] asks for. *)

(** [^\d+\.\s+] *)
Definition re_level_1 : Re.pattern :=
  Re.anchored (Re.cat [Re.Plus (Re.Cls is_digit); Re.Chr ".";
                       Re.Plus (Re.Cls is_space)]).

(** [^\d+\.\d+\s+] *)
Definition re_level_2 : Re.pattern :=
  Re.anchored (Re.cat [Re.Plus (Re.Cls is_digit); Re.Chr ".";
                       Re.Plus (Re.Cls is_digit);
                       Re.Plus (Re.Cls is_space)]).

(** [^\d+\.\d+\.\d+\s+] *)
Definition re_level_3 : Re.pattern :=
  Re.anchored (Re.cat [Re.Plus (Re.Cls is_digit); Re.Chr ".";
                       Re.Plus (Re.Cls is_digit); Re.Chr ".";
                       Re.Plus (Re.Cls is_digit);
                       Re.Plus (Re.Cls is_space)]).

(** A heading candidate.  The font strategy records the font and no line
    number; the two line-oriented strategies record the line number. *)
Record Heading : Type := mkHeading {
  text : string;
  level : Utils.level;
  page : Z;
  line_number : option nat;
  font_size : option Q;
  font_name : option string
}.

(** The extractor's input, as [pdf_processor] builds it; every key may be
    missing. *)
Record TextBlock : Type := mkTextBlock {
  block_text : option string;
  block_font_size : option Q;
  block_font_name : option string
}.

Record PageData : Type := mkPageData {
  page_number : option Z;
  text_blocks : option (list TextBlock)
}.

Record Metadata : Type := mkMetadata {
  pages : option (list PageData)
}.

Record PdfData : Type := mkPdfData {
  pdf_text : option string;
  pdf_title : option string;
  pdf_metadata : option Metadata
}.

Record OutlineEntry : Type := mkOutlineEntry {
  entry_level : Utils.level;
  entry_text : string;
  entry_page : Z
}.

Record Outline : Type := mkOutline {
  outline_title : string;
  outline : list OutlineEntry
}.

(** [d.get(key, default)] *)
Definition get {A : Type} (o : option A) (default : A) : A :=
  match o with Some v => v | None => default end.

Definition _is_font_heading (font_size : Q) (font_name text : string) : bool :=
  if Qle_bool 14 font_size then true
  else if contains "bold" (lower font_name) || contains "black" (lower font_name)
  then true
  else if is_heading_candidate text then true
  else false.

Definition _matches_heading_pattern (text : string) : bool :=
  existsb (fun pattern => Re.re_match pattern text) heading_patterns.

Definition _contains_heading_keywords (text : string) : bool :=
  let text_lower := lower text in
  existsb (fun keyword => contains keyword text_lower) heading_keywords.

Definition _determine_level_by_pattern (text : string) : Utils.level :=
  if Re.re_match re_level_1 text then H1
  else if Re.re_match re_level_2 text then H2
  else if Re.re_match re_level_3 text then H3
  else if Re.re_match re_all_caps text then H1
  else if Re.re_match re_title_case text then H2
  else H3.

Definition _determine_level_by_content (text : string) : Utils.level :=
  let text_lower := lower text in
  let h1_keywords :=
    ["introduction"; "conclusion"; "abstract"; "summary"; "chapter"] in
  let h2_keywords :=
    ["method"; "methodology"; "results"; "discussion"; "analysis";
     "background"] in
  let h3_keywords :=
    ["overview"; "review"; "related work"; "literature review"] in
  if existsb (fun keyword => contains keyword text_lower) h1_keywords then H1
  else if existsb (fun keyword => contains keyword text_lower) h2_keywords then H2
  else if existsb (fun keyword => contains keyword text_lower) h3_keywords then H3
  else H3.

Definition font_block_heading (page_num : Z) (block : TextBlock)
    : list Heading :=
  let text := strip (get (block_text block) "") in
  if is_empty text || (String.length text <? 2)%nat then []
  else
    let font_size := get (block_font_size block) 0%Q in
    let font_name := get (block_font_name block) "" in
    if _is_font_heading font_size font_name text then
      match get_heading_level font_size (Some font_name) (Some text) with
      | BODY => []
      | level =>
          [{| text := text; level := level; page := page_num;
              line_number := None;
              font_size := Some font_size; font_name := Some font_name |}]
      end
    else [].

Definition _extract_headings_by_font (metadata : Metadata) : list Heading :=
  flat_map
    (fun page_data =>
       let page_num := get (page_number page_data) 1%Z in
       let text_blocks := get (text_blocks page_data) [] in
       flat_map (font_block_heading page_num) text_blocks)
    (get (pages metadata) []).

(** [enumerate(lines, start)] *)
Fixpoint enumerate {A : Type} (start : nat) (l : list A) : list (nat * A) :=
  match l with
  | [] => []
  | x :: l' => (start, x) :: enumerate (S start) l'
  end.

Definition pattern_line_heading (numbered_line : nat * string)
    : list Heading :=
  let '(line_num, line) := numbered_line in
  let line := strip line in
  if is_empty line || (String.length line <? 2)%nat then []
  else if _matches_heading_pattern line then
    let level := _determine_level_by_pattern line in
    [{| text := line; level := level; page := 1;
        line_number := Some line_num;
        font_size := None; font_name := None |}]
  else [].

Definition _extract_headings_by_pattern (text : string) : list Heading :=
  let lines := split_lines text in
  flat_map pattern_line_heading (enumerate 1 lines).

Definition content_line_heading (numbered_line : nat * string)
    : list Heading :=
  let '(line_num, line) := numbered_line in
  let line := strip line in
  if is_empty line || (String.length line <? 2)%nat then []
  else if _contains_heading_keywords line then
    let level := _determine_level_by_content line in
    [{| text := line; level := level; page := 1;
        line_number := Some line_num;
        font_size := None; font_name := None |}]
  else [].

Definition _extract_headings_by_content (text : string) : list Heading :=
  let lines := split_lines text in
  flat_map content_line_heading (enumerate 1 lines).

(** The loop of [_deduplicate_headings], threading the list of the
    headings kept and the set of the keys seen. *)
Definition dedup_key (heading : Heading) : string :=
  strip (lower (text heading)).

Definition dedup_step (st : list Heading * gset string) (heading : Heading)
    : list Heading * gset string :=
  let '(unique_headings, seen_texts) := st in
  let text := dedup_key heading in
  if bool_decide (text ∈ seen_texts) then st
  else ((unique_headings ++ [heading])%list, {[ text ]} ∪ seen_texts).

Definition _deduplicate_headings (headings : list Heading) : list Heading :=
  fst (fold_left dedup_step headings ([], ∅)).

(** The single pass of [_sort_headings] over the neighbours: [h] is the
    entry now at index [i], [rest] the entries after it. *)
Definition out_of_order (a b : Heading) : bool :=
  (page a =? page b)%Z &&
  match line_number a, line_number b with
  | Some la, Some lb => (lb <? la)%nat
  | _, _ => false
  end.

Fixpoint swap_pass (h : Heading) (rest : list Heading) : list Heading :=
  match rest with
  | [] => [h]
  | h' :: rest' =>
      if out_of_order h h' then h' :: swap_pass h rest'
      else h :: swap_pass h' rest'
  end.

Definition _sort_headings (headings : list Heading) : list Heading :=
  match PySort.sort_asc page headings with
  | [] => []
  | h :: rest => swap_pass h rest
  end.

Definition extract_outline (pdf_data : PdfData) : Outline :=
  let doc_text := get (pdf_text pdf_data) "" in
  let metadata := get (pdf_metadata pdf_data) {| pages := None |} in
  if is_empty doc_text then
    {| outline_title := get (pdf_title pdf_data) "Untitled Document";
       outline := [] |}
  else
    let font_headings := _extract_headings_by_font metadata in
    let pattern_headings := _extract_headings_by_pattern doc_text in
    let content_headings := _extract_headings_by_content doc_text in
    let headings :=
      (font_headings ++ pattern_headings ++ content_headings)%list in
    let unique_headings := _deduplicate_headings headings in
    let sorted_headings := _sort_headings unique_headings in
    {| outline_title := get (pdf_title pdf_data) "Untitled Document";
       outline :=
         map (fun heading =>
                {| entry_level := level heading;
                   entry_text := text heading;
                   entry_page := page heading |})
             sorted_headings |}.

End OutlineExtractor.

(* ===================================================================== *)
(** ** round1b/persona_analyzer.py                                        *)
(* ===================================================================== *)

Module PersonaAnalyzer.
Import Py Utils.

(** [self.persona_keywords]; a [dict] is iterated in insertion order, so
    the table is an association list. *)
Definition persona_keywords : list (string * list string) :=
  [("researcher",
    ["methodology"; "analysis"; "results"; "conclusion"; "hypothesis";
     "experiment"; "data"; "statistical"; "correlation"; "significance";
     "literature review"; "related work"; "background"; "framework"]);
   ("student",
    ["introduction"; "overview"; "concept"; "definition"; "example";
     "explanation"; "summary"; "key points"; "important"; "fundamental";
     "basic"; "principles"; "theory"; "practice"]);
   ("analyst",
    ["trend"; "analysis"; "performance"; "metrics"; "data"; "statistics";
     "comparison"; "benchmark"; "evaluation"; "assessment"; "insights";
     "findings"; "recommendations"; "strategy"]);
   ("manager",
    ["executive summary"; "overview"; "strategy"; "planning"; "goals";
     "objectives"; "implementation"; "timeline"; "budget"; "resources";
     "team"; "leadership"; "decision"; "action"]);
   ("journalist",
    ["news"; "story"; "event"; "interview"; "quote"; "source";
     "background"; "context"; "timeline"; "impact"; "reaction";
     "statement"; "announcement"; "development"])].

(** [self.job_keywords] *)
Definition job_keywords : list (string * list string) :=
  [("literature review",
    ["previous work"; "related research"; "background"; "methodology";
     "findings"; "conclusion"; "limitations"; "future work"]);
   ("exam preparation",
    ["key concepts"; "important"; "definition"; "example"; "practice";
     "review"; "summary"; "main points"; "fundamental"]);
   ("market analysis",
    ["market"; "trend"; "competition"; "revenue"; "growth"; "strategy";
     "performance"; "analysis"; "forecast"; "opportunity"]);
   ("financial analysis",
    ["financial"; "revenue"; "profit"; "loss"; "investment"; "budget";
     "expense"; "income"; "balance"; "cash flow"]);
   ("technical review",
    ["technology"; "system"; "architecture"; "implementation"; "design";
     "performance"; "efficiency"; "optimization"; "scalability"])].

(** [for key, keywords in table.items(): if test(key): return keywords] *)
Fixpoint first_keywords (test : string -> bool)
    (table : list (string * list string)) : option (list string) :=
  match table with
  | [] => None
  | (key, keywords) :: table' =>
      if test key then Some keywords else first_keywords test table'
  end.

Definition default_persona_keywords : list string :=
  ["important"; "key"; "main"; "primary"; "essential"; "critical";
   "analysis"; "review"; "summary"; "overview"; "background"].

Definition _extract_persona_keywords (persona : string) : list string :=
  let persona_lower := lower persona in
  match first_keywords (fun key => contains key persona_lower)
                       persona_keywords with
  | Some keywords => keywords
  | None =>
      match first_keywords
              (fun key =>
                 existsb (fun word => contains word persona_lower)
                         (split_ws key))
              persona_keywords with
      | Some keywords => keywords
      | None => default_persona_keywords
      end
  end.

Definition _extract_job_keywords (job_description : string) : list string :=
  let job_lower := lower job_description in
  match first_keywords (fun key => contains key job_lower) job_keywords with
  | Some keywords => keywords
  | None =>
      match first_keywords
              (fun key =>
                 existsb (fun word => contains word job_lower)
                         (split_ws key))
              job_keywords with
      | Some keywords => keywords
      | None =>
          let words := find_words job_lower in
          firstn 10 (List.filter (fun word => (3 <? String.length word)%nat) words)
      end
  end.

(** A document dictionary; every key is read with [.get]. *)
Record Document : Type := mkDocument {
  file_path : option string;
  doc_text : option string;
  doc_title : option string
}.

(** A section stamped with its document and page number. *)
Record DocSection : Type := mkDocSection {
  section : SectionRec;
  document : string;
  page_number : Z
}.

Definition section_content (s : DocSection) : list string :=
  content (section s).

Record SubSection : Type := mkSubSection {
  sub_document : string;
  sub_page_number : Z;
  refined_text : string;
  sub_importance_rank : Q
}.

Definition get {A : Type} (o : option A) (default : A) : A :=
  match o with Some v => v | None => default end.

(** The paragraphs of a content string:
    [[p.strip() for p in content.split('\n\n') if p.strip()]] *)
Definition paragraphs_of (content : string) : list string :=
  map strip
      (List.filter (fun p => negb (is_empty (strip p))) (split_blank content)).

(** The body of the loop over [paragraphs[:3]]. *)
Definition paragraph_sub_section
    (persona_keywords job_keywords : list string)
    (section : Ranked DocSection) (paragraph : string) : list SubSection :=
  let paragraph_lower := lower paragraph in
  let persona_score :=
    length (List.filter (fun keyword => contains (lower keyword) paragraph_lower)
                   persona_keywords) in
  let job_score :=
    length (List.filter (fun keyword => contains (lower keyword) paragraph_lower)
                   job_keywords) in
  let total_score := (persona_score + job_score)%nat in
  let max_possible := (length persona_keywords + length job_keywords)%nat in
  let relevance_score :=
    if (0 <? max_possible)%nat
    then Z.of_nat total_score # Pos.of_nat max_possible
    else 0%Q in
  if PySort.Qltb (1 # 10) relevance_score then
    [{| sub_document := document (ranked_section section);
        sub_page_number := page_number (ranked_section section);
        refined_text := take 500 paragraph;
        sub_importance_rank := relevance_score |}]
  else [].

Definition section_sub_sections
    (persona_keywords job_keywords : list string)
    (section : Ranked DocSection) : list SubSection :=
  let content := join " " (section_content (ranked_section section)) in
  let paragraphs := paragraphs_of content in
  flat_map (paragraph_sub_section persona_keywords job_keywords section)
           (firstn 3 paragraphs).

Definition _generate_sub_section_analysis
    (sections : list (Ranked DocSection))
    (persona_keywords job_keywords : list string) : list SubSection :=
  let sub_sections :=
    flat_map (section_sub_sections persona_keywords job_keywords) sections in
  firstn 20 (PySort.sort_desc sub_importance_rank sub_sections).

Record ResultMetadata : Type := mkResultMetadata {
  input_documents : list string;
  meta_persona : string;
  meta_job_to_be_done : string;
  processing_timestamp : string
}.

Record ExtractedSection : Type := mkExtractedSection {
  ex_document : string;
  ex_page_number : Z;
  section_title : string;
  ex_importance_rank : Q
}.

Record AnalysisResult : Type := mkAnalysisResult {
  metadata : ResultMetadata;
  extracted_sections : list ExtractedSection;
  sub_section_analysis : list SubSection
}.

(** The sections one document contributes to [all_sections]. *)
Definition document_sections (doc : Document) : list DocSection :=
  let doc_name := get (file_path doc) "unknown" in
  let doc_text := get (doc_text doc) "" in
  if is_empty doc_text then []
  else
    let sections := segment_text_by_sections doc_text in
    map (fun section =>
           {| section := section; document := doc_name; page_number := 1 |})
        sections.

(** [timestamp] is what the clock returns in [_get_timestamp]. *)
Definition analyze_documents
    (timestamp : string)
    (documents : list Document) (persona job_to_be_done : string)
    : AnalysisResult :=
  let persona_keywords := _extract_persona_keywords persona in
  let job_keywords := _extract_job_keywords job_to_be_done in
  let all_sections := flat_map document_sections documents in
  let ranked_sections :=
    rank_sections_by_relevance section_content
      all_sections persona_keywords job_keywords in
  let top_sections := firstn 10 ranked_sections in
  let sub_sections :=
    _generate_sub_section_analysis top_sections persona_keywords job_keywords in
  {| metadata :=
       {| input_documents :=
            map (fun doc => get (file_path doc) "unknown") documents;
          meta_persona := persona;
          meta_job_to_be_done := job_to_be_done;
          processing_timestamp := timestamp |};
     extracted_sections :=
       map (fun section =>
              {| ex_document := document (ranked_section section);
                 ex_page_number := page_number (ranked_section section);
                 section_title := title (PersonaAnalyzer.section (ranked_section section));
                 ex_importance_rank := importance_rank section |})
           top_sections;
     sub_section_analysis := sub_sections |}.

(** [calculate_document_similarity].  The TF-IDF vectoriser and the cosine
    of scikit-learn are outside the repository: [tfidf_cosine a b] is the
    cosine they compute, or [None] when they raise. *)
Section Similarity.
Variable tfidf_cosine : string -> string -> option Q.

Definition word_set (text : string) : gset string :=
  list_to_set (split_ws (lower text)).

Definition calculate_document_similarity (doc1_text doc2_text : string) : Q :=
  if is_empty doc1_text || is_empty doc2_text then 0%Q
  else
    match tfidf_cosine doc1_text doc2_text with
    | Some similarity => similarity
    | None =>
        let words1 := word_set doc1_text in
        let words2 := word_set doc2_text in
        if bool_decide (words1 = ∅) || bool_decide (words2 = ∅) then 0%Q
        else
          let intersection := words1 ∩ words2 in
          let union := words1 ∪ words2 in
          if bool_decide (union = ∅) then 0%Q
          else Z.of_nat (size intersection) # Pos.of_nat (size union)
    end.

(** A section with its [similarity_score]
    ([{**section, "similarity_score": ...}]). *)
Record Related (S : Type) : Type := mkRelated {
  related_section : S;
  similarity_score : Q
}.
Arguments mkRelated {S} _ _.
Arguments related_section {S} _.
Arguments similarity_score {S} _.

Definition find_related_sections {S : Type} (content_of : S -> list string)
    (target_section : string) (all_sections : list S) (threshold : Q)
    : list (Related S) :=
  let related :=
    flat_map
      (fun section =>
         let section_text := join " " (content_of section) in
         let similarity :=
           calculate_document_similarity target_section section_text in
         if Qle_bool threshold similarity
         then [mkRelated section similarity]
         else [])
      all_sections in
  PySort.sort_desc similarity_score related.
End Similarity.

Arguments mkRelated {S} _ _.
Arguments related_section {S} _.
Arguments similarity_score {S} _.

End PersonaAnalyzer.

(* ===================================================================== *)
(** ** main_enhanced.py                                                   *)
(* ===================================================================== *)

Module MainEnhanced.
Import PersonaAnalyzer.

(** [run_round_1b], between the reading of the documents and the call of
    [analyze_documents]: [if not documents: return {"error": ...}].  The
    result is the error payload, if any. *)
Definition no_documents_error (documents : list Document) : option string :=
  match documents with
  | [] => Some "No documents could be processed"
  | _ :: _ => None
  end.

End MainEnhanced.

(* ===================================================================== *)
(** ** pdf_processor.py                                                   *)
(* ===================================================================== *)

Module PDFProcessor.
Import Py Utils.

(** What [extract_text_with_metadata] returns. *)
Record Extracted : Type := mkExtracted {
  text : string;
  title : string;
  metadata : OutlineExtractor.Metadata;
  pages : nat;
  file_path : string
}.

(** [extract_text_with_metadata], from the results of the two extraction
    libraries: [plumber_text] and [plumber_metadata] are what
    [_extract_with_pdfplumber] returns, [pypdf_text] what
    [_extract_with_pypdf2] returns. *)
Definition extract_text_with_metadata
    (plumber_text : string) (plumber_metadata : OutlineExtractor.Metadata)
    (pypdf_text : string) (pdf_path : string) : Extracted :=
  let combined_text :=
    if negb (is_empty plumber_text) then plumber_text else pypdf_text in
  let combined_text := clean_text combined_text in
  let title := extract_title_from_text combined_text in
  {| text := combined_text;
     title := title;
     metadata := plumber_metadata;
     pages :=
       length (OutlineExtractor.get (OutlineExtractor.pages plumber_metadata) []);
     file_path := pdf_path |}.

(** The dictionary as [extract_outline] reads it. *)
Definition as_pdf_data (e : Extracted) : OutlineExtractor.PdfData :=
  {| OutlineExtractor.pdf_text := Some (text e);
     OutlineExtractor.pdf_title := Some (title e);
     OutlineExtractor.pdf_metadata := Some (metadata e) |}.

(** The dictionary as [analyze_documents] reads it. *)
Definition as_document (e : Extracted) : PersonaAnalyzer.Document :=
  {| PersonaAnalyzer.file_path := Some (file_path e);
     PersonaAnalyzer.doc_text := Some (text e);
     PersonaAnalyzer.doc_title := Some (title e) |}.

End PDFProcessor.

(* ===================================================================== *)
(** ** error_handler.py                                                   *)
(* ===================================================================== *)

Module ErrorHandler.
Import Py.

(** [os.path.basename] on POSIX paths: what follows the last slash. *)
Fixpoint basename (path : string) : string :=
  match path with
  | EmptyString => EmptyString
  | String c r =>
      if contains "/" r then basename r
      else if Ascii.eqb c "/" then r else path
  end.

(** An exception, as the handlers read it: [type(error).__name__] and
    [str(error)]. *)
Record Exception : Type := mkException {
  type_name : string;
  message : string
}.

(** [self.error_counts[error_type] =
       self.error_counts.get(error_type, 0) + 1] *)
Definition count_error (error_type : string) (error_counts : gmap string nat)
    : gmap string nat :=
  <[ error_type := (default 0%nat (error_counts !! error_type) + 1)%nat ]>
    error_counts.

(** [sum(self.error_counts.values())] *)
Definition total_errors (error_counts : gmap string nat) : nat :=
  map_fold (fun _ count total => (count + total)%nat) 0%nat error_counts.

Inductive health : Type := EXCELLENT | GOOD | FAIR | POOR.

Definition _calculate_system_health (error_counts : gmap string nat) : health :=
  let total_errors := total_errors error_counts in
  if (total_errors =? 0)%nat then EXCELLENT
  else if (total_errors <=? 5)%nat then GOOD
  else if (total_errors <=? 10)%nat then FAIR
  else POOR.

Record FallbackOutline : Type := mkFallbackOutline {
  fallback_title : string;
  fallback_outline : list OutlineExtractor.OutlineEntry
}.

Record PdfErrorInfo : Type := mkPdfErrorInfo {
  timestamp : string;
  file_path : string;
  error_type : string;
  error_message : string;
  fallback_strategy : string;
  recovery_successful : bool;
  fallback_result : option FallbackOutline
}.

(** [_retry_processing]: the first turn of the loop waits and returns
    [True]. *)
Definition _retry_processing (file_path : string) : bool := true.

(** [_partial_recovery]: stores a fallback result and returns [True]. *)
Definition _partial_recovery (file_path : string) : bool * FallbackOutline :=
  (true,
   {| fallback_title := "Partially Recovered - " ++ basename file_path;
      fallback_outline :=
        [OutlineExtractor.mkOutlineEntry Utils.H1 "Recovery Notice" 1;
         OutlineExtractor.mkOutlineEntry Utils.H2
           "Content partially extracted" 1] |}).

(** [handle_pdf_processing_error]; [now] is the clock's answer.  The
    handler's state is its [error_counts]. *)
Definition handle_pdf_processing_error
    (error_counts : gmap string nat) (now : string)
    (file_path : string) (error : Exception) (fallback_strategy : string)
    : gmap string nat * PdfErrorInfo :=
  let error_type := type_name error in
  let error_counts := count_error error_type error_counts in
  let error_info (successful : bool) (fallback : option FallbackOutline) :=
    {| timestamp := now;
       file_path := file_path;
       error_type := error_type;
       error_message := message error;
       fallback_strategy := fallback_strategy;
       recovery_successful := successful;
       fallback_result := fallback |} in
  if String.eqb fallback_strategy "skip" then
    (error_counts,
     error_info true
       (Some {| fallback_title := "Error Processing " ++ basename file_path;
                fallback_outline := [] |}))
  else if String.eqb fallback_strategy "retry" then
    (error_counts, error_info (_retry_processing file_path) None)
  else if String.eqb fallback_strategy "partial" then
    let '(successful, fallback) := _partial_recovery file_path in
    (error_counts, error_info successful (Some fallback))
  else (error_counts, error_info false None).

Record AnalysisFallback : Type := mkAnalysisFallback {
  fallback_input_documents : list string;
  fallback_error : string;
  fallback_timestamp : string
}.

Record AnalysisErrorInfo : Type := mkAnalysisErrorInfo {
  analysis_timestamp : string;
  analysis_error_type : string;
  analysis_error_message : string;
  documents_affected : nat;
  recovery_strategy : string;
  analysis_recovery_successful : bool;
  analysis_fallback_result : option AnalysisFallback
}.

(** [handle_analysis_error]; the fallback result has empty
    [extracted_sections] and [sub_section_analysis]. *)
Definition handle_analysis_error
    (error_counts : gmap string nat) (now : string)
    (documents : list PersonaAnalyzer.Document) (error : Exception)
    (recovery_strategy : string)
    : gmap string nat * AnalysisErrorInfo :=
  let error_type := type_name error in
  let error_counts := count_error error_type error_counts in
  let degraded := String.eqb recovery_strategy "degraded" in
  (error_counts,
   {| analysis_timestamp := now;
      analysis_error_type := error_type;
      analysis_error_message := message error;
      documents_affected := length documents;
      recovery_strategy := recovery_strategy;
      analysis_recovery_successful := degraded;
      analysis_fallback_result :=
        if degraded then
          Some {| fallback_input_documents :=
                    map (fun doc =>
                           PersonaAnalyzer.get (PersonaAnalyzer.file_path doc)
                             "unknown")
                        documents;
                  fallback_error := message error;
                  fallback_timestamp := now |}
        else None |}).

(** An error met by a run: which handler took it, and what it was given. *)
Inductive handled : Type :=
| PdfError (file_path : string) (error : Exception) (fallback_strategy : string)
| AnalysisError (documents : list PersonaAnalyzer.Document)
                (error : Exception) (recovery_strategy : string).

Definition handled_type (h : handled) : string :=
  match h with
  | PdfError _ error _ => type_name error
  | AnalysisError _ error _ => type_name error
  end.

(** The handler's state after one more error. *)
Definition handle (now : string) (error_counts : gmap string nat) (h : handled)
    : gmap string nat :=
  match h with
  | PdfError file_path error fallback_strategy =>
      fst (handle_pdf_processing_error error_counts now file_path error
             fallback_strategy)
  | AnalysisError documents error recovery_strategy =>
      fst (handle_analysis_error error_counts now documents error
             recovery_strategy)
  end.

(** [handle_timeout_error]: the suggested actions. *)
Definition timeout_suggested_actions (operation : string) : list string :=
  if String.eqb operation "pdf_processing" then
    ["Reduce PDF file size"; "Process in smaller batches";
     "Use faster storage (SSD)"]
  else if String.eqb operation "analysis" then
    ["Reduce number of documents"; "Simplify persona configuration";
     "Use basic analysis mode"]
  else [].

(** The result dictionary of [safe_execute]. *)
Record Execution (A : Type) : Type := mkExecution {
  success : bool;
  result : option A;
  error : option PdfErrorInfo
}.
Arguments mkExecution {A} _ _ _.
Arguments success {A} _.
Arguments result {A} _.
Arguments error {A} _.

(** [safe_execute]: [outcome] is what the call of [func] on the arguments
    does, a result or an exception; [first_arg] is [str(args[0])] when there
    is an argument.  [error_counts] is the state of the module's handler. *)
Definition safe_execute {A : Type}
    (error_counts : gmap string nat) (now : string)
    (outcome : Exception + A) (first_arg : option string)
    : gmap string nat * Execution A :=
  match outcome with
  | inr value =>
      (error_counts,
       {| success := true; result := Some value; error := None |})
  | inl e =>
      let '(error_counts, error_info) :=
        handle_pdf_processing_error error_counts now
          (match first_arg with Some a => a | None => "unknown" end)
          e "skip" in
      (error_counts,
       {| success := false; result := None; error := Some error_info |})
  end.

End ErrorHandler.

(* ===================================================================== *)
(** ** performance_benchmarks.py                                          *)
(* ===================================================================== *)

Module PerformanceBenchmark.
Import Py.

(** The score of one round in [_calculate_performance_grade]; [total_time]
    is [round.get('total_time', 0)]. *)
Definition round_score (total_time : Q) (full reduced : Q) : Q :=
  if Qle_bool total_time full then 100
  else if Qle_bool total_time reduced then 80
  else 60.

Definition grade_of_score (avg_score : Q) : string :=
  if Qle_bool 90 avg_score then "A+"
  else if Qle_bool 80 avg_score then "A"
  else if Qle_bool 70 avg_score then "B+"
  else if Qle_bool 60 avg_score then "B"
  else "C".

(** [round1a_time] and [round1b_time] are the ['total_time'] entries of the
    two result dictionaries, [None] when the key is missing. *)
Definition _calculate_performance_grade
    (round1a_time round1b_time : option Q) : string :=
  let scores :=
    [round_score (OutlineExtractor.get round1a_time 0%Q) 10 15;
     round_score (OutlineExtractor.get round1b_time 0%Q) 60 90] in
  let avg_score :=
    (fold_right Qplus 0 scores / inject_Z (Z.of_nat (length scores)))%Q in
  grade_of_score avg_score.

(** The counters of [benchmark_accuracy]. *)
Record Metrics : Type := mkMetrics {
  heading_detection : nat;
  hierarchy_classification : nat;
  page_tracking : nat;
  persona_matching : nat;
  total_tests : nat
}.

Definition is_heading_level (l : Utils.level) : bool :=
  match l with
  | Utils.H1 | Utils.H2 | Utils.H3 => true
  | Utils.BODY => false
  end.

Definition bump (test : bool) (n : nat) : nat := if test then S n else n.

(** One turn of the loop over the test files: [outline] is the outline
    extracted from the file, [None] when its processing raised. *)
Definition accuracy_step (m : Metrics) (outline : option OutlineExtractor.Outline)
    : Metrics :=
  match outline with
  | None => m
  | Some o =>
      let entries := OutlineExtractor.outline o in
      {| heading_detection :=
           bump (Utils.nonempty entries) (heading_detection m);
         hierarchy_classification :=
           bump (existsb (fun h => is_heading_level (OutlineExtractor.entry_level h))
                         entries)
                (hierarchy_classification m);
         page_tracking :=
           bump (existsb (fun _ => true) entries) (page_tracking m);
         persona_matching := persona_matching m;
         total_tests := S (total_tests m) |}
  end.

(** [(count / total_tests) * 100] *)
Definition percentage (count total : nat) : Q :=
  ((Z.of_nat count # Pos.of_nat total) * 100)%Q.

(** [benchmark_accuracy], from the outlines of the test files; the result
    keeps the order of the dictionary. *)
Definition benchmark_accuracy (outlines : list (option OutlineExtractor.Outline))
    : list (string * Q) :=
  let m := fold_left accuracy_step outlines (mkMetrics 0 0 0 0 0) in
  if (0 <? total_tests m)%nat then
    [("heading_detection", percentage (heading_detection m) (total_tests m));
     ("hierarchy_classification",
      percentage (hierarchy_classification m) (total_tests m));
     ("page_tracking", percentage (page_tracking m) (total_tests m));
     ("persona_matching", percentage (persona_matching m) (total_tests m))]
  else [].

Definition _calculate_accuracy_grade (accuracy : list (string * Q)) : string :=
  match accuracy with
  | [] => "N/A"
  | _ =>
      let avg_accuracy :=
        (fold_right Qplus 0 (map snd accuracy)
         / inject_Z (Z.of_nat (length accuracy)))%Q in
      if Qle_bool 95 avg_accuracy then "A+"
      else if Qle_bool 90 avg_accuracy then "A"
      else if Qle_bool 85 avg_accuracy then "B+"
      else if Qle_bool 80 avg_accuracy then "B"
      else "C"
  end.

End PerformanceBenchmark.

(* ===================================================================== *)
(** ** [main_enhanced.py]: the second round                               *)
(* ===================================================================== *)

Module EnhancedPDFIntelligenceSystem.
Import Py.







End EnhancedPDFIntelligenceSystem.

(* ===================================================================== *)
(** ** Vocabulary of the statements                                       *)
(* ===================================================================== *)

(** [settled before a b]: for the order [before], [b] does not have to
    precede [a]. *)
Definition settled {A : Type} (before : A -> A -> bool) (a b : A) : Prop :=
  before b a = false.

(** Every character of the string satisfies [P]. *)
Fixpoint all_chars (P : ascii -> Prop) (s : string) : Prop :=
  match s with
  | EmptyString => True
  | String c r => P c /\ all_chars P r
  end.

Definition not_newline (c : ascii) : Prop := c <> Py.newline.

(** A text of whitespace only, the empty text included. *)
Definition blank (s : string) : Prop :=
  all_chars (fun c => Py.is_space c = true) s.

Definition starts_unspaced (s : string) : Prop :=
  match s with
  | EmptyString => True
  | String c _ => Py.is_space c = false
  end.

(** A non-empty run of characters of the class [P]. *)
Definition run (P : ascii -> bool) (s : string) : Prop :=
  s <> "" /\ all_chars (fun c => P c = true) s.

Section RankVocabulary.
Import Py Utils.
Context {S : Type} (content_of : S -> list string).

(** [keyword] occurs in the joined content of [section], whatever the
    case of the letters. *)
Definition occurs_in (section : S) (keyword : string) : Prop :=
  exists front rest,
    lower (join " " (content_of section)) = front ++ lower keyword ++ rest.

End RankVocabulary.

Section DedupVocabulary.
Import Py Utils OutlineExtractor.

(** The candidates that [_deduplicate_headings] keeps from [l] when the
    keys of [seen] have been met before. *)
Fixpoint kept_from (seen : gset string) (l : list Heading) : list Heading :=
  match l with
  | [] => []
  | h :: l' =>
      if bool_decide (dedup_key h ∈ seen) then kept_from seen l'
      else h :: kept_from ({[ dedup_key h ]} ∪ seen) l'
  end.

Definition keys_of (l : list Heading) : gset string :=
  list_to_set (map dedup_key l).

Definition has_key (key : string) (h : Heading) : bool :=
  String.eqb (dedup_key h) key.

(** The outline entry of a heading candidate. *)
Definition to_entry (heading : Heading) : OutlineEntry :=
  {| entry_level := level heading;
     entry_text := text heading;
     entry_page := page heading |}.

End DedupVocabulary.

Section SegmentVocabulary.
Import Py Utils.

(** What the line scan stores as a content line: a non-empty, trimmed
    string without line feed. *)
Definition content_line (l : string) : Prop :=
  l <> "" /\ starts_unspaced l /\ rstrip l = l /\ all_chars not_newline l.

Definition filled_section (s : SectionRec) : Prop :=
  content s <> [] /\ Forall content_line (content s).

(** The invariant of the line scan. *)
Definition scan_invariant (st : SegState) : Prop :=
  Forall filled_section (sections st) /\
  Forall content_line (content (current_section st)).

End SegmentVocabulary.

Section SubSectionVocabulary.
Import Py Utils PersonaAnalyzer.

(** The score [rank_sections_by_relevance] gives to a section whose joined
    content is [paragraph]. *)
Definition paragraph_score (pk jk : list string) (paragraph : string) : Q :=
  importance_rank (score_section (fun p : string => [p]) pk jk paragraph).

(** The paragraphs of a section that the sub-section step looks at. *)
Definition paragraphs_considered (section : Ranked DocSection) : list string :=
  firstn 3 (paragraphs_of (join " " (section_content (ranked_section section)))).

(** The content of a section as one string, its lines joined by spaces. *)
Definition joined_content (section : Ranked DocSection) : string :=
  join " " (section_content (ranked_section section)).

(** A blank-line boundary: two line feeds in a row. *)
Definition blank_line : string := String newline (String newline "").

(** [pieces] are what lies between the blank-line boundaries of a string,
    the boundaries being taken from the left, one after the other: the piece
    that a boundary ends holds no boundary, not even one that would begin on
    the first line feed of its own. *)
Inductive blank_line_pieces : string -> list string -> Prop :=
| pieces_whole (s : string) :
    contains blank_line s = false -> blank_line_pieces s [s]
| pieces_cut (p rest : string) (pieces : list string) :
    contains blank_line (p ++ String newline "") = false ->
    blank_line_pieces rest pieces ->
    blank_line_pieces (p ++ blank_line ++ rest) (p :: pieces).

(** The paragraphs that pieces give: each piece trimmed, the pieces that
    are blank once trimmed left out. *)
Inductive trimmed_paragraphs : list string -> list string -> Prop :=
| trimmed_none : trimmed_paragraphs [] []
| trimmed_blank (p : string) (pieces paragraphs : list string) :
    strip p = "" -> trimmed_paragraphs pieces paragraphs ->
    trimmed_paragraphs (p :: pieces) paragraphs
| trimmed_kept (p : string) (pieces paragraphs : list string) :
    strip p <> "" -> trimmed_paragraphs pieces paragraphs ->
    trimmed_paragraphs (p :: pieces) (strip p :: paragraphs).

(** The paragraphs of a content, split on blank-line boundaries. *)
Definition paragraphs_on_blank_lines
    (content : string) (paragraphs : list string) : Prop :=
  exists pieces,
    blank_line_pieces content pieces /\ trimmed_paragraphs pieces paragraphs.

End SubSectionVocabulary.

Section KeywordVocabulary.
Import Py.

(** [kws] is the entry of the first key of [table] that satisfies [P]. *)
Definition first_match (P : string -> Prop)
    (table : list (string * list string)) (kws : list string) : Prop :=
  exists front key rest,
    table = (front ++ (key, kws) :: rest)%list /\ P key /\
    forall k v, In (k, v) front -> ~ P k.

Definition no_match (P : string -> Prop)
    (table : list (string * list string)) : Prop :=
  forall k v, In (k, v) table -> ~ P k.

(** The key occurs in the lowercased text. *)
Definition exact_match (text key : string) : Prop :=
  exists front rest, lower text = front ++ key ++ rest.

(** A word of the key occurs in the lowercased text. *)
Definition word_match (text key : string) : Prop :=
  exists word, In word (split_ws key) /\
    exists front rest, lower text = front ++ word ++ rest.

End KeywordVocabulary.

Section NumberingVocabulary.
Import Py.

Definition dot : string := ".".

(** The three numbered shapes: [N. ], [N.N ] and [N.N.N ] followed by
    anything. *)
Definition numbered_1 (s : string) : Prop :=
  exists d sp q, s = d ++ dot ++ sp ++ q /\ run is_digit d /\ run is_space sp.

Definition numbered_2 (s : string) : Prop :=
  exists d1 d2 sp q,
    s = d1 ++ dot ++ d2 ++ sp ++ q /\
    run is_digit d1 /\ run is_digit d2 /\ run is_space sp.

Definition numbered_3 (s : string) : Prop :=
  exists d1 d2 d3 sp q,
    s = d1 ++ dot ++ d2 ++ dot ++ d3 ++ sp ++ q /\
    run is_digit d1 /\ run is_digit d2 /\ run is_digit d3 /\ run is_space sp.

End NumberingVocabulary.

(** The words of a text as the similarity functions read them: in lower
    case, cut at whitespace. *)
Definition words_of (text : string) : list string :=
  Py.split_ws (Py.lower text).

(** How many different strings a list holds. *)
Definition distinct (l : list string) : nat := length (nodup string_dec l).

(** The strings of [l1] that [l2] holds too. *)
Definition common (l1 l2 : list string) : list string :=
  List.filter (fun w => existsb (String.eqb w) l2) l1.

(** [x] is the first element of [l] that has the property [P]. *)
Definition first_such {A : Type} (P : A -> Prop) (l : list A) (x : A) : Prop :=
  exists front rest,
    l = (front ++ x :: rest)%list /\ P x /\ Forall (fun y => ~ P y) front.

(** A trimmed line that reads as a title: a capital letter, then letters,
    whitespace and the signs [-.,:;] only, more than 3 and fewer than 200
    characters in all. *)
Definition title_shaped (line : string) : Prop :=
  (3 < String.length line < 200)%nat /\
  exists c r, line = String c r /\ Py.is_upper c = true /\
    all_chars (fun c => Utils.title_char c = true) r.

(** The only whitespace character allowed is the plain space. *)
Definition plain_space (c : ascii) : Prop :=
  Py.is_space c = true -> c = " "%char.

(** The characters that [clean_text] keeps. *)
Definition clean_char (c : ascii) : Prop :=
  Utils.allowed c = true /\ plain_space c.

(** How high a level stands: H1 above H2 above H3 above body text. *)
Definition level_rank (l : Utils.level) : Z :=
  match l with
  | Utils.H1 => 3
  | Utils.H2 => 2
  | Utils.H3 => 1
  | Utils.BODY => 0
  end.

(** The font weight names a bold font. *)
Definition bold_weight (font_weight : option string) : bool :=
  match font_weight with
  | Some w => Py.contains "bold" (Py.lower w)
  | None => false
  end.

(** The text is given and looks like a heading. *)
Definition heading_text (text : option string) : bool :=
  match text with
  | Some t => Utils.is_heading_candidate t
  | None => false
  end.

(** The level of a size bucket, as [get_heading_level] maps it. *)
Definition level_of_size (n : Z) : Utils.level :=
  if (3 <=? n)%Z then Utils.H1
  else if (2 <=? n)%Z then Utils.H2
  else if (1 <=? n)%Z then Utils.H3
  else Utils.BODY.

(** What a satisfied test adds to the size bucket. *)
Definition bonus (b : bool) : Z := if b then 1%Z else 0%Z.

(** The non-blank lines of a text, trimmed, as the line scans see them. *)
Definition scanned_lines (text : string) : list string :=
  List.filter (fun line => negb (Py.is_empty line))
    (map Py.strip (Py.split_lines text)).

Section SegmentFurtherVocabulary.
Import Py Utils.

(** The content lines the line scan holds: those of the closed sections,
    then those of the section being filled. *)
Definition contents (st : SegState) : list string :=
  (flat_map content (sections st) ++ content (current_section st))%list.

(** [t] is a heading line of [text]. *)
Definition heading_line (text t : string) : Prop :=
  is_heading_candidate t = true /\ In t (scanned_lines text).

(** The invariant of the line scan on the titles and pages. *)
Definition titles_invariant (text : string) (st : SegState) : Prop :=
  Forall (fun s => (title s = "" \/ heading_line text (title s)) /\ page s = 1%Z)
         (sections st) /\
  Forall (fun s => heading_line text (title s)) (tl (sections st)) /\
  ((title (current_section st) = "" \/
    heading_line text (title (current_section st))) /\
   page (current_section st) = 1%Z) /\
  (sections st <> [] -> heading_line text (title (current_section st))).

End SegmentFurtherVocabulary.

(** The recorded line number of a heading, 0 when there is none. *)
Definition line_no (h : OutlineExtractor.Heading) : nat :=
  match OutlineExtractor.line_number h with
  | Some n => n
  | None => 0%nat
  end.

(** Headings in the order of their pages. *)
Definition by_page (a b : OutlineExtractor.Heading) : Prop :=
  (OutlineExtractor.page a <= OutlineExtractor.page b)%Z.

Section LineStrategyVocabulary.
Import Py Utils OutlineExtractor.

(** What a line-oriented strategy makes of one numbered line: at most one
    heading, on page 1, with the number of the line and its trimmed text of
    at least two characters. *)
Definition line_heading (f : nat * string -> list Heading) : Prop :=
  forall n line h, In h (f (n, line)) ->
    f (n, line) = [h] /\
    page h = 1%Z /\ line_number h = Some n /\
    OutlineExtractor.text h = strip line /\
    (2 <= String.length (strip line))%nat /\
    level h <> BODY.

(** A heading found on a line of the text. *)
Definition found_on_line (lines : list string) (h : Heading) : Prop :=
  page h = 1%Z /\ level h <> BODY /\
  (2 <= String.length (OutlineExtractor.text h))%nat /\
  strip (OutlineExtractor.text h) = OutlineExtractor.text h /\
  exists n line,
    line_number h = Some (S n) /\ nth_error lines n = Some line /\
    OutlineExtractor.text h = strip line.

(** [a] and [b] are on one page and both carry a line number, that of [a]
    the larger: [a] before [b] is the lines reversed. *)
Definition reversed_lines (a b : Heading) : Prop :=
  page a = page b /\
  exists la lb,
    line_number a = Some la /\ line_number b = Some lb /\ (lb < la)%nat.

(** No two neighbours of [h :: rest] have their lines reversed. *)
Fixpoint neighbours_in_order (h : Heading) (rest : list Heading) : Prop :=
  match rest with
  | [] => True
  | h' :: rest' => ~ reversed_lines h h' /\ neighbours_in_order h' rest'
  end.

(** The lines of a text with their numbers, from 1. *)
Definition numbered_lines (text : string) : list (nat * string) :=
  combine (seq 1 (length (split_lines text))) (split_lines text).

(** A numbered line long enough for a line-oriented strategy. *)
Definition long_line (numbered_line : nat * string) : bool :=
  (2 <=? String.length (strip (snd numbered_line)))%nat.

(** The heading that the pattern strategy makes of a numbered line, and the
    one the keyword strategy makes. *)
Definition pattern_heading (numbered_line : nat * string) : Heading :=
  let line := strip (snd numbered_line) in
  mkHeading line (_determine_level_by_pattern line) 1
    (Some (fst numbered_line)) None None.

Definition keyword_heading (numbered_line : nat * string) : Heading :=
  let line := strip (snd numbered_line) in
  mkHeading line (_determine_level_by_content line) 1
    (Some (fst numbered_line)) None None.

(** The text of a block as the font strategy reads it, its font size and
    its font name. *)
Definition block_line (block : TextBlock) : string :=
  strip (OutlineExtractor.get (block_text block) "").

Definition block_size (block : TextBlock) : Q :=
  OutlineExtractor.get (block_font_size block) 0%Q.

Definition block_font (block : TextBlock) : string :=
  OutlineExtractor.get (block_font_name block) "".

(** The blocks of which the font strategy makes a heading. *)
Definition font_emits (block : TextBlock) : Prop :=
  (2 <= String.length (block_line block))%nat /\
  ((14 <= block_size block)%Q \/
   contains "bold" (lower (block_font block)) = true \/
   is_heading_candidate (block_line block) = true \/
   (contains "black" (lower (block_font block)) = true /\
    (12 <= block_size block)%Q)).

(** The heading it makes of a block of a page. *)
Definition font_heading (page_data : PageData) (block : TextBlock) : Heading :=
  mkHeading (block_line block)
    (get_heading_level (block_size block) (Some (block_font block))
       (Some (block_line block)))
    (OutlineExtractor.get (page_number page_data) 1%Z)
    None (Some (block_size block)) (Some (block_font block)).

(** The blocks of the pages, page after page, each with its page. *)
Definition blocks_in_order (metadata : Metadata)
    : list (PageData * TextBlock) :=
  flat_map
    (fun page_data =>
       map (pair page_data) (OutlineExtractor.get (text_blocks page_data) []))
    (OutlineExtractor.get (pages metadata) []).

End LineStrategyVocabulary.

Section OutlineVocabulary.
Import Py Utils OutlineExtractor.

(** The key under which [_deduplicate_headings] files an outline entry. *)
Definition entry_key (e : OutlineEntry) : string :=
  strip (lower (entry_text e)).

(** Outline entries in the order of their pages. *)
Definition entries_by_page (a b : OutlineEntry) : Prop :=
  (entry_page a <= entry_page b)%Z.

(** An entry as the three strategies make them: a heading level, and a
    trimmed text of at least two characters. *)
Definition heading_entry (e : OutlineEntry) : Prop :=
  entry_level e <> BODY /\
  (2 <= String.length (entry_text e))%nat /\
  strip (entry_text e) = entry_text e.

(** The candidates of the three strategies, in the order in which
    [extract_outline] collects them. *)
Definition candidates (text : string) (metadata : Metadata) : list Heading :=
  (_extract_headings_by_font metadata
   ++ _extract_headings_by_pattern text
   ++ _extract_headings_by_content text)%list.

End OutlineVocabulary.

Section AnalysisVocabulary.
Import Py Utils PersonaAnalyzer.

(** What [analyze_documents] reports of a ranked section. *)
Definition reported (r : Ranked DocSection) : ExtractedSection :=
  mkExtractedSection (document (ranked_section r))
    (page_number (ranked_section r))
    (title (section (ranked_section r)))
    (importance_rank r).

(** The sub-section made of the whole content of a ranked section. *)
Definition whole_section (r : Ranked DocSection) : SubSection :=
  mkSubSection (document (ranked_section r))
    (page_number (ranked_section r))
    (take 500 (join " " (section_content (ranked_section r))))
    (importance_rank r).

(** The section was cut from one of the documents, which has a text. *)
Definition cut_from (documents : list Document) (ds : DocSection) : Prop :=
  page_number ds = 1%Z /\
  exists doc,
    In doc documents /\
    PersonaAnalyzer.get (doc_text doc) "" <> "" /\
    document ds = PersonaAnalyzer.get (file_path doc) "unknown" /\
    In (section ds)
       (segment_text_by_sections (PersonaAnalyzer.get (doc_text doc) "")).

(** The keywords found in the joined content of a section, counted with
    their repetitions in the list. *)
Definition hits (keywords : list string) (ds : DocSection) : nat :=
  length
    (List.filter
       (fun keyword =>
          contains (lower keyword) (lower (join " " (section_content ds))))
       keywords).

End AnalysisVocabulary.

(** A lower-case word: letters in lower case, digits and underscores. *)
Definition lower_word (w : string) : Prop :=
  w <> "" /\
  all_chars (fun c => Py.is_word c = true /\ Py.is_upper c = false) w.

(** The document is what [extract_text_with_metadata] returned for some
    file. *)
Definition processed_pdf (doc : PersonaAnalyzer.Document) : Prop :=
  exists plumber_text plumber_metadata pypdf_text pdf_path,
    doc = PDFProcessor.as_document
            (PDFProcessor.extract_text_with_metadata
               plumber_text plumber_metadata pypdf_text pdf_path).

(** How often the handler has counted an error of the type. *)
Definition counted (error_counts : gmap string nat) (error_type : string)
    : nat :=
  match error_counts !! error_type with
  | Some count => count
  | None => 0%nat
  end.

(** How many of the errors handled are of the type. *)
Definition errors_of_type (error_type : string)
    (errors : list (string * ErrorHandler.handled)) : nat :=
  length
    (List.filter
       (fun e => String.eqb (ErrorHandler.handled_type (snd e)) error_type)
       errors).

(** The state of the handler after the errors, each handled at its
    time. *)
Definition handle_all (error_counts : gmap string nat)
    (errors : list (string * ErrorHandler.handled)) : gmap string nat :=
  fold_left (fun counts e => ErrorHandler.handle (fst e) counts (snd e))
    errors error_counts.



(* ===================================================================== *)
(** ** Facts about the string primitives                                  *)
(* ===================================================================== *)

#[local] Arguments String.append !_ _ / : simpl nomatch.

Section StringFacts.
Import Py.

Lemma prefix_iff (p s : string) :
  String.prefix p s = true <-> exists rest, s = p ++ rest.
Proof.
  revert s; induction p as [|c p IH]; intros [|d s]; simpl.
  - split; eauto.
  - split; eauto.
  - split; [discriminate | intros [rest H]; discriminate].
  - destruct (ascii_dec c d) as [->|Hne].
    + rewrite IH. split; intros [rest H]; exists rest; simpl in *; congruence.
    + split; [discriminate | intros [rest H]; simpl in H; congruence].
Qed.

(** [sub in s] holds exactly when [s] can be cut around a copy of [sub]. *)
Lemma contains_iff (sub s : string) :
  contains sub s = true <-> exists front rest, s = front ++ sub ++ rest.
Proof.
  induction s as [|c s IH]; cbn [contains].
  - rewrite orb_false_r, prefix_iff. split.
    + intros [rest H]. exists "", rest. exact H.
    + intros [front [rest H]]. destruct front; simpl in H.
      * eauto.
      * discriminate.
  - rewrite orb_true_iff, prefix_iff, IH. split.
    + intros [[rest H] | [front [rest H]]].
      * exists "", rest. exact H.
      * exists (String c front), rest. simpl. congruence.
    + intros [front [rest H]]. destruct front as [|d front]; simpl in H.
      * left. eauto.
      * right. exists front, rest. congruence.
Qed.

Lemma take_length (n : nat) (s : string) : (String.length (take n s) <= n)%nat.
Proof.
  revert s; induction n as [|n IH]; intros [|c s]; simpl; try lia.
  specialize (IH s). lia.
Qed.

End StringFacts.

(* ===================================================================== *)
(** ** Facts about stable sorting                                         *)
(* ===================================================================== *)

Section SortingFacts.
Import PySort.
Context {A : Type} (before : A -> A -> bool).

Lemma place_perm (x : A) (l : list A) :
  Permutation (place before x l) (x :: l).
Proof.
  induction l as [|y l IH]; simpl; [reflexivity|].
  destruct (before y x); [|reflexivity].
  rewrite IH. apply perm_swap.
Qed.

Lemma sort_perm (l : list A) : Permutation (sort before l) l.
Proof.
  induction l as [|x l IH]; simpl; [reflexivity|].
  rewrite place_perm. now constructor.
Qed.

(** A class of elements none of which has to precede another keeps its
    order of arrival. *)
Lemma place_filter (p : A -> bool) (x : A) (l : list A) :
  (forall a b, p a = true -> p b = true -> before a b = false) ->
  List.filter p (place before x l) = List.filter p (x :: l).
Proof.
  intros Hclass. induction l as [|y l IH]; [reflexivity|].
  cbn [place]. destruct (before y x) eqn:Hyx; [|reflexivity].
  cbn [List.filter] in *. rewrite IH.
  destruct (p x) eqn:Hx, (p y) eqn:Hy; try reflexivity.
  rewrite (Hclass y x Hy Hx) in Hyx. discriminate.
Qed.

Lemma sort_filter (p : A -> bool) (l : list A) :
  (forall a b, p a = true -> p b = true -> before a b = false) ->
  List.filter p (sort before l) = List.filter p l.
Proof.
  intros Hclass. induction l as [|x l IH]; [reflexivity|].
  cbn [sort fold_right]. fold (sort before l).
  rewrite place_filter by assumption.
  cbn [List.filter]. now rewrite IH.
Qed.

Hypothesis before_asym : forall a b, before a b = true -> before b a = false.
Hypothesis settled_trans :
  forall a b c, settled before a b -> settled before b c -> settled before a c.

Lemma place_sorted (x : A) (l : list A) :
  StronglySorted (settled before) l -> StronglySorted (settled before) (place before x l).
Proof.
  induction 1 as [|y l Hs IH Hy]; simpl.
  - repeat constructor.
  - destruct (before y x) eqn:Hyx.
    + constructor; [exact IH|].
      apply List.Forall_forall. intros z Hz.
      apply (Permutation_in _ (place_perm x l)) in Hz.
      destruct Hz as [<-|Hz].
      * apply before_asym. exact Hyx.
      * rewrite List.Forall_forall in Hy. now apply Hy.
    + constructor; [now constructor|].
      constructor; [exact Hyx|].
      apply List.Forall_forall. intros z Hz.
      rewrite List.Forall_forall in Hy.
      apply settled_trans with y; [exact Hyx | now apply Hy].
Qed.

Lemma sort_sorted (l : list A) : StronglySorted (settled before) (sort before l).
Proof.
  induction l as [|x l IH]; simpl; [constructor|].
  now apply place_sorted.
Qed.

End SortingFacts.

Section SortDescFacts.
Import PySort.
Context {A : Type} (key : A -> Q).

Lemma Qltb_lt (x y : Q) : Qltb x y = true <-> (x < y)%Q.
Proof.
  unfold Qltb. rewrite negb_true_iff. split.
  - intros H. apply Qnot_le_lt. intros Hle.
    apply Qle_bool_iff in Hle. congruence.
  - intros H. destruct (Qle_bool y x) eqn:E; [|reflexivity].
    apply Qle_bool_iff in E. exfalso. exact (Qlt_not_le _ _ H E).
Qed.

Lemma Qltb_ge (x y : Q) : Qltb x y = false <-> (y <= x)%Q.
Proof.
  unfold Qltb. rewrite negb_false_iff. apply Qle_bool_iff.
Qed.

Lemma sort_desc_perm (l : list A) : Permutation (sort_desc key l) l.
Proof. apply sort_perm. Qed.

Lemma sort_desc_sorted (l : list A) :
  StronglySorted (fun a b => (key b <= key a)%Q) (sort_desc key l).
Proof.
  unfold sort_desc.
  assert (Hs : StronglySorted (settled (fun y x => Qltb (key x) (key y)))
                 (sort (fun y x => Qltb (key x) (key y)) l)).
  { apply sort_sorted.
    - intros a b H. apply Qltb_lt in H. apply Qltb_ge. now apply Qlt_le_weak.
    - unfold settled. intros a b c H1 H2.
      apply Qltb_ge in H1, H2. apply Qltb_ge. now apply Qle_trans with (key b). }
  induction Hs as [|a l' Hs IH Ha]; constructor; [exact IH|].
  eapply List.Forall_impl; [|exact Ha].
  intros b Hb. unfold settled in Hb. now apply Qltb_ge in Hb.
Qed.

(** Stability: the elements of one score keep their order. *)
Lemma sort_desc_stable (q : Q) (l : list A) :
  List.filter (fun a => Qeq_bool (key a) q) (sort_desc key l)
  = List.filter (fun a => Qeq_bool (key a) q) l.
Proof.
  apply sort_filter. intros a b Ha Hb.
  apply Qeq_bool_iff in Ha, Hb. apply Qltb_ge.
  rewrite Ha, Hb. apply Qle_refl.
Qed.

Lemma sort_desc_constant (l : list A) :
  (forall a b, In a l -> In b l -> (key a == key b)%Q) ->
  sort_desc key l = l.
Proof.
  induction l as [|x l IH]; intros Hconst; [reflexivity|].
  unfold sort_desc in *. cbn [sort fold_right]. fold (sort (fun y x => Qltb (key x) (key y)) l).
  rewrite IH by (intros; apply Hconst; now right).
  destruct l as [|y l]; [reflexivity|]. cbn [place].
  replace (Qltb (key x) (key y)) with false; [reflexivity|].
  symmetry. apply Qltb_ge. rewrite (Hconst x y); [apply Qle_refl|now left|right; now left].
Qed.

End SortDescFacts.

(* ===================================================================== *)
(** ** Relevance scores                                                   *)
(* ===================================================================== *)

Section ScoreFacts.
Import Py Utils.

Lemma Zpos_of_nat (n : nat) : (0 < n)%nat -> Z.pos (Pos.of_nat n) = Z.of_nat n.
Proof.
  intros H. rewrite <- (Nat2Pos.id n) at 2 by lia.
  now rewrite positive_nat_Z.
Qed.

(** A quotient [hits / max] with [hits <= max] lies between 0 and 1. *)
Lemma density_range (hits max : nat) :
  (hits <= max)%nat ->
  (0 <= (if (0 <? max)%nat then Z.of_nat hits # Pos.of_nat max else 0) <= 1)%Q.
Proof.
  intros Hle. destruct (0 <? max)%nat eqn:E.
  - apply Nat.ltb_lt in E. unfold Qle; simpl.
    rewrite (Zpos_of_nat _ E). lia.
  - unfold Qle; simpl; lia.
Qed.

Lemma filter_length_le {A : Type} (p : A -> bool) (l : list A) :
  (length (List.filter p l) <= length l)%nat.
Proof.
  induction l as [|x l IH]; simpl; [lia|].
  destruct (p x); simpl; lia.
Qed.

Lemma filter_agree {A : Type} (p q : A -> bool) (l : list A) :
  (forall x, p x = true <-> q x = true) -> List.filter p l = List.filter q l.
Proof.
  intros H. apply List.filter_ext. intros x.
  specialize (H x). destruct (p x), (q x); intuition congruence.
Qed.

End ScoreFacts.

(* ===================================================================== *)
(** ** Ranking of the sections                                            *)
(* ===================================================================== *)

Section RankFacts.
Import Py Utils.
Context {S : Type} (content_of : S -> list string).

Lemma score_section_range (pk jk : list string) (s : S) :
  (0 <= importance_rank (score_section content_of pk jk s) <= 1)%Q.
Proof.
  unfold score_section; cbn [importance_rank].
  apply density_range.
  pose proof (filter_length_le
    (fun k => contains (lower k) (lower (join " " (content_of s)))) pk).
  pose proof (filter_length_le
    (fun k => contains (lower k) (lower (join " " (content_of s)))) jk).
  lia.
Qed.

Lemma score_section_density (pk jk : list string) (s : S) (hit : string -> bool) :
  (forall keyword, hit keyword = true <-> occurs_in content_of s keyword) ->
  importance_rank (score_section content_of pk jk s) =
    if (0 <? length pk + length jk)%nat
    then Z.of_nat (length (List.filter hit pk) + length (List.filter hit jk))
         # Pos.of_nat (length pk + length jk)
    else 0%Q.
Proof.
  intros Hhit. unfold score_section; cbn [importance_rank].
  assert (E : forall l,
    List.filter (fun k => contains (lower k) (lower (join " " (content_of s)))) l
    = List.filter hit l).
  { intros l. apply filter_agree. intros k.
    rewrite contains_iff, Hhit. reflexivity. }
  now rewrite !E.
Qed.

Lemma rank_in (sections : list S) (pk jk : list string) (r : Ranked S) :
  In r (rank_sections_by_relevance content_of sections pk jk) ->
  exists s, In s sections /\ r = score_section content_of pk jk s.
Proof.
  unfold rank_sections_by_relevance. intros H.
  apply (Permutation_in _ (sort_desc_perm _ _)) in H.
  apply in_map_iff in H. destruct H as [s [<- Hs]]. eauto.
Qed.

End RankFacts.

(** C1.  [rank_sections_by_relevance] gives every section the number of
    persona and job keywords that occur, case-insensitively, as substrings
    of its joined content, divided by the number of keywords; the score
    lies in [0,1] and is 0 when there is no keyword.  The output holds the
    input sections, by descending score, sections of equal score in their
    input order.  An empty input gives an empty output, and with no keyword
    every section gets 0 and the input order is kept. *)
Theorem rank_sections_by_relevance_spec
    (S : Type) (content_of : S -> list string)
    (sections : list S) (persona_keywords job_keywords : list string) :
  let ranked :=
    Utils.rank_sections_by_relevance content_of sections
      persona_keywords job_keywords in
  let keywords := (length persona_keywords + length job_keywords)%nat in
  (forall r, In r ranked ->
     (0 <= Utils.importance_rank r <= 1)%Q /\
     (keywords = 0%nat -> Utils.importance_rank r = 0%Q) /\
     forall hit : string -> bool,
       (forall keyword,
          hit keyword = true <->
          occurs_in content_of (Utils.ranked_section r) keyword) ->
       (length (List.filter hit persona_keywords) <= length persona_keywords)%nat /\
       (length (List.filter hit job_keywords) <= length job_keywords)%nat /\
       ((0 < keywords)%nat ->
        Utils.importance_rank r =
          Z.of_nat (length (List.filter hit persona_keywords)
                    + length (List.filter hit job_keywords))
          # Pos.of_nat keywords)) /\
  Permutation (map Utils.ranked_section ranked) sections /\
  StronglySorted
    (fun a b => (Utils.importance_rank b <= Utils.importance_rank a)%Q) ranked /\
  (forall q : Q,
     List.filter (fun r => Qeq_bool (Utils.importance_rank r) q) ranked =
     List.filter (fun r => Qeq_bool (Utils.importance_rank r) q)
       (map (Utils.score_section content_of persona_keywords job_keywords)
            sections)) /\
  Utils.rank_sections_by_relevance content_of [] persona_keywords job_keywords
    = [] /\
  Utils.rank_sections_by_relevance content_of sections [] []
    = map (fun s => Utils.mkRanked s 0) sections.
Proof.
  intros ranked keywords. repeat split.
  - destruct (rank_in _ _ _ _ _ H) as [s [_ ->]]. apply score_section_range.
  - destruct (rank_in _ _ _ _ _ H) as [s [_ ->]]. apply score_section_range.
  - intros Hz. destruct (rank_in _ _ _ _ _ H) as [s [_ ->]].
    unfold Utils.score_section; cbn [Utils.importance_rank].
    fold keywords. now rewrite Hz.
  - apply filter_length_le.
  - apply filter_length_le.
  - intros Hpos. destruct (rank_in _ _ _ _ _ H) as [s [_ ->]].
    rewrite (score_section_density content_of _ _ s hit) by exact H0.
    fold keywords. apply Nat.ltb_lt in Hpos. now rewrite Hpos.
  - unfold ranked, Utils.rank_sections_by_relevance.
    rewrite (sort_desc_perm _ _), map_map. cbn. now rewrite map_id.
  - apply sort_desc_sorted.
  - intros q. apply sort_desc_stable.
  - unfold Utils.rank_sections_by_relevance.
    apply sort_desc_constant. intros a b Ha Hb.
    apply in_map_iff in Ha, Hb.
    destruct Ha as [sa [<- _]], Hb as [sb [<- _]]. reflexivity.
Qed.

Lemma rank_sections_by_relevance_spec_witness :
  (0 <= Utils.importance_rank
          (Utils.mkRanked ["the data and the method"] (2 # 3)) <= 1)%Q.
Proof.
  apply (rank_sections_by_relevance_spec (list string) (fun s => s)
           [["plain text"]; ["more plain text"]; ["the data and the method"]]
           ["data"] ["method"; "analysis"]).
  vm_compute. left. reflexivity.
Defined.

(** The ranking of two sections that tie and of one that scores higher:
    the higher one comes first, the two others stay in their order. *)
Example rank_sections_by_relevance_ties :
  map Utils.ranked_section
    (Utils.rank_sections_by_relevance (fun s : list string => s)
       [["plain text"]; ["more plain text"]; ["the data and the method"]]
       ["data"] ["method"; "analysis"])
  = [["the data and the method"]; ["plain text"]; ["more plain text"]].
Proof. vm_compute. reflexivity. Qed.

(* ===================================================================== *)
(** ** Text cleaning                                                      *)
(* ===================================================================== *)

(** C7.  [clean_text] is not idempotent: the whitespace is collapsed before
    the characters outside the allow-list are removed, so a removed
    character leaves its two neighbouring spaces side by side, and a second
    call collapses them. *)
Theorem clean_text_twice_differs :
  Utils.clean_text "a # b" = "a  b" /\
  Utils.clean_text (Utils.clean_text "a # b") = "a b" /\
  Utils.clean_text (Utils.clean_text "a # b") <> Utils.clean_text "a # b".
Proof. vm_compute. repeat split; discriminate. Qed.

(* ===================================================================== *)
(** ** Deduplication of the heading candidates                            *)
(* ===================================================================== *)

Section DedupFacts.
Import Py Utils OutlineExtractor.

Lemma dedup_loop (l : list Heading) (acc : list Heading) (seen : gset string) :
  fst (fold_left dedup_step l (acc, seen)) = (acc ++ kept_from seen l)%list.
Proof.
  revert acc seen. induction l as [|h l IH]; intros acc seen; simpl.
  - now rewrite app_nil_r.
  - case_bool_decide.
    + apply IH.
    + rewrite IH, <- app_assoc. reflexivity.
Qed.

Lemma deduplicate_kept (l : list Heading) :
  _deduplicate_headings l = kept_from ∅ l.
Proof. unfold _deduplicate_headings. now rewrite dedup_loop. Qed.

Lemma kept_from_in (seen : gset string) (l : list Heading) (h : Heading) :
  In h (kept_from seen l) -> In h l /\ dedup_key h ∉ seen.
Proof.
  revert seen. induction l as [|x l IH]; intros seen; simpl; [tauto|].
  case_bool_decide as Hx.
  - intros Hin. destruct (IH _ Hin). auto.
  - intros [<-|Hin]; [auto|].
    destruct (IH _ Hin) as [H1 H2]. split; [auto|set_solver].
Qed.

Lemma kept_from_nodup (seen : gset string) (l : list Heading) :
  List.NoDup (map dedup_key (kept_from seen l)).
Proof.
  revert seen. induction l as [|x l IH]; intros seen; simpl.
  - constructor.
  - case_bool_decide as Hx; [apply IH|].
    simpl. constructor; [|apply IH].
    intros Hin. apply in_map_iff in Hin. destruct Hin as [h [Hk Hin]].
    apply kept_from_in in Hin. destruct Hin as [_ Hn]. set_solver.
Qed.

Lemma kept_from_find (seen : gset string) (l : list Heading) (key : string) :
  find (has_key key) (kept_from seen l) =
  if bool_decide (key ∈ seen) then None else find (has_key key) l.
Proof.
  revert seen. induction l as [|x l IH]; intros seen; simpl.
  - now case_bool_decide.
  - unfold has_key at 2. destruct (String.eqb_spec (dedup_key x) key) as [E|E].
    + subst key. case_bool_decide as Hx.
      * rewrite IH. now rewrite bool_decide_eq_true_2.
      * simpl. unfold has_key at 1. now rewrite String.eqb_refl.
    + case_bool_decide as Hx.
      * apply IH.
      * simpl. unfold has_key at 1.
        destruct (String.eqb_spec (dedup_key x) key) as [E'|_]; [contradiction|].
        rewrite IH. repeat case_bool_decide; try reflexivity; set_solver.
Qed.

Lemma kept_from_sublist (seen : gset string) (l : list Heading) :
  sublist (kept_from seen l) l.
Proof.
  revert seen. induction l as [|x l IH]; intros seen; simpl.
  - constructor.
  - case_bool_decide; [apply sublist_cons | apply sublist_skip]; apply IH.
Qed.

Lemma kept_from_app (seen : gset string) (l1 l2 : list Heading) :
  kept_from seen (l1 ++ l2) =
  (kept_from seen l1 ++ kept_from (keys_of l1 ∪ seen) l2)%list.
Proof.
  revert seen. induction l1 as [|x l1 IH]; intros seen; simpl.
  - unfold keys_of. simpl. f_equal. set_solver.
  - case_bool_decide as Hx.
    + rewrite IH. f_equal. f_equal. unfold keys_of. simpl. set_solver.
    + simpl. rewrite IH. f_equal. f_equal. f_equal.
      unfold keys_of. simpl. set_solver.
Qed.

Lemma keys_of_in (l : list Heading) (key : string) :
  key ∈ keys_of l <-> In key (map dedup_key l).
Proof.
  unfold keys_of. rewrite elem_of_list_to_set. apply list_elem_of_In.
Qed.

End DedupFacts.

(** C3.  Over the concatenation of the font, pattern and keyword candidates,
    [_deduplicate_headings] keeps one candidate per key, the key being the
    lowercased and trimmed text: the keys of the output are pairwise
    distinct, the output is the input with entries left out, and the entry
    kept for a key is the first of the input with that key; so a pattern
    candidate survives only when no font candidate has its key, and a keyword
    candidate only when no font or pattern candidate has it.  Of the texts
    "Introduction" and "introduction  " the first met survives alone. *)
Theorem deduplicate_headings_first_occurrence
    (font_headings pattern_headings content_headings : list OutlineExtractor.Heading) :
  let headings :=
    (font_headings ++ pattern_headings ++ content_headings)%list in
  let unique := OutlineExtractor._deduplicate_headings headings in
  let key := OutlineExtractor.dedup_key in
  (forall h, key h = Py.strip (Py.lower (OutlineExtractor.text h))) /\
  List.NoDup (map key unique) /\
  sublist unique headings /\
  (forall k : string, find (has_key k) unique = find (has_key k) headings) /\
  (forall h, In h unique ->
     In h font_headings \/
     (In h pattern_headings /\ ~ In (key h) (map key font_headings)) \/
     (In h content_headings /\ ~ In (key h) (map key font_headings)
                            /\ ~ In (key h) (map key pattern_headings))) /\
  (forall a b : OutlineExtractor.Heading,
     OutlineExtractor.text a = "Introduction" ->
     OutlineExtractor.text b = "introduction  " ->
     key a = key b /\
     OutlineExtractor._deduplicate_headings [a; b] = [a] /\
     OutlineExtractor._deduplicate_headings [b; a] = [b]).
Proof.
  intros headings unique key. subst unique key.
  rewrite deduplicate_kept. split; [reflexivity|]. repeat split.
  - apply kept_from_nodup.
  - apply kept_from_sublist.
  - intros k. rewrite kept_from_find. case_bool_decide; [set_solver|reflexivity].
  - intros h Hin. unfold headings in Hin.
    rewrite !kept_from_app in Hin.
    apply in_app_or in Hin. destruct Hin as [Hin|Hin].
    { left. now apply kept_from_in in Hin. }
    apply in_app_or in Hin. destruct Hin as [Hin|Hin].
    + right; left. apply kept_from_in in Hin. destruct Hin as [Hp Hn].
      split; [exact Hp|]. rewrite <- keys_of_in. set_solver.
    + right; right. apply kept_from_in in Hin. destruct Hin as [Hc Hn].
      split; [exact Hc|]. rewrite <- !keys_of_in. set_solver.
  - unfold OutlineExtractor.dedup_key. now rewrite H, H0.
  - rewrite deduplicate_kept. simpl.
    assert (E : OutlineExtractor.dedup_key b = OutlineExtractor.dedup_key a).
    { unfold OutlineExtractor.dedup_key. now rewrite H, H0. }
    rewrite E. rewrite bool_decide_eq_false_2 by set_solver.
    now rewrite bool_decide_eq_true_2 by set_solver.
  - rewrite deduplicate_kept. simpl.
    assert (E : OutlineExtractor.dedup_key a = OutlineExtractor.dedup_key b).
    { unfold OutlineExtractor.dedup_key. now rewrite H, H0. }
    rewrite E. rewrite bool_decide_eq_false_2 by set_solver.
    now rewrite bool_decide_eq_true_2 by set_solver.
Qed.

Lemma deduplicate_headings_first_occurrence_witness :
  OutlineExtractor._deduplicate_headings
    [OutlineExtractor.mkHeading "Introduction" Utils.H1 2 None
       (Some (18 # 1)) (Some "Arial-Bold");
     OutlineExtractor.mkHeading "introduction  " Utils.H1 1 (Some 4%nat)
       None None]
  = [OutlineExtractor.mkHeading "Introduction" Utils.H1 2 None
       (Some (18 # 1)) (Some "Arial-Bold")].
Proof.
  destruct (deduplicate_headings_first_occurrence [] [] [])
    as (_ & _ & _ & _ & _ & H).
  exact (proj1 (proj2
    (H (OutlineExtractor.mkHeading "Introduction" Utils.H1 2 None
          (Some (18 # 1)) (Some "Arial-Bold"))
       (OutlineExtractor.mkHeading "introduction  " Utils.H1 1 (Some 4%nat)
          None None)
       eq_refl eq_refl))).
Defined.

(* ===================================================================== *)
(** ** Lines, trimming and paragraphs                                     *)
(* ===================================================================== *)

Section LineFacts.
Import Py.

Lemma all_chars_app (P : ascii -> Prop) (a b : string) :
  all_chars P (a ++ b) <-> all_chars P a /\ all_chars P b.
Proof. induction a as [|c a IH]; simpl; tauto. Qed.

Lemma all_chars_rev_app (P : ascii -> Prop) (a b : string) :
  all_chars P (String.rev_app a b) <-> all_chars P a /\ all_chars P b.
Proof.
  revert b. induction a as [|c a IH]; intros b; simpl; [tauto|].
  rewrite IH. simpl. tauto.
Qed.

Lemma all_chars_rev (P : ascii -> Prop) (a : string) :
  all_chars P (String.rev a) <-> all_chars P a.
Proof. unfold String.rev. rewrite all_chars_rev_app. simpl. tauto. Qed.

Lemma all_chars_lstrip (P : ascii -> Prop) (s : string) :
  all_chars P s -> all_chars P (lstrip s).
Proof.
  induction s as [|c s IH]; simpl; [tauto|].
  destruct (is_space c); simpl; tauto.
Qed.

Lemma all_chars_rstrip (P : ascii -> Prop) (s : string) :
  all_chars P s -> all_chars P (rstrip s).
Proof.
  induction s as [|c s IH]; simpl; [tauto|].
  intros [Hc Hs]. specialize (IH Hs).
  destruct (rstrip s); [destruct (is_space c)|]; simpl in *; tauto.
Qed.

Lemma all_chars_strip (P : ascii -> Prop) (s : string) :
  all_chars P s -> all_chars P (strip s).
Proof. intros H. now apply all_chars_rstrip, all_chars_lstrip. Qed.

(** The fields of [split] hold no separator. *)
Lemma split_go_fields (sep : ascii) (cur s : string) :
  all_chars (fun c => c <> sep) cur ->
  Forall (all_chars (fun c => c <> sep)) (split_go sep cur s).
Proof.
  revert cur. induction s as [|c s IH]; intros cur Hcur; simpl.
  - constructor; [|constructor]. now apply all_chars_rev.
  - destruct (Ascii.eqb_spec c sep) as [E|E].
    + constructor; [now apply all_chars_rev|]. now apply IH.
    + apply IH. simpl. auto.
Qed.

Lemma split_lines_fields (s : string) :
  Forall (all_chars not_newline) (split_lines s).
Proof. apply split_go_fields. exact I. Qed.

(** A text without line feed is its own and only field for [split('\n\n')]. *)
Lemma split_blank_go_plain (cur s : string) :
  all_chars not_newline s -> split_blank_go cur s = [String.rev_app cur s].
Proof.
  revert cur. induction s as [|c s IH]; intros cur Hs; [reflexivity|].
  destruct Hs as [Hc Hs]. cbn [split_blank_go].
  assert (E : Ascii.eqb c newline = false) by now apply Ascii.eqb_neq.
  rewrite E. cbn [andb].
  destruct s; now rewrite IH.
Qed.

Lemma split_blank_plain (s : string) :
  all_chars not_newline s -> split_blank s = [s].
Proof. intros H. unfold split_blank. now rewrite split_blank_go_plain. Qed.

Lemma contains_char (sub s : string) (c : ascii) (P : ascii -> Prop) :
  all_chars P s -> ~ P c -> contains (String c sub) s = false.
Proof.
  intros Hs Hc. destruct (contains (String c sub) s) eqn:E; [|reflexivity].
  apply contains_iff in E. destruct E as [front [rest E]]. subst s.
  apply all_chars_app in Hs. destruct Hs as [_ Hs]. simpl in Hs. tauto.
Qed.

(** *** Trimmed strings *)

Lemma lstrip_starts (s : string) : starts_unspaced (lstrip s).
Proof.
  induction s as [|c s IH]; simpl; [exact I|].
  destruct (is_space c) eqn:E; [exact IH|exact E].
Qed.

Lemma lstrip_id (s : string) : starts_unspaced s -> lstrip s = s.
Proof. destruct s as [|c s]; simpl; [reflexivity|]. now intros ->. Qed.

Lemma rstrip_starts (s : string) : starts_unspaced s -> starts_unspaced (rstrip s).
Proof.
  destruct s as [|c s]; simpl; [tauto|]. intros E.
  destruct (rstrip s); [rewrite E|]; exact E.
Qed.

Lemma rstrip_cons (c : ascii) (s : string) :
  rstrip (String c s) =
  match rstrip s with
  | EmptyString => if is_space c then EmptyString else String c EmptyString
  | r => String c r
  end.
Proof. reflexivity. Qed.

Lemma rstrip_idem (s : string) : rstrip (rstrip s) = rstrip s.
Proof.
  induction s as [|c s IH]; [reflexivity|]. rewrite rstrip_cons.
  destruct (rstrip s) as [|d r] eqn:E.
  - destruct (is_space c) eqn:Ec; [reflexivity|].
    rewrite rstrip_cons. cbn [rstrip]. now rewrite Ec.
  - rewrite rstrip_cons, IH. reflexivity.
Qed.

Lemma strip_lstrip (s : string) : lstrip (strip s) = strip s.
Proof. apply lstrip_id, rstrip_starts, lstrip_starts. Qed.

Lemma strip_rstrip (s : string) : rstrip (strip s) = strip s.
Proof. apply rstrip_idem. Qed.

Lemma strip_idem (s : string) : strip (strip s) = strip s.
Proof. unfold strip at 1. now rewrite strip_lstrip, strip_rstrip. Qed.

(** [rstrip] leaves alone what is put in front of a trimmed, non-empty end. *)
Lemma rstrip_app (a b : string) :
  b <> "" -> rstrip b = b -> rstrip (a ++ b) = a ++ b.
Proof.
  intros Hne Hb. induction a as [|c a IH]; [exact Hb|].
  cbn [String.append]. rewrite rstrip_cons, IH.
  destruct (a ++ b) eqn:E; [|reflexivity].
  destruct a; simpl in E; [contradiction|discriminate].
Qed.

End LineFacts.

(* ===================================================================== *)
(** ** Segmentation into sections                                         *)
(* ===================================================================== *)

Section SegmentFacts.
Import Py Utils.

Lemma content_line_strip (l : string) : content_line l -> strip l = l.
Proof.
  intros (_ & Hs & Hr & _). unfold strip. now rewrite (lstrip_id _ Hs).
Qed.

Lemma strip_content_line (line : string) :
  all_chars not_newline line -> is_empty (strip line) = false ->
  content_line (strip line).
Proof.
  intros Hn He. repeat split.
  - intros E. rewrite E in He. discriminate.
  - apply rstrip_starts, lstrip_starts.
  - apply strip_rstrip.
  - now apply all_chars_strip.
Qed.

Lemma join_content_line (ls : list string) :
  ls <> [] -> Forall content_line ls -> content_line (join " " ls).
Proof.
  induction ls as [|x ls IH]; [congruence|]. intros _ Hall.
  apply Forall_cons_iff in Hall. destruct Hall as [Hx Hls].
  destruct ls as [|y ls]; [exact Hx|].
  assert (HJ : content_line (join " " (y :: ls))) by (apply IH; [discriminate|exact Hls]).
  change (join " " (x :: y :: ls)) with (x ++ " " ++ join " " (y :: ls)).
  destruct Hx as (Hx1 & Hx2 & Hx3 & Hx4), HJ as (HJ1 & HJ2 & HJ3 & HJ4).
  repeat split.
  - destruct x; [contradiction|discriminate].
  - destruct x; [contradiction|exact Hx2].
  - apply rstrip_app; [discriminate|]. now apply (rstrip_app " ").
  - apply all_chars_app. split; [exact Hx4|].
    apply all_chars_app. split; [|exact HJ4].
    simpl. split; [|exact I]. unfold not_newline. discriminate.
Qed.

Lemma close_current_filled (st : SegState) :
  scan_invariant st -> Forall filled_section (close_current st).
Proof.
  intros [Hs Hc]. unfold close_current.
  destruct (content (current_section st)) as [|l ls] eqn:E; simpl; [exact Hs|].
  apply Forall_app. split; [exact Hs|].
  constructor; [|constructor]. split; rewrite E; [discriminate|exact Hc].
Qed.

Lemma segment_line_invariant (st : SegState) (line : string) :
  all_chars not_newline line -> scan_invariant st ->
  scan_invariant (segment_line st line).
Proof.
  intros Hn Hinv. unfold segment_line.
  destruct (is_empty (strip line)) eqn:He; [exact Hinv|].
  destruct (is_heading_candidate (strip line)).
  - split; cbn; [now apply close_current_filled|constructor].
  - destruct Hinv as [Hs Hc]. split; cbn; [exact Hs|].
    apply Forall_app. split; [exact Hc|].
    constructor; [|constructor]. now apply strip_content_line.
Qed.

Lemma scan_invariant_fold (lines : list string) (st : SegState) :
  Forall (all_chars not_newline) lines -> scan_invariant st ->
  scan_invariant (fold_left segment_line lines st).
Proof.
  revert st. induction lines as [|l lines IH]; intros st Hl Hinv; [exact Hinv|].
  apply Forall_cons_iff in Hl. destruct Hl as [Hl Hls].
  simpl. apply IH; [exact Hls|]. now apply segment_line_invariant.
Qed.

Lemma segment_filled (text : string) :
  Forall filled_section (segment_text_by_sections text).
Proof.
  unfold segment_text_by_sections.
  apply close_current_filled, scan_invariant_fold.
  - apply split_lines_fields.
  - split; constructor.
Qed.

Lemma paragraphs_of_content_line (c : string) :
  content_line c -> PersonaAnalyzer.paragraphs_of c = [c].
Proof.
  intros Hc. unfold PersonaAnalyzer.paragraphs_of.
  destruct Hc as (H1 & H2 & H3 & H4).
  rewrite (split_blank_plain _ H4).
  assert (E : strip c = c) by (apply content_line_strip; repeat split; assumption).
  cbn [List.filter]. rewrite E.
  destruct c as [|a c]; [contradiction|]. cbn [is_empty negb map].
  now rewrite E.
Qed.

End SegmentFacts.

(** C9.  A section that segmentation produces holds only non-empty, trimmed
    content lines without line feed.  Its content joined with single spaces
    therefore contains no blank-line boundary, splitting it into paragraphs
    gives the joined content as the one paragraph, and the first three
    paragraphs the sub-section step looks at are that single paragraph. *)
Theorem segmented_section_single_paragraph
    (text : string) (s : Utils.SectionRec) :
  In s (Utils.segment_text_by_sections text) ->
  let joined := Py.join " " (Utils.content s) in
  Forall (fun line => line <> "" /\ Py.strip line = line /\
                      Py.contains (String Py.newline "") line = false)
         (Utils.content s) /\
  Py.contains (String Py.newline (String Py.newline "")) joined = false /\
  PersonaAnalyzer.paragraphs_of joined = [joined] /\
  firstn 3 (PersonaAnalyzer.paragraphs_of joined) = [joined] /\
  (forall pk jk (r : Utils.Ranked PersonaAnalyzer.DocSection),
     PersonaAnalyzer.section (Utils.ranked_section r) = s ->
     PersonaAnalyzer.section_sub_sections pk jk r =
     PersonaAnalyzer.paragraph_sub_section pk jk r joined).
Proof.
  intros Hin joined.
  pose proof (segment_filled text) as Hall.
  rewrite List.Forall_forall in Hall. destruct (Hall s Hin) as [Hne Hlines].
  assert (HJ : content_line joined) by now apply join_content_line.
  assert (HP : PersonaAnalyzer.paragraphs_of joined = [joined])
    by now apply paragraphs_of_content_line.
  split; [|split; [|split; [|split]]].
  - eapply List.Forall_impl; [|exact Hlines].
    intros l Hl. pose proof (content_line_strip l Hl) as Hst.
    destruct Hl as (H1 & H2 & H3 & H4). repeat split; try assumption.
    apply (contains_char _ _ _ not_newline); [exact H4|]. unfold not_newline. tauto.
  - destruct HJ as (H1 & H2 & H3 & H4).
    apply (contains_char _ _ _ not_newline); [exact H4|]. unfold not_newline. tauto.
  - exact HP.
  - now rewrite HP.
  - intros pk jk r Hr. unfold PersonaAnalyzer.section_sub_sections.
    unfold PersonaAnalyzer.section_content. rewrite Hr. fold joined.
    rewrite HP. cbn [firstn flat_map]. apply app_nil_r.
Qed.

Lemma segmented_section_single_paragraph_witness :
  PersonaAnalyzer.paragraphs_of (Py.join " " ["line1"; "line2"])
  = ["line1 line2"].
Proof.
  pose proof (segmented_section_single_paragraph
    ("Title" ++ String Py.newline ("line1" ++ String Py.newline
       ("line2" ++ String Py.newline ("Introduction" ++ String Py.newline "body"))))
    {| Utils.title := "Title"; Utils.content := ["line1"; "line2"];
       Utils.page := 1 |}) as H.
  apply H. vm_compute. left. reflexivity.
Defined.

(* ===================================================================== *)
(** ** Outline extraction with missing inputs                             *)
(* ===================================================================== *)

Section OutlineFacts.
Import Py Utils OutlineExtractor.

Lemma font_headings_no_pages :
  _extract_headings_by_font {| pages := None |} = [] /\
  _extract_headings_by_font {| pages := Some [] |} = [].
Proof. split; reflexivity. Qed.

Lemma font_headings_no_blocks (page_numbers : list (option Z)) :
  _extract_headings_by_font
    {| pages := Some (map (fun n => {| page_number := n; text_blocks := None |})
                          page_numbers) |} = [].
Proof.
  unfold _extract_headings_by_font. cbn [OutlineExtractor.get pages].
  induction page_numbers as [|n ns IH]; [reflexivity|exact IH].
Qed.

End OutlineFacts.

(** C8.  [extract_outline] on a missing or empty text returns the title with
    an empty outline.  With a text, and the font data missing (no metadata,
    or metadata without pages, or pages without text blocks), the font
    strategy gives no candidate and the outline is the one built from the
    pattern and keyword candidates alone, the same as with an empty page
    list. *)
Theorem extract_outline_missing_inputs
    (title : option string) (metadata : option OutlineExtractor.Metadata)
    (doc_text : string) :
  let untitled := OutlineExtractor.get title "Untitled Document" in
  OutlineExtractor.extract_outline
    (OutlineExtractor.mkPdfData None title metadata)
  = OutlineExtractor.mkOutline untitled [] /\
  OutlineExtractor.extract_outline
    (OutlineExtractor.mkPdfData (Some "") title metadata)
  = OutlineExtractor.mkOutline untitled [] /\
  (doc_text <> "" ->
   forall absent : option OutlineExtractor.Metadata,
     (absent = None \/
      absent = Some (OutlineExtractor.mkMetadata None) \/
      exists page_numbers,
        absent = Some (OutlineExtractor.mkMetadata
          (Some (map (fun n => OutlineExtractor.mkPageData n None) page_numbers)))) ->
     OutlineExtractor.extract_outline
       (OutlineExtractor.mkPdfData (Some doc_text) title absent)
     = OutlineExtractor.mkOutline untitled
         (map to_entry
            (OutlineExtractor._sort_headings
               (OutlineExtractor._deduplicate_headings
                  (OutlineExtractor._extract_headings_by_pattern doc_text ++
                   OutlineExtractor._extract_headings_by_content doc_text)%list)))).
Proof.
  intros untitled. split; [reflexivity|]. split; [reflexivity|].
  intros Hne absent Habsent.
  destruct doc_text as [|c rest]; [contradiction|].
  destruct Habsent as [-> | [-> | [ns ->]]];
    unfold OutlineExtractor.extract_outline;
    cbn [OutlineExtractor.pdf_text OutlineExtractor.pdf_title
         OutlineExtractor.pdf_metadata OutlineExtractor.get Py.is_empty].
  - reflexivity.
  - reflexivity.
  - rewrite font_headings_no_blocks. reflexivity.
Qed.

Lemma extract_outline_missing_inputs_witness :
  OutlineExtractor.outline
    (OutlineExtractor.extract_outline
       (OutlineExtractor.mkPdfData
          (Some ("1. Scope" ++ String Py.newline "Background of the study"))
          (Some "Report") None))
  = [OutlineExtractor.mkOutlineEntry Utils.H1 "1. Scope" 1;
     OutlineExtractor.mkOutlineEntry Utils.H2 "Background of the study" 1].
Proof.
  pose proof (extract_outline_missing_inputs (Some "Report") None
    ("1. Scope" ++ String Py.newline "Background of the study")) as H.
  destruct H as (_ & _ & H).
  rewrite (H ltac:(discriminate) None (or_introl eq_refl)).
  vm_compute. reflexivity.
Defined.

(* ===================================================================== *)
(** ** Sub-section analysis                                               *)
(* ===================================================================== *)

Section SubSectionFacts.
Import Py Utils PersonaAnalyzer.

Lemma paragraph_sub_section_cases
    (pk jk : list string) (section : Ranked DocSection) (paragraph : string) :
  paragraph_sub_section pk jk section paragraph =
  if PySort.Qltb (1 # 10) (paragraph_score pk jk paragraph)
  then [{| sub_document := document (ranked_section section);
           sub_page_number := page_number (ranked_section section);
           refined_text := take 500 paragraph;
           sub_importance_rank := paragraph_score pk jk paragraph |}]
  else [].
Proof. reflexivity. Qed.

Lemma section_sub_sections_in
    (pk jk : list string) (section : Ranked DocSection) (sub : SubSection) :
  In sub (section_sub_sections pk jk section) <->
  exists paragraph,
    In paragraph (paragraphs_considered section) /\
    (1 # 10 < paragraph_score pk jk paragraph)%Q /\
    sub = {| sub_document := document (ranked_section section);
             sub_page_number := page_number (ranked_section section);
             refined_text := take 500 paragraph;
             sub_importance_rank := paragraph_score pk jk paragraph |}.
Proof.
  unfold section_sub_sections. rewrite in_flat_map.
  fold (paragraphs_considered section).
  split; intros [p [Hp H]]; exists p; (split; [exact Hp|]);
    rewrite paragraph_sub_section_cases in *.
  - destruct (PySort.Qltb _ _) eqn:E; [|contradiction].
    apply Qltb_lt in E. destruct H as [<-|[]]. auto.
  - destruct H as [Hlt ->]. apply Qltb_lt in Hlt. rewrite Hlt. now left.
Qed.

Lemma section_sub_sections_none
    (pk jk : list string) (section : Ranked DocSection) :
  (forall paragraph, In paragraph (paragraphs_considered section) ->
     (paragraph_score pk jk paragraph <= 1 # 10)%Q) ->
  section_sub_sections pk jk section = [].
Proof.
  intros Hlow. destruct (section_sub_sections pk jk section) as [|sub l] eqn:E;
    [reflexivity|].
  assert (Hin : In sub (section_sub_sections pk jk section))
    by (rewrite E; now left).
  apply section_sub_sections_in in Hin. destruct Hin as [p [Hp [Hlt _]]].
  exfalso. exact (Qlt_not_le _ _ Hlt (Hlow p Hp)).
Qed.

Lemma in_firstn {A : Type} (n : nat) (l : list A) (x : A) :
  In x (firstn n l) -> In x l.
Proof.
  intros H. rewrite <- (firstn_skipn n l). apply in_or_app. now left.
Qed.

Lemma in_skipn {A : Type} (n : nat) (l : list A) (x : A) :
  In x (skipn n l) -> In x l.
Proof.
  intros H. rewrite <- (firstn_skipn n l). apply in_or_app. now right.
Qed.

Lemma sorted_firstn {A : Type} (R : A -> A -> Prop) (n : nat) (l : list A) :
  StronglySorted R l -> StronglySorted R (firstn n l).
Proof.
  revert n. induction l as [|x l IH]; intros [|n] Hs; simpl; try constructor.
  - apply IH. now inversion Hs.
  - inversion Hs as [|? ? _ Hx]; subst.
    rewrite List.Forall_forall in *. intros y Hy.
    apply Hx. eapply in_firstn; eauto.
Qed.

Lemma sorted_split {A : Type} (R : A -> A -> Prop) (n : nat) (l : list A) :
  StronglySorted R l ->
  forall a b, In a (firstn n l) -> In b (skipn n l) -> R a b.
Proof.
  revert n. induction l as [|x l IH]; intros [|n] Hs a b Ha Hb; simpl in *;
    try contradiction.
  inversion Hs as [|? ? Hl Hx]; subst.
  destruct Ha as [<-|Ha].
  - rewrite List.Forall_forall in Hx. apply Hx. eapply in_skipn; eauto.
  - eapply IH; eauto.
Qed.

(** *** Splitting on blank-line boundaries *)

Lemma prefix_blank_line (c : ascii) (r : string) :
  String.prefix blank_line (String c r) =
  Ascii.eqb c newline &&
  match r with
  | String c' _ => Ascii.eqb c' newline
  | EmptyString => false
  end.
Proof.
  unfold blank_line. destruct r as [|c' r']; cbn [String.prefix].
  - destruct (ascii_dec newline c); now rewrite andb_false_r.
  - destruct (ascii_dec newline c) as [<-|Hc].
    + rewrite Ascii.eqb_refl. cbn [andb].
      destruct (ascii_dec newline c') as [<-|Hc'].
      * rewrite Ascii.eqb_refl. now destruct r'.
      * symmetry. apply Ascii.eqb_neq. congruence.
    + replace (Ascii.eqb c newline) with false; [reflexivity|].
      symmetry. apply Ascii.eqb_neq. congruence.
Qed.

(** A string without boundary is its own and only piece. *)
Lemma split_blank_go_whole (cur s : string) :
  contains blank_line s = false ->
  split_blank_go cur s = [String.rev_app cur s].
Proof.
  revert cur. induction s as [|c r IH]; intros cur Hs; [reflexivity|].
  cbn [contains] in Hs. apply orb_false_iff in Hs. destruct Hs as [Hp Hr].
  rewrite prefix_blank_line in Hp. cbn [split_blank_go].
  destruct r as [|c' r'].
  - now rewrite IH.
  - rewrite Hp. now rewrite IH.
Qed.

(** The first boundary ends the first piece. *)
Lemma split_blank_go_cut (cur p rest : string) :
  contains blank_line (p ++ String newline "") = false ->
  split_blank_go cur (p ++ blank_line ++ rest) =
  String.rev_app cur p :: split_blank_go "" rest.
Proof.
  revert cur. induction p as [|c p IH]; intros cur Hp.
  - cbn. rewrite Ascii.eqb_refl. reflexivity.
  - cbn [String.append] in Hp. cbn [contains] in Hp.
    apply orb_false_iff in Hp. destruct Hp as [Hpre Hrest].
    rewrite prefix_blank_line in Hpre.
    change (String c p ++ blank_line ++ rest)
      with (String c (p ++ blank_line ++ rest)).
    cbn [split_blank_go].
    specialize (IH (String c cur) Hrest).
    destruct p as [|c' p'].
    + cbn [String.append] in Hpre |- *. unfold blank_line at 1.
      cbn [String.append]. rewrite Ascii.eqb_refl, andb_true_r in Hpre.
      rewrite Hpre. cbn [andb]. exact IH.
    + cbn [String.append] in Hpre |- *. rewrite Hpre. exact IH.
Qed.

(** The pieces of a string are those of [split]. *)
Lemma blank_line_pieces_split (s : string) (pieces : list string) :
  blank_line_pieces s pieces -> split_blank s = pieces.
Proof.
  induction 1 as [s Hs | p rest pieces Hp _ IH]; unfold split_blank.
  - now rewrite split_blank_go_whole.
  - rewrite (split_blank_go_cut "" p rest Hp). now rewrite <- IH.
Qed.

(** Where a string holds a boundary, its first one cuts it. *)
Lemma first_blank_line (s : string) :
  contains blank_line s = true ->
  exists p rest,
    s = p ++ blank_line ++ rest /\
    contains blank_line (p ++ String newline "") = false.
Proof.
  induction s as [|c r IH]; [discriminate|].
  cbn [contains]. destruct (String.prefix blank_line (String c r)) eqn:Hpre.
  - intros _. apply prefix_iff in Hpre. destruct Hpre as [rest E].
    exists "", rest. split; [exact E|reflexivity].
  - cbn [orb]. intros Hr. destruct (IH Hr) as (p & rest & E & Hp).
    exists (String c p), rest. split; [cbn; now rewrite E|].
    cbn [String.append contains]. rewrite Hp, orb_false_r.
    rewrite prefix_blank_line in Hpre |- *. subst r.
    destruct p as [|c' p']; exact Hpre.
Qed.

Lemma append_length (a b : string) :
  String.length (a ++ b) = (String.length a + String.length b)%nat.
Proof. induction a as [|c a IH]; simpl; [reflexivity|now rewrite IH]. Qed.

(** Every string has its pieces. *)
Lemma split_blank_pieces (s : string) : blank_line_pieces s (split_blank s).
Proof.
  remember (String.length s) as n eqn:En.
  revert s En. induction n as [n IH] using lt_wf_ind. intros s En.
  destruct (contains blank_line s) eqn:Hs.
  - destruct (first_blank_line s Hs) as (p & rest & -> & Hp).
    unfold split_blank. rewrite (split_blank_go_cut "" p rest Hp).
    apply pieces_cut; [exact Hp|].
    apply (IH (String.length rest)); [|reflexivity].
    rewrite En, !append_length. simpl. lia.
  - unfold split_blank. rewrite (split_blank_go_whole "" s Hs).
    now apply pieces_whole.
Qed.

Lemma trimmed_paragraphs_filter (pieces paragraphs : list string) :
  trimmed_paragraphs pieces paragraphs <->
  paragraphs =
    map strip (List.filter (fun p => negb (is_empty (strip p))) pieces).
Proof.
  split.
  - induction 1 as [|p pieces paragraphs Hp _ IH|p pieces paragraphs Hp _ IH];
      cbn [List.filter map].
    + reflexivity.
    + rewrite Hp. exact IH.
    + destruct (strip p) eqn:E; [contradiction|].
      cbn [is_empty negb map]. now rewrite E, IH.
  - intros ->. induction pieces as [|p pieces IH]; cbn [List.filter map].
    + constructor.
    + destruct (strip p) eqn:E; cbn [is_empty negb map].
      * now apply trimmed_blank.
      * apply trimmed_kept; [congruence|exact IH].
Qed.

(** The paragraphs split on blank-line boundaries are those the code
    computes, and no others. *)
Lemma paragraphs_on_blank_lines_iff (content : string)
    (paragraphs : list string) :
  paragraphs_on_blank_lines content paragraphs <->
  paragraphs = paragraphs_of content.
Proof.
  unfold paragraphs_on_blank_lines, paragraphs_of. split.
  - intros (pieces & Hpieces & Ht).
    apply blank_line_pieces_split in Hpieces. subst pieces.
    now apply trimmed_paragraphs_filter.
  - intros ->. exists (split_blank content).
    split; [apply split_blank_pieces|]. now apply trimmed_paragraphs_filter.
Qed.

End SubSectionFacts.

(** C5.  [_generate_sub_section_analysis], which [analyze_documents] calls
    on the first ten ranked sections, splits the joined content of each
    section on blank-line boundaries, the boundaries taken from the left,
    trims the pieces and leaves the blank ones out; of the paragraphs so
    obtained, which every content has and which are determined by it, it
    looks at the first three.  A paragraph is scored alone with the density
    formula of the ranking and gives an entry only when it scores above 1/10,
    its text cut to 500 characters.  The entries of all the sections are
    sorted by descending score, entries of equal score in their order, and
    the first twenty are returned.  A section all of whose first three
    paragraphs score 1/10 or less gives no entry.  The score of a paragraph
    is the number of keywords that occur in it, whatever the case of the
    letters, over the number of keywords. *)
Theorem generate_sub_section_analysis_spec
    (sections : list (Utils.Ranked PersonaAnalyzer.DocSection))
    (pk jk : list string) :
  let subs := PersonaAnalyzer._generate_sub_section_analysis sections pk jk in
  let pool :=
    flat_map (PersonaAnalyzer.section_sub_sections pk jk) sections in
  let rank := PersonaAnalyzer.sub_importance_rank in
  let entry (section : Utils.Ranked PersonaAnalyzer.DocSection) paragraph :=
    PersonaAnalyzer.mkSubSection
      (PersonaAnalyzer.document (Utils.ranked_section section))
      (PersonaAnalyzer.page_number (Utils.ranked_section section))
      (Py.take 500 paragraph)
      (paragraph_score pk jk paragraph) in
  (length subs <= 20)%nat /\
  StronglySorted (fun a b => (rank b <= rank a)%Q) subs /\
  (forall content,
     (exists paragraphs, paragraphs_on_blank_lines content paragraphs) /\
     (forall paragraphs paragraphs',
        paragraphs_on_blank_lines content paragraphs ->
        paragraphs_on_blank_lines content paragraphs' ->
        paragraphs = paragraphs')) /\
  (forall sub, In sub pool <->
     exists section paragraphs paragraph,
       In section sections /\
       paragraphs_on_blank_lines (joined_content section) paragraphs /\
       In paragraph (firstn 3 paragraphs) /\
       (1 # 10 < paragraph_score pk jk paragraph)%Q /\
       sub = entry section paragraph) /\
  (forall sub, In sub subs ->
     In sub pool /\ (String.length (PersonaAnalyzer.refined_text sub) <= 500)%nat) /\
  (exists rest,
     Permutation (subs ++ rest) pool /\
     (forall a b, In a subs -> In b rest -> (rank b <= rank a)%Q) /\
     (forall q : Q,
        List.filter (fun s => Qeq_bool (rank s) q) pool =
        (List.filter (fun s => Qeq_bool (rank s) q) subs ++
         List.filter (fun s => Qeq_bool (rank s) q) rest)%list) /\
     (rest <> [] -> length subs = 20%nat)) /\
  (forall section paragraphs,
     paragraphs_on_blank_lines (joined_content section) paragraphs ->
     (forall paragraph, In paragraph (firstn 3 paragraphs) ->
        (paragraph_score pk jk paragraph <= 1 # 10)%Q) ->
     PersonaAnalyzer.section_sub_sections pk jk section = []) /\
  (forall timestamp documents persona job,
     PersonaAnalyzer.sub_section_analysis
       (PersonaAnalyzer.analyze_documents timestamp documents persona job) =
     PersonaAnalyzer._generate_sub_section_analysis
       (firstn 10
          (Utils.rank_sections_by_relevance PersonaAnalyzer.section_content
             (flat_map PersonaAnalyzer.document_sections documents)
             (PersonaAnalyzer._extract_persona_keywords persona)
             (PersonaAnalyzer._extract_job_keywords job)))
       (PersonaAnalyzer._extract_persona_keywords persona)
       (PersonaAnalyzer._extract_job_keywords job)) /\
  (forall paragraph (hit : string -> bool),
     (forall keyword,
        hit keyword = true <->
        occurs_in (fun p : string => [p]) paragraph keyword) ->
     paragraph_score pk jk paragraph =
     if (0 <? length pk + length jk)%nat
     then Z.of_nat (length (List.filter hit pk) + length (List.filter hit jk))
          # Pos.of_nat (length pk + length jk)
     else 0%Q).
Proof.
  intros subs pool rank entry.
  assert (Hconsidered : forall section paragraphs,
     paragraphs_on_blank_lines (joined_content section) paragraphs ->
     paragraphs_considered section = firstn 3 paragraphs).
  { intros section paragraphs Hp.
    apply paragraphs_on_blank_lines_iff in Hp. now subst paragraphs. }
  assert (Hpool : forall sub, In sub pool <->
     exists section paragraphs paragraph,
       In section sections /\
       paragraphs_on_blank_lines (joined_content section) paragraphs /\
       In paragraph (firstn 3 paragraphs) /\
       (1 # 10 < paragraph_score pk jk paragraph)%Q /\
       sub = entry section paragraph).
  { intros sub. unfold pool. rewrite in_flat_map. split.
    - intros [section [Hs Hin]]. apply section_sub_sections_in in Hin.
      destruct Hin as [p [Hp [Hlt ->]]].
      exists section, (PersonaAnalyzer.paragraphs_of (joined_content section)), p.
      split; [exact Hs|]. split; [now apply paragraphs_on_blank_lines_iff|].
      auto.
    - intros [section [ps [p [Hs [Hps [Hp [Hlt ->]]]]]]]. exists section.
      split; [exact Hs|]. apply section_sub_sections_in. exists p.
      rewrite (Hconsidered _ _ Hps). auto. }
  assert (Hsubs : subs = firstn 20 (PySort.sort_desc rank pool)) by reflexivity.
  split; [|split; [|split; [|split; [|split; [|split; [|split; [|split]]]]]]].
  - rewrite Hsubs. apply firstn_le_length.
  - rewrite Hsubs. apply sorted_firstn, sort_desc_sorted.
  - intros content. split.
    + exists (PersonaAnalyzer.paragraphs_of content).
      now apply paragraphs_on_blank_lines_iff.
    + intros ps ps' H H'.
      apply paragraphs_on_blank_lines_iff in H, H'. congruence.
  - exact Hpool.
  - intros sub Hin. rewrite Hsubs in Hin. apply in_firstn in Hin.
    apply (Permutation_in _ (sort_desc_perm _ _)) in Hin.
    split; [exact Hin|].
    apply Hpool in Hin. destruct Hin as [section [ps [p [_ [_ [_ [_ ->]]]]]]].
    apply take_length.
  - exists (skipn 20 (PySort.sort_desc rank pool)). rewrite Hsubs.
    split; [|split; [|split]].
    + rewrite firstn_skipn. apply sort_desc_perm.
    + intros a b Ha Hb.
      exact (sorted_split _ 20 _ (sort_desc_sorted rank pool) a b Ha Hb).
    + intros q. rewrite <- List.filter_app, firstn_skipn.
      symmetry. apply sort_desc_stable.
    + intros Hrest. rewrite length_firstn.
      destruct (Nat.le_gt_cases (length (PySort.sort_desc rank pool)) 20) as [Hle|Hgt].
      * apply skipn_all_iff in Hle. contradiction.
      * lia.
  - intros section ps Hps Hlow. apply section_sub_sections_none.
    rewrite (Hconsidered _ _ Hps). exact Hlow.
  - reflexivity.
  - intros paragraph hit Hhit. unfold paragraph_score.
    now apply score_section_density.
Qed.

(** The theorem at a section of five pieces, one of them blank: the third
    paragraph, the fourth piece, is among the first three and gives an
    entry. *)
Lemma generate_sub_section_analysis_spec_witness :
  let nl := String Py.newline (String Py.newline "") in
  let section :=
    Utils.mkRanked
      (PersonaAnalyzer.mkDocSection
         (Utils.mkSection "Results"
            ["plain words" ++ nl ++ "  " ++ nl; "more words" ++ nl
             ++ " the data and the method " ++ nl ++ "the data again"] 1)
         "a.pdf" 1)
      (2 # 3) in
  In (PersonaAnalyzer.mkSubSection "a.pdf" 1 "the data and the method" (2 # 3))
     (flat_map
        (PersonaAnalyzer.section_sub_sections ["data"] ["method"; "analysis"])
        [section]).
Proof.
  intros nl section.
  destruct (generate_sub_section_analysis_spec
              [section] ["data"] ["method"; "analysis"])
    as (_ & _ & _ & in_pool & _).
  apply in_pool.
  exists section,
    ["plain words"; "more words"; "the data and the method"; "the data again"],
    "the data and the method".
  split; [now left|]. split.
  - exists ["plain words"; "  "; " more words";
            " the data and the method "; "the data again"].
    split.
    + apply (pieces_cut "plain words"); [reflexivity|].
      apply (pieces_cut "  "); [reflexivity|].
      apply (pieces_cut " more words"); [reflexivity|].
      apply (pieces_cut " the data and the method "); [reflexivity|].
      apply pieces_whole. reflexivity.
    + apply (trimmed_kept "plain words"); [discriminate|].
      apply trimmed_blank; [reflexivity|].
      apply (trimmed_kept " more words"); [discriminate|].
      apply (trimmed_kept " the data and the method "); [discriminate|].
      apply (trimmed_kept "the data again"); [discriminate|].
      apply trimmed_none.
  - split; [simpl; auto|]. split; [reflexivity|reflexivity].
Defined.

(** A section whose content has three paragraphs, of which one alone scores
    above the threshold. *)
Example generate_sub_section_analysis_one_of_three :
  map PersonaAnalyzer.refined_text
    (PersonaAnalyzer._generate_sub_section_analysis
       [Utils.mkRanked
          (PersonaAnalyzer.mkDocSection
             (Utils.mkSection "Results"
                ["plain words" ++ String Py.newline (String Py.newline
                   ("the data and the method" ++ String Py.newline
                      (String Py.newline "more plain words")))] 1)
             "a.pdf" 1)
          (2 # 3)]
       ["data"] ["method"; "analysis"])
  = ["the data and the method"].
Proof. vm_compute. reflexivity. Qed.

(* ===================================================================== *)
(** ** Keyword resolution                                                 *)
(* ===================================================================== *)

Section KeywordFacts.
Import Py PersonaAnalyzer.

Lemma first_keywords_match (test : string -> bool) (P : string -> Prop)
    (table : list (string * list string)) (kws : list string) :
  (forall k, test k = true <-> P k) ->
  first_match P table kws -> first_keywords test table = Some kws.
Proof.
  intros Htest (front & key & rest & -> & Hkey & Hfront).
  induction front as [|[k v] front IH]; simpl.
  - apply Htest in Hkey. now rewrite Hkey.
  - destruct (test k) eqn:E.
    + apply Htest in E. exfalso. apply (Hfront k v); [now left|exact E].
    + apply IH. intros k' v' Hin. apply (Hfront k' v'). now right.
Qed.

Lemma first_keywords_no_match (test : string -> bool) (P : string -> Prop)
    (table : list (string * list string)) :
  (forall k, test k = true <-> P k) ->
  no_match P table -> first_keywords test table = None.
Proof.
  intros Htest Hnone. induction table as [|[k v] table IH]; [reflexivity|].
  simpl. destruct (test k) eqn:E.
  - apply Htest in E. exfalso. apply (Hnone k v); [now left|exact E].
  - apply IH. intros k' v' Hin. apply (Hnone k' v'). now right.
Qed.

Lemma exact_test (text key : string) :
  contains key (lower text) = true <-> exact_match text key.
Proof. apply contains_iff. Qed.

Lemma word_test (text key : string) :
  existsb (fun word => contains word (lower text)) (split_ws key) = true
  <-> word_match text key.
Proof.
  rewrite existsb_exists. unfold word_match.
  split; intros [w [Hw H]]; exists w; (split; [exact Hw|]);
    now apply contains_iff.
Qed.

End KeywordFacts.

(** C6, as the code has it.  Keyword resolution looks first for a canonical
    key that occurs in the lowercased input, in the order of the table; then
    for a key one of whose words occurs in it; failing both, a job string
    gives the first ten words of its lowercased text that are longer than
    three characters, in the order of the text and with repeats kept, and a
    persona string gives the fixed generic keyword list.  Every input has a
    result. *)
Theorem keyword_resolution_precedence (text : string) :
  let job := PersonaAnalyzer._extract_job_keywords text in
  let persona := PersonaAnalyzer._extract_persona_keywords text in
  let job_table := PersonaAnalyzer.job_keywords in
  let persona_table := PersonaAnalyzer.persona_keywords in
  (forall kws, first_match (exact_match text) job_table kws -> job = kws) /\
  (forall kws,
     no_match (exact_match text) job_table ->
     first_match (word_match text) job_table kws -> job = kws) /\
  (no_match (exact_match text) job_table ->
   no_match (word_match text) job_table ->
   job = firstn 10
           (List.filter (fun word => (3 <? String.length word)%nat)
              (Py.find_words (Py.lower text)))) /\
  (forall kws, first_match (exact_match text) persona_table kws -> persona = kws) /\
  (forall kws,
     no_match (exact_match text) persona_table ->
     first_match (word_match text) persona_table kws -> persona = kws) /\
  (no_match (exact_match text) persona_table ->
   no_match (word_match text) persona_table ->
   persona = PersonaAnalyzer.default_persona_keywords).
Proof.
  intros job persona job_table persona_table.
  subst job persona job_table persona_table.
  unfold PersonaAnalyzer._extract_job_keywords,
    PersonaAnalyzer._extract_persona_keywords.
  repeat split.
  - intros kws H.
    now rewrite (first_keywords_match _ _ _ _ (exact_test text) H).
  - intros kws H1 H2.
    rewrite (first_keywords_no_match _ _ _ (exact_test text) H1).
    now rewrite (first_keywords_match _ _ _ _ (word_test text) H2).
  - intros H1 H2.
    rewrite (first_keywords_no_match _ _ _ (exact_test text) H1).
    now rewrite (first_keywords_no_match _ _ _ (word_test text) H2).
  - intros kws H.
    now rewrite (first_keywords_match _ _ _ _ (exact_test text) H).
  - intros kws H1 H2.
    rewrite (first_keywords_no_match _ _ _ (exact_test text) H1).
    now rewrite (first_keywords_match _ _ _ _ (word_test text) H2).
  - intros H1 H2.
    rewrite (first_keywords_no_match _ _ _ (exact_test text) H1).
    now rewrite (first_keywords_no_match _ _ _ (word_test text) H2).
Qed.

(** C6 as stated fails: the words taken from the job text are not made
    distinct. *)
Lemma job_fallback_keeps_repeats :
  PersonaAnalyzer._extract_job_keywords "Book hotels, book flights"
    = ["book"; "hotels"; "book"; "flights"] /\
  ~ List.NoDup (PersonaAnalyzer._extract_job_keywords "Book hotels, book flights").
Proof.
  split; [vm_compute; reflexivity|].
  vm_compute. intros H.
  inversion H as [|x l Hn _]; subst. apply Hn. right. now left.
Qed.

Section KeywordWitness.
Import Py PersonaAnalyzer.

Lemma no_match_by_test (test : string -> bool) (P : string -> Prop)
    (table : list (string * list string)) :
  (forall k, test k = true <-> P k) ->
  forallb (fun entry => negb (test (fst entry))) table = true ->
  no_match P table.
Proof.
  intros Htest Hall k v Hin HP.
  rewrite forallb_forall in Hall. specialize (Hall _ Hin). simpl in Hall.
  apply Htest in HP. rewrite HP in Hall. discriminate.
Qed.

End KeywordWitness.

Lemma keyword_resolution_precedence_witness :
  PersonaAnalyzer._extract_job_keywords "Book hotels, book flights"
  = firstn 10
      (List.filter (fun word => (3 <? String.length word)%nat)
         (Py.find_words (Py.lower "Book hotels, book flights"))).
Proof.
  apply (keyword_resolution_precedence "Book hotels, book flights").
  - apply (no_match_by_test _ _ _ (exact_test _)). vm_compute. reflexivity.
  - apply (no_match_by_test _ _ _ (word_test _)). vm_compute. reflexivity.
Defined.

(* ===================================================================== *)
(** ** Analysis without processable documents                             *)
(* ===================================================================== *)

Section AnalyzeFacts.
Import Py Utils PersonaAnalyzer.

Lemma document_sections_no_text (doc : Document) :
  doc_text doc = None \/ doc_text doc = Some "" -> document_sections doc = [].
Proof. unfold document_sections. now intros [-> | ->]. Qed.

Lemma no_text_no_sections (documents : list Document) :
  (forall doc, In doc documents ->
     doc_text doc = None \/ doc_text doc = Some "") ->
  flat_map document_sections documents = [].
Proof.
  induction documents as [|d ds IH]; intros H; [reflexivity|].
  simpl. rewrite document_sections_no_text by (apply H; now left).
  apply IH. intros doc Hin. apply H. now right.
Qed.

End AnalyzeFacts.

(** C2 as stated fails: on an empty document list [analyze_documents]
    returns an ordinary result with two empty lists, as it does for a
    document that was processed and gave no section. *)
Lemma analyze_no_documents_silent :
  let none := PersonaAnalyzer.analyze_documents "now" [] "chef" "cook" in
  let processed :=
    PersonaAnalyzer.analyze_documents "now"
      [PersonaAnalyzer.mkDocument (Some "a.pdf") (Some "Introduction") None]
      "chef" "cook" in
  PersonaAnalyzer.extracted_sections none = [] /\
  PersonaAnalyzer.sub_section_analysis none = [] /\
  PersonaAnalyzer.extracted_sections processed
    = PersonaAnalyzer.extracted_sections none /\
  PersonaAnalyzer.sub_section_analysis processed
    = PersonaAnalyzer.sub_section_analysis none.
Proof. vm_compute. repeat split. Qed.

(** C2, as the code has it.  On a document list that is empty or whose
    texts are all missing or empty, [analyze_documents] returns a result
    with the metadata of the call and two empty lists.  The explicit
    condition is the caller's: [run_round_1b] answers an empty document list
    with an error payload before it calls the analyzer, and does not refuse
    documents that only lack a text. *)
Theorem analyze_documents_without_text
    (timestamp persona job : string)
    (documents : list PersonaAnalyzer.Document) :
  (forall doc, In doc documents ->
     PersonaAnalyzer.doc_text doc = None \/
     PersonaAnalyzer.doc_text doc = Some "") ->
  PersonaAnalyzer.analyze_documents timestamp documents persona job
  = PersonaAnalyzer.mkAnalysisResult
      (PersonaAnalyzer.mkResultMetadata
         (map (fun doc => PersonaAnalyzer.get (PersonaAnalyzer.file_path doc) "unknown")
              documents)
         persona job timestamp)
      [] [] /\
  MainEnhanced.no_documents_error [] = Some "No documents could be processed" /\
  (documents <> [] -> MainEnhanced.no_documents_error documents = None).
Proof.
  intros Hempty. split; [|split].
  - unfold PersonaAnalyzer.analyze_documents.
    rewrite (no_text_no_sections _ Hempty). reflexivity.
  - reflexivity.
  - destruct documents; [congruence|reflexivity].
Qed.

Lemma analyze_documents_without_text_witness :
  PersonaAnalyzer.extracted_sections
    (PersonaAnalyzer.analyze_documents "now"
       [PersonaAnalyzer.mkDocument (Some "a.pdf") (Some "") None;
        PersonaAnalyzer.mkDocument None None None]
       "student" "exam preparation") = [].
Proof.
  rewrite (proj1 (analyze_documents_without_text "now" "student" "exam preparation"
    [PersonaAnalyzer.mkDocument (Some "a.pdf") (Some "") None;
     PersonaAnalyzer.mkDocument None None None]
    ltac:(intros doc [<-|[<-|[]]]; simpl; auto))).
  reflexivity.
Defined.

(* ===================================================================== *)
(** ** Similarity of a text with itself                                   *)
(* ===================================================================== *)

Section SimilarityFacts.
Import Py PersonaAnalyzer.

Lemma word_set_empty (text : string) :
  word_set text = ∅ <-> split_ws (lower text) = [].
Proof.
  unfold word_set. split.
  - intros H. destruct (split_ws (lower text)) as [|w ws]; [reflexivity|].
    exfalso. simpl in H. set_solver.
  - intros ->. reflexivity.
Qed.



Lemma is_space_lower_char (c : ascii) :
  is_space (lower_char c) = is_space c.
Proof. destruct c as [[] [] [] [] [] [] [] []]; reflexivity. Qed.

Lemma blank_lower (s : string) : blank (lower s) <-> blank s.
Proof.
  unfold blank. induction s as [|c s IH]; simpl; [tauto|].
  now rewrite is_space_lower_char, IH.
Qed.

Lemma split_ws_go_nil (cur s : string) :
  split_ws_go cur s = [] <-> cur = "" /\ blank s.
Proof.
  unfold blank. revert cur. induction s as [|c s IH]; intros cur; simpl.
  - destruct cur; simpl; split; try tauto; try discriminate.
    intros [H _]. discriminate.
  - destruct (is_space c) eqn:Ec.
    + destruct cur as [|d cur]; cbn [is_empty].
      * rewrite IH. tauto.
      * split; [discriminate|]. intros [H _]. discriminate.
    + rewrite IH. split.
      * intros [H _]. discriminate.
      * intros [_ [H _]]. discriminate.
Qed.

(** A text has no word exactly when it is blank. *)
Lemma no_word_blank (a : string) : split_ws (lower a) = [] <-> blank a.
Proof.
  unfold split_ws. rewrite split_ws_go_nil, blank_lower. tauto.
Qed.

End SimilarityFacts.




(* ===================================================================== *)
(** ** Matching by derivatives decides the language                       *)
(* ===================================================================== *)

Section RegexFacts.
Import Re.

Lemma append_nil_r (s : string) : s ++ "" = s.
Proof. induction s as [|c s IH]; simpl; congruence. Qed.

Lemma append_assoc (a b c : string) : (a ++ b) ++ c = a ++ b ++ c.
Proof. induction a as [|x a IH]; simpl; congruence. Qed.

Lemma append_empty (a b : string) : a ++ b = "" -> a = "" /\ b = "".
Proof. destruct a; simpl; [auto|discriminate]. Qed.

Lemma append_cons (a b : string) (c : ascii) (s : string) :
  a ++ b = String c s ->
  (a = "" /\ b = String c s) \/ (exists a', a = String c a' /\ s = a' ++ b).
Proof.
  destruct a as [|x a]; simpl; intros H.
  - left. auto.
  - right. injection H as -> <-. eauto.
Qed.

Lemma lang_seq (r1 r2 : regex) (s : string) :
  Lang (Seq r1 r2) s <->
  exists s1 s2, s = s1 ++ s2 /\ Lang r1 s1 /\ Lang r2 s2.
Proof.
  split.
  - intros H. inversion H; subst. eauto.
  - intros (s1 & s2 & -> & H1 & H2). now constructor.
Qed.

Lemma lang_alt (r1 r2 : regex) (s : string) :
  Lang (Alt r1 r2) s <-> Lang r1 s \/ Lang r2 s.
Proof.
  split.
  - intros H. inversion H; subst; auto.
  - intros [H|H]; [now apply LAltL | now apply LAltR].
Qed.

Lemma lang_eps (s : string) : Lang Eps s <-> s = "".
Proof.
  split; [intros H; now inversion H | intros ->; constructor].
Qed.

Lemma lang_void (s : string) : ~ Lang Void s.
Proof. intros H. inversion H. Qed.

Lemma lang_cls (p : ascii -> bool) (s : string) :
  Lang (Cls p) s <-> exists c, s = String c "" /\ p c = true.
Proof.
  split.
  - intros H. inversion H; subst. eauto.
  - intros (c & -> & Hc). now constructor.
Qed.

Lemma nullable_iff (r : regex) : nullable r = true <-> Lang r "".
Proof.
  induction r as [| |p|r1 IH1 r2 IH2|r1 IH1 r2 IH2|r IH]; simpl.
  - split; [discriminate | intros H; inversion H].
  - split; [constructor | reflexivity].
  - split; [discriminate | intros H; inversion H].
  - rewrite andb_true_iff, IH1, IH2, lang_seq. split.
    + intros [H1 H2]. exists "", "". auto.
    + intros (s1 & s2 & E & H1 & H2). symmetry in E.
      apply append_empty in E. destruct E as [-> ->]. auto.
  - rewrite orb_true_iff, IH1, IH2, lang_alt. reflexivity.
  - split; [constructor | reflexivity].
Qed.

(** A non-empty word of [r*] starts with a non-empty word of [r]. *)
Lemma lang_star_cons (r : regex) (c : ascii) (s : string) :
  Lang (Star r) (String c s) ->
  exists s1 s2, s = s1 ++ s2 /\ Lang r (String c s1) /\ Lang (Star r) s2.
Proof.
  intros H. remember (Star r) as r0 eqn:Er. remember (String c s) as w eqn:Ew.
  revert c s Ew.
  induction H as [| | | | | |r' s1 s2 H1 _ H2 IH2]; intros x w' Ew;
    try discriminate.
  injection Er as ->.
  destruct (append_cons _ _ _ _ Ew) as [[-> E] | (a' & -> & ->)].
  - now apply IH2.
  - eauto.
Qed.

Lemma deriv_iff (c : ascii) (r : regex) (s : string) :
  Lang (deriv c r) s <-> Lang r (String c s).
Proof.
  revert s.
  induction r as [| |p|r1 IH1 r2 IH2|r1 IH1 r2 IH2|r IH]; intros s; simpl.
  - split; intros H; inversion H.
  - split; intros H; inversion H.
  - rewrite lang_cls. destruct (p c) eqn:E.
    + rewrite lang_eps. split.
      * intros ->. eauto.
      * intros (c' & H & _). now injection H.
    + split; [intros H; inversion H|].
      intros (c' & H & Hc). injection H as ->. congruence.
  - assert (Hseq : Lang (Seq (deriv c r1) r2) s <->
                   exists a' , exists b, s = a' ++ b /\
                     Lang r1 (String c a') /\ Lang r2 b).
    { rewrite lang_seq. split; intros (a' & b & E & H1 & H2);
        exists a', b; (split; [exact E|]); (split; [|exact H2]);
        now apply IH1. }
    rewrite (lang_seq r1 r2). destruct (nullable r1) eqn:En.
    + rewrite lang_alt, Hseq, IH2. split.
      * intros [(a' & b & -> & H1 & H2) | H2].
        -- exists (String c a'), b. auto.
        -- exists "", (String c s). apply nullable_iff in En. auto.
      * intros (a & b & E & H1 & H2). symmetry in E.
        destruct (append_cons _ _ _ _ E) as [[-> ->] | (a' & -> & ->)].
        -- now right.
        -- left. eauto.
    + rewrite Hseq. split.
      * intros (a' & b & -> & H1 & H2). exists (String c a'), b. auto.
      * intros (a & b & E & H1 & H2). symmetry in E.
        destruct (append_cons _ _ _ _ E) as [[-> ->] | (a' & -> & ->)].
        -- apply nullable_iff in H1. congruence.
        -- eauto.
  - rewrite !lang_alt, IH1, IH2. reflexivity.
  - rewrite lang_seq. split.
    + intros (s1 & s2 & -> & H1 & H2). apply IH in H1.
      change (String c (s1 ++ s2)) with (String c s1 ++ s2).
      now constructor.
    + intros H. apply lang_star_cons in H.
      destruct H as (s1 & s2 & -> & H1 & H2).
      exists s1, s2. rewrite IH. auto.
Qed.

Lemma full_match_iff (r : regex) (s : string) :
  full_match r s = true <-> Lang r s.
Proof.
  revert r. induction s as [|c s IH]; intros r; simpl.
  - apply nullable_iff.
  - rewrite IH. apply deriv_iff.
Qed.

(** [re.match] with a pattern [^r]: a front part of the text is a word. *)
Lemma prefix_match_iff (r : regex) (s : string) :
  prefix_match r s = true <-> exists p q, s = p ++ q /\ Lang r p.
Proof.
  revert r. induction s as [|c s IH]; intros r; cbn [prefix_match].
  - rewrite orb_false_r, nullable_iff. split.
    + intros H. exists "", "". auto.
    + intros (p & q & E & H). symmetry in E.
      apply append_empty in E. destruct E as [-> _]. exact H.
  - rewrite orb_true_iff, nullable_iff, IH. split.
    + intros [H | (p & q & -> & H)].
      * exists "", (String c s). auto.
      * exists (String c p), q. apply deriv_iff in H. auto.
    + intros (p & q & E & H). symmetry in E.
      destruct (append_cons _ _ _ _ E) as [[-> _] | (p' & -> & ->)].
      * now left.
      * right. exists p', q. rewrite deriv_iff. auto.
Qed.

End RegexFacts.

(* ===================================================================== *)
(** ** The numbering patterns                                             *)
(* ===================================================================== *)

Section NumberingFacts.
Import Py Re Utils OutlineExtractor.

Lemma lang_chr (c : ascii) (s : string) :
  Lang (Chr c) s <-> s = String c "".
Proof.
  unfold Chr. rewrite lang_cls. split.
  - intros (c' & -> & E). apply Ascii.eqb_eq in E. now subst.
  - intros ->. exists c. split; [reflexivity|apply Ascii.eqb_refl].
Qed.

Lemma lang_star_cls (P : ascii -> bool) (s : string) :
  Lang (Star (Cls P)) s <-> all_chars (fun c => P c = true) s.
Proof.
  induction s as [|c s IH]; simpl.
  - split; [auto|constructor].
  - split.
    + intros H. apply lang_star_cons in H.
      destruct H as (s1 & s2 & -> & H1 & H2).
      apply lang_cls in H1. destruct H1 as (c' & E & Hc).
      injection E as <- ->. split; [exact Hc|]. now apply IH.
    + intros [Hc Hs]. change (String c s) with (String c "" ++ s).
      constructor; [now constructor | now apply IH].
Qed.

Lemma lang_plus_cls (P : ascii -> bool) (s : string) :
  Lang (Plus (Cls P)) s <-> run P s.
Proof.
  unfold Plus, run. rewrite lang_seq. split.
  - intros (s1 & s2 & -> & H1 & H2).
    apply lang_cls in H1. destruct H1 as (c & -> & Hc).
    apply lang_star_cls in H2. simpl. split; [discriminate|auto].
  - intros [Hne Hall]. destruct s as [|c s]; [contradiction|].
    destruct Hall as [Hc Hs]. exists (String c ""), s.
    split; [reflexivity|]. split; [now constructor | now apply lang_star_cls].
Qed.

(** Takes apart the hypotheses on the words of a concatenation. *)
Ltac lang_inv :=
  repeat match goal with
  | H : Lang (Plus (Cls _)) _ |- _ => apply lang_plus_cls in H
  | H : Lang (Chr _) _ |- _ => apply lang_chr in H; subst
  | H : Lang (Cls _) _ |- _ =>
      apply lang_cls in H; destruct H as (? & -> & ?)
  | H : Lang (Seq _ _) _ |- _ =>
      apply lang_seq in H; destruct H as (? & ? & -> & ? & ?)
  end.

(** Builds a word of a concatenation from words of its items. *)
Ltac lang_build :=
  repeat match goal with
  | |- Lang (Plus (Cls _)) _ => apply lang_plus_cls; assumption
  | |- Lang (Chr _) _ => apply lang_chr; reflexivity
  | |- Lang (Seq _ _) (_ ++ _) => apply LSeq
  end.

Lemma level_1_iff (s : string) :
  re_match re_level_1 s = true <-> numbered_1 s.
Proof.
  unfold re_match, re_level_1; cbn [to_end body anchored cat].
  rewrite prefix_match_iff. split.
  - intros (p & q & -> & H). lang_inv. rewrite !append_assoc.
    eexists _, _, q. split; [reflexivity|]. auto.
  - intros (d & sp & q & -> & Hd & Hsp).
    exists (d ++ dot ++ sp), q. split; [now rewrite !append_assoc|].
    unfold dot. lang_build.
Qed.

Lemma level_2_iff (s : string) :
  re_match re_level_2 s = true <-> numbered_2 s.
Proof.
  unfold re_match, re_level_2; cbn [to_end body anchored cat].
  rewrite prefix_match_iff. split.
  - intros (p & q & -> & H). lang_inv. rewrite !append_assoc.
    eexists _, _, _, q. split; [reflexivity|]. auto.
  - intros (d1 & d2 & sp & q & -> & Hd1 & Hd2 & Hsp).
    exists (d1 ++ dot ++ d2 ++ sp), q. split; [now rewrite !append_assoc|].
    unfold dot. lang_build.
Qed.

Lemma level_3_iff (s : string) :
  re_match re_level_3 s = true <-> numbered_3 s.
Proof.
  unfold re_match, re_level_3; cbn [to_end body anchored cat].
  rewrite prefix_match_iff. split.
  - intros (p & q & -> & H). lang_inv. rewrite !append_assoc.
    eexists _, _, _, _, q. split; [reflexivity|]. auto.
  - intros (d1 & d2 & d3 & sp & q & -> & Hd1 & Hd2 & Hd3 & Hsp).
    exists (d1 ++ dot ++ d2 ++ dot ++ d3 ++ sp), q.
    split; [now rewrite !append_assoc|].
    unfold dot. lang_build.
Qed.

(** The heading patterns ask for a capital letter after the numbering. *)
Lemma numbered_shape (s : string) :
  re_match re_numbered s = true -> numbered_1 s.
Proof.
  unfold re_match, re_numbered; cbn [to_end body anchored cat].
  rewrite prefix_match_iff. intros (p & q & -> & H). lang_inv.
  rewrite !append_assoc.
  eexists _, _, _. split; [reflexivity|]. auto.
Qed.

Lemma sub_numbered_shape (s : string) :
  re_match re_sub_numbered s = true -> numbered_2 s.
Proof.
  unfold re_match, re_sub_numbered; cbn [to_end body anchored cat].
  rewrite prefix_match_iff. intros (p & q & -> & H). lang_inv.
  rewrite !append_assoc.
  eexists _, _, _, _. split; [reflexivity|]. auto.
Qed.

Lemma sub_sub_numbered_shape (s : string) :
  re_match re_sub_sub_numbered s = true -> numbered_3 s.
Proof.
  unfold re_match, re_sub_sub_numbered; cbn [to_end body anchored cat].
  rewrite prefix_match_iff. intros (p & q & -> & H). lang_inv.
  rewrite !append_assoc.
  eexists _, _, _, _, _. split; [reflexivity|]. auto.
Qed.

End NumberingFacts.

Section NumberingOrder.
Import Py Re Utils OutlineExtractor.

(** Two runs of one class that end on characters outside the class, in
    front of equal texts, are the same run. *)
Lemma run_boundary (P : ascii -> bool) (a b : string) (x y : ascii)
    (r1 r2 : string) :
  all_chars (fun c => P c = true) a -> all_chars (fun c => P c = true) b ->
  P x = false -> P y = false ->
  a ++ String x r1 = b ++ String y r2 ->
  a = b /\ x = y /\ r1 = r2.
Proof.
  revert b. induction a as [|c a IH]; intros [|d b] Ha Hb Hx Hy E;
    simpl in *.
  - injection E as -> ->. auto.
  - injection E as -> _. destruct Hb as [Hb _]. congruence.
  - injection E as -> _. destruct Ha as [Ha _]. congruence.
  - injection E as -> E. destruct Ha as [_ Ha], Hb as [_ Hb].
    destruct (IH b Ha Hb Hx Hy E) as (-> & -> & ->). auto.
Qed.

Lemma digit_not_space (c : ascii) : is_digit c = true -> is_space c = false.
Proof.
  destruct c as [[] [] [] [] [] [] [] []]; vm_compute; congruence.
Qed.

Lemma run_head (P : ascii -> bool) (s : string) :
  run P s -> exists c r, s = String c r /\ P c = true.
Proof.
  intros [Hne Hall]. destruct s as [|c r]; [contradiction|].
  destruct Hall as [Hc _]. eauto.
Qed.

(** After the first number and its dot, [N. ] goes on with whitespace;
    a text that goes on with a digit is not of that shape. *)
Lemma digit_after_dot (d1 rest : string) (c : ascii) :
  run is_digit d1 -> is_digit c = true ->
  ~ numbered_1 (d1 ++ dot ++ String c rest).
Proof.
  intros Hd1 Hc (d & sp' & q' & E & Hd & Hsp').
  unfold dot in E. cbn [String.append] in E.
  apply (run_boundary is_digit) in E;
    [|apply Hd1|apply Hd|reflexivity|reflexivity].
  destruct E as (_ & _ & E).
  destruct (run_head _ _ Hsp') as (e & r' & -> & He).
  cbn [String.append] in E. injection E as -> _.
  apply digit_not_space in Hc. congruence.
Qed.

Lemma numbered_2_not_1 (s : string) : numbered_2 s -> ~ numbered_1 s.
Proof.
  intros (d1 & d2 & sp & q & -> & Hd1 & Hd2 & Hsp).
  destruct (run_head _ _ Hd2) as (c & r & -> & Hc).
  cbn [String.append]. now apply digit_after_dot.
Qed.

Lemma numbered_3_not_1 (s : string) : numbered_3 s -> ~ numbered_1 s.
Proof.
  intros (d1 & d2 & d3 & sp & q & -> & Hd1 & Hd2 & Hd3 & Hsp).
  destruct (run_head _ _ Hd2) as (c & r & -> & Hc).
  cbn [String.append]. now apply digit_after_dot.
Qed.

Lemma numbered_3_not_2 (s : string) : numbered_3 s -> ~ numbered_2 s.
Proof.
  intros (d1 & d2 & d3 & sp & q & -> & Hd1 & Hd2 & Hd3 & Hsp)
         (e1 & e2 & sp' & q' & E & He1 & He2 & Hsp').
  unfold dot in E. cbn [String.append] in E.
  apply (run_boundary is_digit) in E;
    [|apply Hd1|apply He1|reflexivity|reflexivity].
  destruct E as (_ & _ & E).
  destruct (run_head _ _ Hsp') as (x & r' & -> & Hx).
  cbn [String.append] in E.
  apply (run_boundary is_digit) in E; [|apply Hd2|apply He2|reflexivity|].
  - destruct E as (_ & <- & _). vm_compute in Hx. discriminate.
  - destruct (is_digit x) eqn:Ex; [|reflexivity].
    apply digit_not_space in Ex. congruence.
Qed.

End NumberingOrder.

(** C4 as stated fails: a line of the shape [N.N.N Capital] qualifies and
    gets H3, not H1. *)
Lemma sub_sub_numbered_line_gets_H3 :
  OutlineExtractor._matches_heading_pattern "1.1.1 Detail" = true /\
  Re.re_match OutlineExtractor.re_sub_sub_numbered "1.1.1 Detail" = true /\
  OutlineExtractor._determine_level_by_pattern "1.1.1 Detail" = Utils.H3 /\
  OutlineExtractor._determine_level_by_pattern "1.1.1 Detail" <> Utils.H1.
Proof. vm_compute. repeat split; discriminate. Qed.

(** C4, as the code has it.  [_determine_level_by_pattern] tries the
    numbered shapes in the order [N. ], [N.N ], [N.N.N ] and the first that
    fits decides: H1, H2 and H3.  The three shapes exclude one another, so a
    line that the pattern strategy accepts as [N. Capital] gets H1, as
    [N.N Capital] gets H2 and as [N.N.N Capital] gets H3.  On the text of the
    example the strategy gives "1. Scope" at H1 and "1.1 Detail" at H2. *)
Theorem determine_level_by_pattern_numbering (line : string) :
  let level := OutlineExtractor._determine_level_by_pattern line in
  (numbered_1 line -> level = Utils.H1) /\
  (~ numbered_1 line -> numbered_2 line -> level = Utils.H2) /\
  (~ numbered_1 line -> ~ numbered_2 line -> numbered_3 line ->
   level = Utils.H3) /\
  (Re.re_match Utils.re_numbered line = true -> level = Utils.H1) /\
  (Re.re_match OutlineExtractor.re_sub_numbered line = true ->
   level = Utils.H2) /\
  (Re.re_match OutlineExtractor.re_sub_sub_numbered line = true ->
   level = Utils.H3) /\
  OutlineExtractor._extract_headings_by_pattern
    (Py.join (String Py.newline "")
       ["1. Scope"; ""; "Some body text"; ""; "1.1 Detail"; ""; "More text"])
  = [OutlineExtractor.mkHeading "1. Scope" Utils.H1 1 (Some 1%nat) None None;
     OutlineExtractor.mkHeading "1.1 Detail" Utils.H2 1 (Some 5%nat) None None].
Proof.
  intros level. subst level.
  assert (H1 : numbered_1 line ->
               OutlineExtractor._determine_level_by_pattern line = Utils.H1).
  { intros H. apply level_1_iff in H.
    unfold OutlineExtractor._determine_level_by_pattern. now rewrite H. }
  assert (H2 : ~ numbered_1 line -> numbered_2 line ->
               OutlineExtractor._determine_level_by_pattern line = Utils.H2).
  { intros Hn H. apply level_2_iff in H.
    rewrite <- level_1_iff in Hn. apply not_true_is_false in Hn.
    unfold OutlineExtractor._determine_level_by_pattern. now rewrite Hn, H. }
  assert (H3 : ~ numbered_1 line -> ~ numbered_2 line -> numbered_3 line ->
               OutlineExtractor._determine_level_by_pattern line = Utils.H3).
  { intros Hn1 Hn2 H. apply level_3_iff in H.
    rewrite <- level_1_iff in Hn1. apply not_true_is_false in Hn1.
    rewrite <- level_2_iff in Hn2. apply not_true_is_false in Hn2.
    unfold OutlineExtractor._determine_level_by_pattern.
    now rewrite Hn1, Hn2, H. }
  split; [exact H1|]. split; [exact H2|]. split; [exact H3|].
  split; [|split; [|split]].
  - intros H. apply H1. now apply numbered_shape.
  - intros H. apply sub_numbered_shape in H.
    apply H2; [now apply numbered_2_not_1 | exact H].
  - intros H. apply sub_sub_numbered_shape in H.
    apply H3; [now apply numbered_3_not_1 | now apply numbered_3_not_2 | exact H].
  - vm_compute. reflexivity.
Qed.

Lemma determine_level_by_pattern_numbering_witness :
  OutlineExtractor._determine_level_by_pattern "2.10 Related Work" = Utils.H2.
Proof.
  apply (determine_level_by_pattern_numbering "2.10 Related Work").
  vm_compute. reflexivity.
Defined.

(* ===================================================================== *)
(** ** Further properties: cleaned text                                   *)
(* ===================================================================== *)

Section CleanTextFacts.
Import Py Utils.

Lemma all_chars_impl (P R : ascii -> Prop) (s : string) :
  (forall c, P c -> R c) -> all_chars P s -> all_chars R s.
Proof. intros H. induction s as [|c s IH]; simpl; [tauto|]. intuition. Qed.

Lemma all_chars_and (P R : ascii -> Prop) (s : string) :
  all_chars P s -> all_chars R s -> all_chars (fun c => P c /\ R c) s.
Proof. induction s as [|c s IH]; simpl; tauto. Qed.

Lemma sub_spaces_plain (in_run : bool) (s : string) :
  all_chars plain_space (sub_spaces in_run s).
Proof.
  revert in_run. induction s as [|c s IH]; intros in_run; simpl; [exact I|].
  destruct (is_space c) eqn:E.
  - destruct in_run; [apply IH|]. simpl. split; [|apply IH].
    intros _. reflexivity.
  - simpl. split; [|apply IH]. unfold plain_space. congruence.
Qed.

Lemma keep_chars_kept (keep : ascii -> bool) (s : string) :
  all_chars (fun c => keep c = true) (keep_chars keep s).
Proof.
  induction s as [|c s IH]; simpl; [exact I|].
  destruct (keep c) eqn:E; simpl; auto.
Qed.

Lemma keep_chars_all (keep : ascii -> bool) (P : ascii -> Prop) (s : string) :
  all_chars P s -> all_chars P (keep_chars keep s).
Proof.
  induction s as [|c s IH]; simpl; [tauto|].
  intros [Hc Hs]. destruct (keep c); simpl; auto.
Qed.

Lemma keep_chars_id (keep : ascii -> bool) (s : string) :
  all_chars (fun c => keep c = true) s -> keep_chars keep s = s.
Proof.
  induction s as [|c s IH]; simpl; [reflexivity|].
  intros [Hc Hs]. rewrite Hc. now rewrite IH.
Qed.

Lemma sub_spaces_all (P : ascii -> Prop) (in_run : bool) (s : string) :
  P " "%char -> all_chars P s -> all_chars P (sub_spaces in_run s).
Proof.
  intros Hsp. revert in_run.
  induction s as [|c s IH]; intros in_run; simpl; [tauto|].
  intros [Hc Hs]. destruct (is_space c).
  - destruct in_run; simpl; auto.
  - simpl. auto.
Qed.

Lemma clean_text_chars (text : string) :
  all_chars clean_char (clean_text text).
Proof.
  unfold clean_text. destruct (is_empty text); [exact I|].
  apply all_chars_and.
  - apply keep_chars_kept.
  - apply keep_chars_all, sub_spaces_plain.
Qed.

(** A text without the separator is the one field of [split]. *)
Lemma split_go_plain (sep : ascii) (cur s : string) :
  all_chars (fun c => c <> sep) s ->
  split_go sep cur s = [String.rev_app cur s].
Proof.
  revert cur. induction s as [|c s IH]; intros cur Hs; [reflexivity|].
  destruct Hs as [Hc Hs]. cbn [split_go].
  assert (E : Ascii.eqb c sep = false) by now apply Ascii.eqb_neq.
  rewrite E. now rewrite IH.
Qed.

Lemma clean_char_not_newline (c : ascii) : clean_char c -> not_newline c.
Proof.
  intros [_ Hp] E. subst c. specialize (Hp eq_refl). discriminate.
Qed.

Lemma clean_text_one_line (text : string) :
  split_lines (clean_text text) = [clean_text text].
Proof.
  unfold split_lines. rewrite split_go_plain; [reflexivity|].
  eapply all_chars_impl; [|apply clean_text_chars].
  apply clean_char_not_newline.
Qed.

(** *** Cleaning a text of allowed characters again changes nothing *)

Lemma sub_spaces_again (s : string) (b b' : bool) :
  (b' = true -> b = true) ->
  sub_spaces b' (sub_spaces b s) = sub_spaces b s.
Proof.
  revert b b'. induction s as [|c s IH]; intros b b' Hb; [reflexivity|].
  cbn [sub_spaces]. destruct (is_space c) eqn:E.
  - destruct b.
    + apply IH. auto.
    + destruct b'; [discriminate (Hb eq_refl)|].
      cbn [sub_spaces]. change (is_space " ") with true. cbn iota.
      f_equal. apply IH. auto.
  - cbn [sub_spaces]. rewrite E. f_equal. apply IH. discriminate.
Qed.

Lemma sub_spaces_empty (b : bool) (s : string) :
  sub_spaces b s = "" -> rstrip s = "".
Proof.
  revert b. induction s as [|c s IH]; intros b; [reflexivity|].
  cbn [sub_spaces]. destruct (is_space c) eqn:E.
  - destruct b; [|discriminate]. intros H.
    rewrite rstrip_cons, (IH _ H), E. reflexivity.
  - discriminate.
Qed.

Lemma rstrip_fixed_cons (c : ascii) (r : string) :
  rstrip (String c r) = String c r ->
  (r = "" /\ is_space c = false) \/ (r <> "" /\ rstrip r = r).
Proof.
  rewrite rstrip_cons. destruct (rstrip r) as [|d r'] eqn:E.
  - destruct (is_space c) eqn:Ec; [discriminate|].
    intros H. injection H as <-. auto.
  - intros H. injection H as <-. right. split; [discriminate|reflexivity].
Qed.

Lemma rstrip_cons_fixed (c : ascii) (r : string) :
  r <> "" -> rstrip r = r -> rstrip (String c r) = String c r.
Proof.
  intros Hne Hr. rewrite rstrip_cons, Hr. destruct r; [contradiction|reflexivity].
Qed.

Lemma sub_spaces_rstrip (b : bool) (s : string) :
  rstrip s = s -> rstrip (sub_spaces b s) = sub_spaces b s.
Proof.
  revert b. induction s as [|c s IH]; intros b Hs; [reflexivity|].
  destruct (rstrip_fixed_cons _ _ Hs) as [[-> Hc] | [Hne Hr]].
  - cbn [sub_spaces]. rewrite Hc. cbn. now rewrite Hc.
  - assert (Hx : forall b', sub_spaces b' s <> "").
    { intros b' E. apply sub_spaces_empty in E. congruence. }
    cbn [sub_spaces]. destruct (is_space c).
    + destruct b; [now apply IH|].
      apply rstrip_cons_fixed; [apply Hx | now apply IH].
    + apply rstrip_cons_fixed; [apply Hx | now apply IH].
Qed.

Lemma sub_spaces_starts (s : string) :
  starts_unspaced s -> starts_unspaced (sub_spaces false s).
Proof.
  destruct s as [|c s]; [auto|]. simpl. intros E. rewrite E. exact E.
Qed.

Lemma strip_fixed (s : string) :
  starts_unspaced s -> rstrip s = s -> strip s = s.
Proof. intros H1 H2. unfold strip. now rewrite (lstrip_id _ H1). Qed.

Lemma clean_text_fixed (u : string) :
  all_chars (fun c => allowed c = true) u ->
  starts_unspaced u -> rstrip u = u -> sub_spaces false u = u ->
  clean_text u = u.
Proof.
  intros Hall Hs Hr Hsub. unfold clean_text.
  destruct u as [|c u]; [reflexivity|]. cbn [is_empty].
  rewrite (strip_fixed _ Hs Hr), Hsub. now apply keep_chars_id.
Qed.

Lemma clean_text_allowed_again (text : string) :
  all_chars (fun c => allowed c = true) text ->
  clean_text (clean_text text) = clean_text text.
Proof.
  intros Hall. unfold clean_text at 2 3.
  destruct (is_empty text) eqn:Ee; [reflexivity|].
  assert (Hu : all_chars (fun c => allowed c = true)
                 (sub_spaces false (strip text))).
  { apply sub_spaces_all; [reflexivity|]. now apply all_chars_strip. }
  rewrite (keep_chars_id _ _ Hu).
  apply clean_text_fixed.
  - exact Hu.
  - apply sub_spaces_starts, rstrip_starts, lstrip_starts.
  - apply sub_spaces_rstrip, strip_rstrip.
  - apply sub_spaces_again. discriminate.
Qed.

End CleanTextFacts.

(** X1.  Whatever the text, [clean_text] returns a text of allow-listed
    characters whose only whitespace character is the plain space; it has no
    line break, so [split('\n')] gives it back as a single line. *)
Theorem clean_text_is_one_clean_line (text : string) :
  all_chars clean_char (Utils.clean_text text) /\
  all_chars not_newline (Utils.clean_text text) /\
  Py.split_lines (Utils.clean_text text) = [Utils.clean_text text].
Proof.
  split; [apply clean_text_chars|]. split; [|apply clean_text_one_line].
  eapply all_chars_impl; [|apply clean_text_chars].
  apply clean_char_not_newline.
Qed.

(** X2.  On a text made of allow-listed characters only, a second
    [clean_text] changes nothing; since the first call leaves only such
    characters, cleaning is stable from the second call on, whatever the
    text. *)
Theorem clean_text_stable_on_allowed (text : string) :
  (all_chars (fun c => Utils.allowed c = true) text ->
   Utils.clean_text (Utils.clean_text text) = Utils.clean_text text) /\
  Utils.clean_text (Utils.clean_text (Utils.clean_text text))
  = Utils.clean_text (Utils.clean_text text).
Proof.
  split; [apply clean_text_allowed_again|].
  apply clean_text_allowed_again.
  eapply all_chars_impl; [|apply clean_text_chars].
  intros c [H _]. exact H.
Qed.

Lemma clean_text_stable_on_allowed_witness :
  Utils.clean_text (Utils.clean_text "  Scope  (part 1):   an  overview ")
  = Utils.clean_text "  Scope  (part 1):   an  overview ".
Proof.
  destruct (clean_text_stable_on_allowed
              "  Scope  (part 1):   an  overview ") as [stable _].
  apply stable. vm_compute. tauto.
Defined.

(* ===================================================================== *)
(** ** Further properties: heading candidates and heading levels          *)
(* ===================================================================== *)

Section HeadingCandidateFacts.
Import Py Utils.

Lemma is_heading_candidate_short (text : string) :
  (String.length (strip text) < 2)%nat -> is_heading_candidate text = false.
Proof.
  intros H. unfold is_heading_candidate.
  apply Nat.ltb_lt in H. rewrite H. now rewrite orb_true_r.
Qed.

Lemma is_heading_candidate_long (text : string) :
  is_heading_candidate text = true -> (2 <= String.length (strip text))%nat.
Proof.
  intros H. destruct (Nat.lt_ge_cases (String.length (strip text)) 2) as [Hlt|Hge];
    [|exact Hge].
  rewrite (is_heading_candidate_short _ Hlt) in H. discriminate.
Qed.

Lemma is_heading_candidate_strip (text : string) :
  is_heading_candidate (strip text) = is_heading_candidate text.
Proof.
  unfold is_heading_candidate. rewrite strip_idem.
  destruct (String.length (strip text) <? 2)%nat eqn:E.
  - now rewrite !orb_true_r.
  - rewrite !orb_false_r.
    destruct text as [|c r]; [reflexivity|].
    destruct (strip (String c r)) eqn:Es; [discriminate E|reflexivity].
Qed.

Lemma is_heading_candidate_word (text word : string) :
  (2 <= String.length (strip text))%nat -> In word heading_words ->
  contains word (lower (strip text)) = true ->
  is_heading_candidate text = true.
Proof.
  intros Hlen Hin Hc. unfold is_heading_candidate.
  assert (E : (String.length (strip text) <? 2)%nat = false)
    by (apply Nat.ltb_ge; exact Hlen).
  rewrite E, orb_false_r.
  destruct text as [|c r]; [simpl in Hlen; lia|]. cbn [is_empty].
  destruct (existsb _ heading_patterns); [reflexivity|].
  apply existsb_exists. exists word. auto.
Qed.

End HeadingCandidateFacts.

(** X3.  [is_heading_candidate] looks at the trimmed text only: it gives the
    same answer on a text and on the text trimmed, refuses every text whose
    trimmed form has fewer than two characters (the empty text too), and
    accepts every longer text in which a word of the heading vocabulary
    occurs, whatever the case of the letters. *)
Theorem is_heading_candidate_on_trimmed_text (text : string) :
  Utils.is_heading_candidate (Py.strip text) = Utils.is_heading_candidate text /\
  ((String.length (Py.strip text) < 2)%nat ->
   Utils.is_heading_candidate text = false) /\
  ((2 <= String.length (Py.strip text))%nat ->
   forall word, In word Utils.heading_words ->
     (exists front rest, Py.lower (Py.strip text) = front ++ word ++ rest) ->
     Utils.is_heading_candidate text = true).
Proof.
  split; [apply is_heading_candidate_strip|].
  split; [apply is_heading_candidate_short|].
  intros Hlen word Hin Hocc.
  apply (is_heading_candidate_word text word Hlen Hin).
  now apply contains_iff.
Qed.

Lemma is_heading_candidate_on_trimmed_text_witness :
  Utils.is_heading_candidate "  A " = false.
Proof.
  destruct (is_heading_candidate_on_trimmed_text "  A ") as (_ & short & _).
  apply short. vm_compute. lia.
Defined.

Section HeadingLevelFacts.
Import Py Utils.

Lemma contains_in_empty (sub : string) :
  sub <> "" -> contains sub "" = false.
Proof. destruct sub; [congruence|reflexivity]. Qed.

Lemma get_heading_level_sum
    (font_size : Q) (font_weight text : option string) :
  get_heading_level font_size font_weight text =
  level_of_size (normalize_font_size font_size
                 + bonus (bold_weight font_weight)
                 + bonus (heading_text text))%Z.
Proof.
  unfold get_heading_level, level_of_size, bold_weight, heading_text, bonus.
  assert (Hw : match font_weight with
               | Some w =>
                   if negb (is_empty w) && contains "bold" (lower w)
                   then (normalize_font_size font_size + 1)%Z
                   else normalize_font_size font_size
               | None => normalize_font_size font_size
               end
               = (normalize_font_size font_size
                  + (if match font_weight with
                        | Some w => contains "bold" (lower w)
                        | None => false
                        end then 1 else 0))%Z).
  { destruct font_weight as [[|c w]|]; [cbn; lia| |lia].
    change (negb (is_empty (String c w))) with true. rewrite andb_true_l.
    destruct (contains "bold" (lower (String c w))); lia. }
  rewrite Hw. clear Hw.
  set (n := (normalize_font_size font_size + _)%Z).
  assert (Ht : match text with
               | Some t =>
                   if negb (is_empty t) && is_heading_candidate t
                   then (n + 1)%Z else n
               | None => n
               end
               = (n + (if match text with
                          | Some t => is_heading_candidate t
                          | None => false
                          end then 1 else 0))%Z).
  { destruct text as [[|c t]|]; [cbn; lia| |lia].
    change (negb (is_empty (String c t))) with true. rewrite andb_true_l.
    destruct (is_heading_candidate (String c t)); lia. }
  rewrite Ht. reflexivity.
Qed.

Lemma Qle_bool_mono (c x y : Q) :
  (x <= y)%Q -> Qle_bool c x = true -> Qle_bool c y = true.
Proof.
  intros Hxy H. apply Qle_bool_iff in H. apply Qle_bool_iff.
  now apply Qle_trans with x.
Qed.

Lemma Qle_bool_chain (c d x : Q) :
  (c <= d)%Q -> Qle_bool d x = true -> Qle_bool c x = true.
Proof.
  intros Hcd H. apply Qle_bool_iff in H. apply Qle_bool_iff.
  now apply Qle_trans with d.
Qed.

Lemma normalize_font_size_range (font_size : Q) :
  (0 <= normalize_font_size font_size <= 3)%Z.
Proof.
  unfold normalize_font_size.
  destruct (Qle_bool 16 font_size), (Qle_bool 14 font_size),
    (Qle_bool 12 font_size); lia.
Qed.

Lemma normalize_font_size_mono (x y : Q) :
  (x <= y)%Q -> (normalize_font_size x <= normalize_font_size y)%Z.
Proof.
  intros Hxy. unfold normalize_font_size.
  destruct (Qle_bool 16 x) eqn:E16.
  { now rewrite (Qle_bool_mono 16 x y Hxy E16). }
  destruct (Qle_bool 14 x) eqn:E14.
  { rewrite (Qle_bool_mono 14 x y Hxy E14).
    destruct (Qle_bool 16 y); lia. }
  destruct (Qle_bool 12 x) eqn:E12.
  { rewrite (Qle_bool_mono 12 x y Hxy E12).
    destruct (Qle_bool 16 y), (Qle_bool 14 y); lia. }
  destruct (Qle_bool 16 y), (Qle_bool 14 y), (Qle_bool 12 y); lia.
Qed.

Lemma normalize_font_size_zero (x : Q) :
  normalize_font_size x = 0%Z <-> (x < 12)%Q.
Proof.
  unfold normalize_font_size. split.
  - destruct (Qle_bool 16 x); [discriminate|].
    destruct (Qle_bool 14 x); [discriminate|].
    destruct (Qle_bool 12 x) eqn:E; [discriminate|]. intros _.
    apply Qnot_le_lt. intros H. apply Qle_bool_iff in H. congruence.
  - intros H.
    assert (E12 : Qle_bool 12 x = false).
    { destruct (Qle_bool 12 x) eqn:E; [|reflexivity].
      apply Qle_bool_iff in E. exfalso. exact (Qlt_not_le _ _ H E). }
    assert (E14 : Qle_bool 14 x = false).
    { destruct (Qle_bool 14 x) eqn:E; [|reflexivity].
      rewrite (Qle_bool_chain 12 14 x) in E12; [discriminate| |exact E].
      unfold Qle; simpl; lia. }
    assert (E16 : Qle_bool 16 x = false).
    { destruct (Qle_bool 16 x) eqn:E; [|reflexivity].
      rewrite (Qle_bool_chain 12 16 x) in E12; [discriminate| |exact E].
      unfold Qle; simpl; lia. }
    now rewrite E16, E14, E12.
Qed.

Lemma level_of_size_rank (n : Z) :
  (0 <= n)%Z -> level_rank (level_of_size n) = Z.min n 3.
Proof.
  intros Hn. unfold level_of_size.
  destruct (3 <=? n)%Z eqn:E3; [apply Z.leb_le in E3; simpl; lia|].
  destruct (2 <=? n)%Z eqn:E2; [apply Z.leb_le in E2; apply Z.leb_gt in E3; simpl; lia|].
  destruct (1 <=? n)%Z eqn:E1;
    [apply Z.leb_le in E1| apply Z.leb_gt in E1];
    apply Z.leb_gt in E3; apply Z.leb_gt in E2; simpl; lia.
Qed.

Lemma bonus_range (b : bool) : (0 <= bonus b <= 1)%Z.
Proof. destruct b; simpl; lia. Qed.

Lemma get_heading_level_rank
    (font_size : Q) (font_weight text : option string) :
  level_rank (get_heading_level font_size font_weight text) =
  Z.min (normalize_font_size font_size + bonus (bold_weight font_weight)
         + bonus (heading_text text)) 3.
Proof.
  rewrite get_heading_level_sum. apply level_of_size_rank.
  pose proof (normalize_font_size_range font_size).
  pose proof (bonus_range (bold_weight font_weight)).
  pose proof (bonus_range (heading_text text)). lia.
Qed.

Lemma level_rank_zero (l : level) : level_rank l = 0%Z <-> l = BODY.
Proof. destruct l; simpl; split; intros; congruence || lia. Qed.

Lemma level_rank_three (l : level) : level_rank l = 3%Z <-> l = H1.
Proof. destruct l; simpl; split; intros; congruence || lia. Qed.

End HeadingLevelFacts.

(** X4.  [normalize_font_size] sorts a font size into four buckets: 3 from
    16 on, 2 from 14, 1 from 12, and 0 below.  [get_heading_level] adds one
    for a weight that names a bold font and one for a text that looks like a
    heading, and maps 3 or more to H1, 2 to H2, 1 to H3 and 0 to body text.
    So body text is what has a font smaller than 12, no bold weight and no
    heading-like text; a font of 16 or more always gives H1, a bold font with
    a heading-like text at least H2, and a larger font never gives a lower
    level. *)
Theorem get_heading_level_table
    (font_size larger : Q) (font_weight text : option string) :
  let level := Utils.get_heading_level font_size font_weight text in
  let bucket := Utils.normalize_font_size font_size in
  ((16 <= font_size)%Q -> bucket = 3%Z) /\
  ((14 <= font_size)%Q -> (font_size < 16)%Q -> bucket = 2%Z) /\
  ((12 <= font_size)%Q -> (font_size < 14)%Q -> bucket = 1%Z) /\
  ((font_size < 12)%Q -> bucket = 0%Z) /\
  level_rank level =
    Z.min (bucket + bonus (bold_weight font_weight) + bonus (heading_text text))
          3 /\
  (level = Utils.BODY <->
   (font_size < 12)%Q /\ bold_weight font_weight = false
   /\ heading_text text = false) /\
  ((16 <= font_size)%Q -> level = Utils.H1) /\
  (bold_weight font_weight = true -> heading_text text = true ->
   (2 <= level_rank level)%Z) /\
  ((font_size <= larger)%Q ->
   (level_rank level
    <= level_rank (Utils.get_heading_level larger font_weight text))%Z).
Proof.
  intros level bucket. subst level bucket.
  pose proof (normalize_font_size_range font_size) as Hr.
  pose proof (bonus_range (bold_weight font_weight)) as Hb.
  pose proof (bonus_range (heading_text text)) as Ht.
  assert (Hbucket : forall c, (font_size < c)%Q -> Qle_bool c font_size = false).
  { intros c Hc. destruct (Qle_bool c font_size) eqn:E; [|reflexivity].
    apply Qle_bool_iff in E. exfalso. exact (Qlt_not_le _ _ Hc E). }
  split; [|split; [|split; [|split; [|split; [|split; [|split; [|split]]]]]]].
  - intros H. apply Qle_bool_iff in H. unfold Utils.normalize_font_size.
    now rewrite H.
  - intros H14 H16. apply Qle_bool_iff in H14. apply Hbucket in H16.
    unfold Utils.normalize_font_size. now rewrite H16, H14.
  - intros H12 H14. apply Qle_bool_iff in H12. pose proof H14 as H14'.
    apply Hbucket in H14.
    assert (H16 : Qle_bool 16 font_size = false).
    { apply Hbucket. apply Qlt_trans with 14%Q; [exact H14'|reflexivity]. }
    unfold Utils.normalize_font_size. now rewrite H16, H14, H12.
  - intros H. now apply normalize_font_size_zero.
  - apply get_heading_level_rank.
  - rewrite <- level_rank_zero, get_heading_level_rank.
    rewrite <- normalize_font_size_zero.
    destruct (bold_weight font_weight), (heading_text text); simpl in *;
      split; intros H; try lia; try (destruct H as (? & ? & ?); congruence);
      try (destruct H as (? & ? & ?); lia).
  - intros H16. apply level_rank_three. rewrite get_heading_level_rank.
    apply Qle_bool_iff in H16. unfold Utils.normalize_font_size.
    rewrite H16. lia.
  - intros Hbold Htext. rewrite get_heading_level_rank, Hbold, Htext.
    simpl. lia.
  - intros Hle. rewrite !get_heading_level_rank.
    pose proof (normalize_font_size_mono _ _ Hle). lia.
Qed.

Lemma get_heading_level_table_witness :
  Utils.get_heading_level (33 # 2) (Some "Helvetica") (Some "plain words")
  = Utils.H1.
Proof.
  destruct (get_heading_level_table (33 # 2) (33 # 2) (Some "Helvetica")
              (Some "plain words")) as (_ & _ & _ & _ & _ & _ & large & _).
  apply large. unfold Qle; simpl; lia.
Defined.

(* ===================================================================== *)
(** ** Further properties: document title                                 *)
(* ===================================================================== *)

Section TitleFacts.
Import Py Utils.

Lemma take_length_min (n : nat) (s : string) :
  String.length (take n s) = Nat.min n (String.length s).
Proof.
  revert s; induction n as [|n IH]; intros [|c s]; simpl; try reflexivity.
  now rewrite IH.
Qed.

Lemma looks_like_title_length (line : string) :
  looks_like_title line = true ->
  (3 < String.length (strip line) < 200)%nat.
Proof.
  unfold looks_like_title. rewrite !andb_true_iff.
  intros [[[_ H1] H2] _]. apply Nat.ltb_lt in H1, H2. lia.
Qed.

Lemma long_enough_length (line : string) :
  long_enough line = true <-> (3 < String.length (strip line))%nat.
Proof.
  unfold long_enough. rewrite andb_true_iff, Nat.ltb_lt. split.
  - tauto.
  - intros H. split; [|exact H]. destruct (strip line); [simpl in H; lia|reflexivity].
Qed.

(** A trimmed string does not end with a line feed. *)
Lemma chomp_fixed (s : string) : rstrip s = s -> Re.chomp s = None.
Proof.
  induction s as [|c r IH]; [reflexivity|]. intros Hs.
  apply rstrip_fixed_cons in Hs. cbn [Re.chomp].
  destruct Hs as [[-> Hc] | [Hne Hr]].
  - destruct (Ascii.eqb_spec c newline) as [->|_]; [discriminate|reflexivity].
  - destruct r as [|d r']; [contradiction|]. now rewrite (IH Hr).
Qed.

Lemma title_line_shape (s : string) :
  Re.full_match (Re.body re_title_line) s = true <->
  exists c r, s = String c r /\ is_upper c = true /\ run title_char r.
Proof.
  rewrite full_match_iff. unfold re_title_line.
  cbn [Re.body Re.anchored_end Re.cat]. rewrite lang_seq. split.
  - intros (s1 & s2 & -> & H1 & H2).
    apply lang_cls in H1. destruct H1 as (c & -> & Hc).
    apply lang_plus_cls in H2. exists c, s2. auto.
  - intros (c & r & -> & Hc & Hr). exists (String c ""), r.
    split; [reflexivity|]. split; [now constructor|now apply lang_plus_cls].
Qed.

Lemma looks_like_title_shaped (line : string) :
  looks_like_title line = true <-> title_shaped (strip line).
Proof.
  unfold looks_like_title, title_shaped, Re.re_match.
  cbn [Re.to_end re_title_line Re.anchored_end].
  rewrite (chomp_fixed _ (strip_rstrip line)), orb_false_r.
  change (Re.cat [Re.Cls is_upper; Re.Plus (Re.Cls title_char)])
    with (Re.body re_title_line).
  rewrite !andb_true_iff, !Nat.ltb_lt, title_line_shape. split.
  - intros [[[_ H1] H2] (c & r & E & Hc & _ & Hr)].
    split; [lia|]. exists c, r. auto.
  - intros [Hlen (c & r & E & Hc & Hr)]. rewrite E in *.
    split; [split; [split; [reflexivity|]|]|]; try lia.
    exists c, r. split; [reflexivity|]. split; [exact Hc|].
    split; [|exact Hr]. intros ->. simpl in Hlen. lia.
Qed.

Lemma find_first_such {A : Type} (f : A -> bool) (P : A -> Prop)
    (l : list A) :
  (forall x, f x = true <-> P x) ->
  (forall x, first_such P l x -> find f l = Some x) /\
  (Forall (fun y => ~ P y) l -> find f l = None).
Proof.
  intros HfP. split.
  - intros x (front & rest & -> & Hx & Hfront).
    induction Hfront as [|y front Hy _ IH]; simpl.
    + now rewrite (proj2 (HfP x) Hx).
    + destruct (f y) eqn:E; [|exact IH]. apply HfP in E. contradiction.
  - induction 1 as [|y l Hy _ IH]; simpl; [reflexivity|].
    destruct (f y) eqn:E; [|exact IH]. apply HfP in E. contradiction.
Qed.

End TitleFacts.

(** X5.  [extract_title_from_text] looks at the first ten lines.  The title
    is the first of them that, trimmed, reads as a title; when none does, it
    is the first 100 characters of the first line that has more than 3
    characters once trimmed; when there is none either, and for the empty
    text, it is "Untitled Document".  The title is never empty: it has
    between 4 and 199 characters. *)
Theorem extract_title_from_text_bounds (text : string) :
  let title := Utils.extract_title_from_text text in
  let lines := firstn 10 (Py.split_lines text) in
  (4 <= String.length title <= 199)%nat /\
  (forall line,
     first_such (fun l => title_shaped (Py.strip l)) lines line ->
     title = Py.strip line) /\
  (Forall (fun l => ~ title_shaped (Py.strip l)) lines ->
   forall line,
     first_such (fun l => (3 < String.length (Py.strip l))%nat) lines line ->
     title = Py.take 100 (Py.strip line)) /\
  (Forall (fun l => (String.length (Py.strip l) <= 3)%nat) lines ->
   title = "Untitled Document") /\
  (text = "" -> title = "Untitled Document").
Proof.
  intros title lines.
  destruct (find_first_such Utils.looks_like_title
              (fun l => title_shaped (Py.strip l)) lines
              looks_like_title_shaped) as [Htitle Hnone].
  destruct (find_first_such Utils.long_enough
              (fun l => (3 < String.length (Py.strip l))%nat) lines
              long_enough_length) as [Hlong Hshort].
  assert (Hblank : Py.is_empty text = true -> lines = [""])
    by (destruct text; [reflexivity|discriminate]).
  assert (Hcode : title =
            match find Utils.looks_like_title lines with
            | Some line => Py.strip line
            | None =>
                match find Utils.long_enough lines with
                | Some line => Py.take 100 (Py.strip line)
                | None => "Untitled Document"
                end
            end).
  { subst title. unfold Utils.extract_title_from_text. fold lines.
    destruct (Py.is_empty text) eqn:He; [|reflexivity].
    rewrite (Hblank eq_refl). reflexivity. }
  rewrite Hcode. clear Hcode.
  split; [|split; [|split; [|split]]].
  - destruct (find Utils.looks_like_title lines) as [line|] eqn:E1.
    { apply find_some in E1. destruct E1 as [_ Ht].
      apply looks_like_title_length in Ht. lia. }
    destruct (find Utils.long_enough lines) as [line|] eqn:E2.
    { apply find_some in E2. destruct E2 as [_ Ht].
      apply long_enough_length in Ht. rewrite take_length_min. lia. }
    simpl. lia.
  - intros line Hfirst. now rewrite (Htitle _ Hfirst).
  - intros Hno line Hfirst. now rewrite (Hnone Hno), (Hlong _ Hfirst).
  - intros Hall. rewrite Hnone, Hshort; [reflexivity| |].
    + eapply List.Forall_impl; [|exact Hall]. intros l Hl. cbn in Hl. lia.
    + eapply List.Forall_impl; [|exact Hall].
      intros l Hl [Hlen _]. cbn in Hl. lia.
  - intros ->. reflexivity.
Qed.

Lemma extract_title_from_text_bounds_witness :
  Utils.extract_title_from_text
    ("p. 1" ++ String Py.newline ("  Annual Report: outlook  "
       ++ String Py.newline "Second Title"))
  = "Annual Report: outlook".
Proof.
  destruct (extract_title_from_text_bounds
              ("p. 1" ++ String Py.newline ("  Annual Report: outlook  "
                 ++ String Py.newline "Second Title")))
    as (_ & first_title & _).
  apply (first_title "  Annual Report: outlook  ").
  exists ["p. 1"], ["Second Title"]. split; [reflexivity|]. split.
  - split; [vm_compute; lia|].
    exists "A"%char, "nnual Report: outlook".
    split; [reflexivity|]. split; [reflexivity|]. vm_compute. tauto.
  - constructor; [|constructor].
    intros [_ (c & r & E & Hc & _)]. vm_compute in E.
    injection E as <- _. discriminate Hc.
Defined.

(* ===================================================================== *)
(** ** Further properties: word overlap of two texts                      *)
(* ===================================================================== *)

Section OverlapFacts.
Import Py Utils.

Lemma ratio_range (a b : nat) :
  (a <= b)%nat -> (0 < b)%nat ->
  (0 <= Z.of_nat a # Pos.of_nat b <= 1)%Q.
Proof.
  intros Hab Hb. unfold Qle; simpl. rewrite (Zpos_of_nat _ Hb). lia.
Qed.

Lemma ratio_one (a b : nat) :
  (0 < b)%nat -> (Z.of_nat a # Pos.of_nat b == 1)%Q <-> a = b.
Proof.
  intros Hb. unfold Qeq; simpl. rewrite (Zpos_of_nat _ Hb). lia.
Qed.

Lemma text_words_of_empty : text_words "" = ∅.
Proof. reflexivity. Qed.

(** The quotient that both similarity functions compute from two word
    sets. *)
Lemma overlap_cases (text1 text2 : string) :
  calculate_text_similarity text1 text2 =
  if bool_decide (text_words text1 = ∅) || bool_decide (text_words text2 = ∅)
  then 0%Q
  else Z.of_nat (size (text_words text1 ∩ text_words text2))
       # Pos.of_nat (size (text_words text1 ∪ text_words text2)).
Proof.
  unfold calculate_text_similarity.
  destruct text1 as [|c1 r1]; [reflexivity|].
  destruct text2 as [|c2 r2].
  { cbn [is_empty orb]. rewrite text_words_of_empty.
    rewrite (bool_decide_eq_true_2 (∅ = ∅)) by reflexivity.
    now rewrite orb_true_r. }
  cbn [is_empty orb].
  destruct (bool_decide (text_words (String c1 r1) = ∅)) eqn:E1; [reflexivity|].
  destruct (bool_decide (text_words (String c2 r2) = ∅)) eqn:E2; [reflexivity|].
  cbn [orb]. apply bool_decide_eq_false in E1.
  rewrite bool_decide_eq_false_2; [reflexivity|]. set_solver.
Qed.

Lemma text_words_in (text : string) (word : string) :
  word ∈ text_words text <-> In word (words_of text).
Proof.
  unfold text_words, words_of. rewrite elem_of_list_to_set.
  apply list_elem_of_In.
Qed.

Lemma text_words_blank (text : string) : text_words text = ∅ <-> blank text.
Proof.
  rewrite <- no_word_blank. exact (word_set_empty text).
Qed.

Lemma size_distinct (l : list string) :
  size (list_to_set l : gset string) = distinct l.
Proof.
  unfold distinct.
  rewrite <- (size_list_to_set (C := gset string) (nodup string_dec l)).
  - f_equal. apply set_eq. intros x.
    rewrite !elem_of_list_to_set, !list_elem_of_In. symmetry. apply nodup_In.
  - apply NoDup_ListNoDup, List.NoDup_nodup.
Qed.

Lemma common_in (l1 l2 : list string) (w : string) :
  In w (common l1 l2) <-> In w l1 /\ In w l2.
Proof.
  unfold common. rewrite filter_In, existsb_exists. split.
  - intros (H1 & x & Hx & E). apply String.eqb_eq in E. now subst.
  - intros (H1 & H2). split; [exact H1|]. exists w.
    split; [exact H2|apply String.eqb_refl].
Qed.

Lemma text_words_common (text1 text2 : string) :
  size (text_words text1 ∩ text_words text2) =
  distinct (common (words_of text1) (words_of text2)).
Proof.
  rewrite <- size_distinct. f_equal. apply set_eq. intros w.
  rewrite elem_of_intersection, !text_words_in, elem_of_list_to_set,
    list_elem_of_In, common_in. tauto.
Qed.

Lemma text_words_all (text1 text2 : string) :
  size (text_words text1 ∪ text_words text2) =
  distinct (words_of text1 ++ words_of text2).
Proof.
  rewrite <- size_distinct. f_equal. apply set_eq. intros w.
  rewrite elem_of_union, !text_words_in, elem_of_list_to_set,
    list_elem_of_In, in_app_iff. tauto.
Qed.

Lemma text_words_same (text1 text2 : string) :
  text_words text1 = text_words text2 <->
  forall word, In word (words_of text1) <-> In word (words_of text2).
Proof.
  rewrite set_eq. split; intros H w; specialize (H w).
  - now rewrite <- !text_words_in.
  - now rewrite !text_words_in.
Qed.

End OverlapFacts.

(** X6.  [calculate_text_similarity] is symmetric and lies between 0 and 1.
    It is 0 as soon as one of the texts is blank; otherwise it is the number
    of different words the two texts share, in lower case, over the number
    of different words of both.  It is 1 exactly when the two texts have the
    same words, in whatever case, order and number, and at least one. *)
Theorem calculate_text_similarity_jaccard (text1 text2 : string) :
  let similarity := Utils.calculate_text_similarity text1 text2 in
  let words1 := words_of text1 in
  let words2 := words_of text2 in
  similarity = Utils.calculate_text_similarity text2 text1 /\
  (0 <= similarity <= 1)%Q /\
  (blank text1 \/ blank text2 -> similarity = 0%Q) /\
  (~ blank text1 -> ~ blank text2 ->
   similarity = Z.of_nat (distinct (common words1 words2))
                # Pos.of_nat (distinct (words1 ++ words2))) /\
  ((similarity == 1)%Q <->
   (forall word, In word words1 <-> In word words2) /\ ~ blank text1).
Proof.
  intros similarity words1 words2. subst similarity words1 words2.
  rewrite <- text_words_same, <- !text_words_blank.
  rewrite <- text_words_common, <- text_words_all.
  rewrite !overlap_cases.
  set (A := Utils.text_words text1). set (B := Utils.text_words text2).
  destruct (bool_decide (A = ∅)) eqn:EA.
  { apply bool_decide_eq_true in EA. cbn [orb].
    split; [now rewrite orb_true_r|].
    split; [unfold Qle; simpl; lia|].
    split; [reflexivity|].
    split; [intros H; contradiction|].
    split; [intros H; discriminate H | intros [_ H]; contradiction]. }
  destruct (bool_decide (B = ∅)) eqn:EB.
  { apply bool_decide_eq_true in EB. apply bool_decide_eq_false in EA. cbn [orb].
    split; [reflexivity|].
    split; [unfold Qle; simpl; lia|].
    split; [reflexivity|].
    split; [intros _ H; contradiction|].
    split; [intros H; discriminate H | intros [H1 H2]; congruence]. }
  apply bool_decide_eq_false in EA, EB. cbn [orb].
  assert (Hsub : A ∩ B ⊆ A ∪ B) by set_solver.
  assert (Hpos : (0 < size (A ∪ B))%nat).
  { apply Nat.neq_0_lt_0. intros E. apply size_empty_iff in E. set_solver. }
  split; [|split; [|split; [|split]]].
  - replace (B ∩ A) with (A ∩ B) by set_solver.
    replace (B ∪ A) with (A ∪ B) by set_solver. reflexivity.
  - apply ratio_range; [now apply subseteq_size|exact Hpos].
  - intros [H|H]; contradiction.
  - reflexivity.
  - rewrite (ratio_one _ _ Hpos). split.
    + intros E. split; [|exact EA].
      assert (Heq : A ∩ B = A ∪ B)
        by (apply set_subseteq_size_eq; [exact Hsub|lia]).
      set_solver.
    + intros [E _]. rewrite <- E.
      replace (A ∩ A) with A by set_solver.
      replace (A ∪ A) with A by set_solver. reflexivity.
Qed.

Lemma calculate_text_similarity_jaccard_witness :
  Utils.calculate_text_similarity "The cat sat" "a CAT" = (1 # 4)%Q.
Proof.
  destruct (calculate_text_similarity_jaccard "The cat sat" "a CAT")
    as (_ & _ & _ & quotient & _).
  rewrite quotient; [reflexivity| |];
    vm_compute; intros (H & _); discriminate H.
Defined.

(* ===================================================================== *)
(** ** Further properties: what segmentation keeps                        *)
(* ===================================================================== *)

Section SegmentContentFacts.
Import Py Utils.

Lemma close_current_contents (st : SegState) :
  flat_map content (close_current st) = contents st.
Proof.
  unfold close_current, contents.
  destruct (content (current_section st)) as [|l ls] eqn:E; simpl.
  - now rewrite app_nil_r.
  - rewrite flat_map_app. simpl. now rewrite E, app_nil_r.
Qed.

Lemma segment_line_contents (st : SegState) (line : string) :
  contents (segment_line st line) =
  (contents st ++
   List.filter (fun l => negb (is_heading_candidate l))
     (List.filter (fun l => negb (is_empty l)) [strip line]))%list.
Proof.
  unfold segment_line. cbn [List.filter].
  destruct (is_empty (strip line)) eqn:He; cbn [negb List.filter].
  - now rewrite app_nil_r.
  - destruct (is_heading_candidate (strip line)); cbn [negb].
    + unfold contents at 1. cbn [sections current_section content].
      now rewrite close_current_contents, !app_nil_r.
    + unfold contents. cbn [sections current_section content].
      now rewrite app_assoc.
Qed.

Lemma scan_contents (lines : list string) (st : SegState) :
  contents (fold_left segment_line lines st) =
  (contents st ++
   List.filter (fun l => negb (is_heading_candidate l))
     (List.filter (fun l => negb (is_empty l)) (map strip lines)))%list.
Proof.
  revert st. induction lines as [|l lines IH]; intros st; simpl.
  - now rewrite app_nil_r.
  - rewrite IH, segment_line_contents. cbn [List.filter].
    rewrite <- app_assoc. f_equal.
    destruct (negb (is_empty (strip l))); cbn [List.filter]; [|reflexivity].
    destruct (negb (is_heading_candidate (strip l))); reflexivity.
Qed.

Lemma close_current_titles (text : string) (st : SegState) :
  titles_invariant text st ->
  Forall (fun s => (title s = "" \/ heading_line text (title s)) /\ page s = 1%Z)
         (close_current st) /\
  Forall (fun s => heading_line text (title s)) (tl (close_current st)).
Proof.
  intros (Hall & Htl & Hcur & Hne). unfold close_current.
  destruct (nonempty (content (current_section st))); [|auto].
  split.
  - apply Forall_app. split; [exact Hall|]. constructor; [exact Hcur|constructor].
  - destruct (sections st) as [|s ss] eqn:E; simpl; [constructor|].
    apply Forall_app. split; [exact Htl|].
    constructor; [|constructor]. apply Hne. discriminate.
Qed.

Lemma segment_line_titles (text : string) (st : SegState) (line : string) :
  In line (split_lines text) -> titles_invariant text st ->
  titles_invariant text (segment_line st line).
Proof.
  intros Hin Hinv. unfold segment_line.
  destruct (is_empty (strip line)) eqn:He; [exact Hinv|].
  destruct (is_heading_candidate (strip line)) eqn:Hc.
  - assert (Hh : heading_line text (strip line)).
    { split; [exact Hc|]. unfold scanned_lines. apply filter_In.
      split; [now apply in_map | now rewrite He]. }
    destruct (close_current_titles text st Hinv) as [H1 H2].
    repeat split; cbn; auto; apply Hh.
  - destruct Hinv as (Hall & Htl & Hcur & Hne).
    split; [exact Hall|split; [exact Htl|split; [exact Hcur|exact Hne]]].
Qed.

Lemma scan_titles (text : string) (lines : list string) (st : SegState) :
  (forall l, In l lines -> In l (split_lines text)) ->
  titles_invariant text st ->
  titles_invariant text (fold_left segment_line lines st).
Proof.
  revert st. induction lines as [|l lines IH]; intros st Hl Hinv; [exact Hinv|].
  simpl. apply IH.
  - intros l' Hin. apply Hl. now right.
  - apply segment_line_titles; [apply Hl; now left | exact Hinv].
Qed.

End SegmentContentFacts.

(** X7.  [segment_text_by_sections] loses no content: the content lines of
    its sections, in order, are the non-blank trimmed lines of the text that
    are not heading candidates.  Every section has page 1; only the first
    section can be untitled, and every other title is a heading-candidate
    line of the text. *)
Theorem segment_text_keeps_content (text : string) :
  let sections := Utils.segment_text_by_sections text in
  flat_map Utils.content sections =
    List.filter (fun l => negb (Utils.is_heading_candidate l))
      (scanned_lines text) /\
  Forall (fun s => Utils.page s = 1%Z /\
                   (Utils.title s = "" \/ heading_line text (Utils.title s)))
         sections /\
  Forall (fun s => heading_line text (Utils.title s)) (tl sections).
Proof.
  intros sections. subst sections. unfold Utils.segment_text_by_sections.
  split.
  - rewrite close_current_contents, scan_contents. reflexivity.
  - assert (Hinv : titles_invariant text
      (fold_left Utils.segment_line (Py.split_lines text)
         {| Utils.sections := [];
            Utils.current_section :=
              {| Utils.title := ""; Utils.content := []; Utils.page := 1 |} |})).
    { apply scan_titles; [auto|].
      split; [constructor|split; [constructor|]].
      split; [split; [now left|reflexivity]|]. intros H. now destruct H. }
    destruct (close_current_titles text _ Hinv) as [H1 H2].
    split; [|exact H2].
    eapply List.Forall_impl; [|exact H1]. cbn. tauto.
Qed.

(* ===================================================================== *)
(** ** Further properties: the order of the outline                       *)
(* ===================================================================== *)

Section SortHeadingsFacts.
Import Py Utils OutlineExtractor.

Lemma sort_asc_perm {A : Type} (key : A -> Z) (l : list A) :
  Permutation (PySort.sort_asc key l) l.
Proof. apply sort_perm. Qed.

Lemma sort_asc_sorted {A : Type} (key : A -> Z) (l : list A) :
  StronglySorted (fun a b => (key a <= key b)%Z) (PySort.sort_asc key l).
Proof.
  unfold PySort.sort_asc.
  assert (Hs : StronglySorted (settled (fun y x => (key y <? key x)%Z))
                 (PySort.sort (fun y x => (key y <? key x)%Z) l)).
  { apply sort_sorted.
    - intros a b H. apply Z.ltb_lt in H. apply Z.ltb_ge. lia.
    - unfold settled. intros a b c H1 H2.
      apply Z.ltb_ge in H1, H2. apply Z.ltb_ge. lia. }
  induction Hs as [|a l' Hs IH Ha]; constructor; [exact IH|].
  eapply List.Forall_impl; [|exact Ha].
  intros b Hb. unfold settled in Hb. now apply Z.ltb_ge in Hb.
Qed.

(** Already sorted keys are left in place. *)
Lemma sort_asc_sorted_id {A : Type} (key : A -> Z) (l : list A) :
  StronglySorted (fun a b => (key a <= key b)%Z) l ->
  PySort.sort_asc key l = l.
Proof.
  unfold PySort.sort_asc. induction 1 as [|x l Hs IH Hx]; [reflexivity|].
  cbn [PySort.sort fold_right].
  fold (PySort.sort (fun y x => (key y <? key x)%Z) l). rewrite IH.
  destruct l as [|y l]; [reflexivity|]. cbn [PySort.place].
  inversion Hx as [|? ? Hy _]; subst.
  replace (key y <? key x)%Z with false; [reflexivity|].
  symmetry. apply Z.ltb_ge. exact Hy.
Qed.

Lemma swap_pass_perm (h : Heading) (rest : list Heading) :
  Permutation (swap_pass h rest) (h :: rest).
Proof.
  revert h. induction rest as [|h' rest IH]; intros h; simpl; [reflexivity|].
  destruct (out_of_order h h').
  - rewrite IH. apply perm_swap.
  - now rewrite IH.
Qed.

Lemma out_of_order_page (a b : Heading) :
  out_of_order a b = true -> page a = page b.
Proof.
  unfold out_of_order. rewrite andb_true_iff. intros [H _].
  now apply Z.eqb_eq in H.
Qed.

Lemma swap_pass_sorted (h : Heading) (rest : list Heading) :
  StronglySorted by_page (h :: rest) ->
  StronglySorted by_page (swap_pass h rest).
Proof.
  revert h. induction rest as [|h' rest IH]; intros h Hs; simpl.
  - exact Hs.
  - inversion Hs as [|? ? Hrest Hh]; subst.
    inversion Hrest as [|? ? Hrest' Hh']; subst.
    inversion Hh as [|? ? Hhh' Hhrest]; subst.
    destruct (out_of_order h h') eqn:E.
    + apply out_of_order_page in E.
      constructor.
      * apply IH. constructor; assumption.
      * apply List.Forall_forall. intros x Hx.
        apply (Permutation_in _ (swap_pass_perm h rest)) in Hx.
        unfold by_page. destruct Hx as [<-|Hx]; [lia|].
        rewrite List.Forall_forall in Hh'. now apply Hh'.
    + constructor.
      * apply IH. exact Hrest.
      * apply List.Forall_forall. intros x Hx.
        apply (Permutation_in _ (swap_pass_perm h' rest)) in Hx.
        destruct Hx as [<-|Hx]; [exact Hhh'|].
        rewrite List.Forall_forall in Hhrest. now apply Hhrest.
Qed.

Lemma out_of_order_reversed (a b : Heading) :
  out_of_order a b = true <-> reversed_lines a b.
Proof.
  unfold out_of_order, reversed_lines. rewrite andb_true_iff, Z.eqb_eq.
  destruct (line_number a) as [la|], (line_number b) as [lb|].
  - rewrite Nat.ltb_lt. split.
    + intros [Hp Hl]. split; [exact Hp|]. exists la, lb. auto.
    + intros [Hp (la' & lb' & Ea & Eb & Hl)].
      injection Ea as <-. injection Eb as <-. auto.
  - split; [intros [_ H]; discriminate|].
    intros [_ (la' & lb' & _ & Eb & _)]. discriminate.
  - split; [intros [_ H]; discriminate|].
    intros [_ (la' & lb' & Ea & _ & _)]. discriminate.
  - split; [intros [_ H]; discriminate|].
    intros [_ (la' & lb' & Ea & _ & _)]. discriminate.
Qed.

Lemma out_of_order_not_reversed (a b : Heading) :
  ~ reversed_lines a b -> out_of_order a b = false.
Proof.
  intros H. destruct (out_of_order a b) eqn:E; [|reflexivity].
  apply out_of_order_reversed in E. contradiction.
Qed.

Lemma swap_pass_in_order (h : Heading) (rest : list Heading) :
  neighbours_in_order h rest -> swap_pass h rest = h :: rest.
Proof.
  revert h. induction rest as [|h' rest IH]; intros h; simpl; [reflexivity|].
  intros [E H]. rewrite (out_of_order_not_reversed _ _ E). now rewrite IH.
Qed.

Lemma sort_asc_same_key {A : Type} (key : A -> Z) (l : list A) (k : Z) :
  Forall (fun x => key x = k) l -> PySort.sort_asc key l = l.
Proof.
  intros H. apply sort_asc_sorted_id.
  induction H as [|x l Hx Hl IH]; constructor; [exact IH|].
  eapply List.Forall_impl; [|exact Hl]. intros y Hy. cbn in Hy. lia.
Qed.

End SortHeadingsFacts.

(** X8.  [_sort_headings] returns the headings it was given, each as often
    as before, in non-decreasing order of page.  Headings that already stand
    in page order with no two neighbours in reversed line order are returned
    as they are, and two headings in reversed line order are exchanged.  The
    lines of a page are not sorted, though: the pass over the neighbours is
    made once, so of three headings of one page whose lines fall, the first
    goes last and the other two stay reversed. *)
Theorem sort_headings_by_page (headings : list OutlineExtractor.Heading) :
  let sorted := OutlineExtractor._sort_headings headings in
  Permutation sorted headings /\
  length sorted = length headings /\
  StronglySorted by_page sorted /\
  (StronglySorted by_page headings ->
   match headings with
   | [] => True
   | h :: rest => neighbours_in_order h rest
   end ->
   sorted = headings) /\
  (forall a b,
     reversed_lines a b -> OutlineExtractor._sort_headings [a; b] = [b; a]) /\
  (forall a b c,
     reversed_lines a b -> reversed_lines b c ->
     OutlineExtractor._sort_headings [a; b; c] = [b; c; a]).
Proof.
  intros sorted. subst sorted. unfold OutlineExtractor._sort_headings.
  assert (Hperm : Permutation
    match PySort.sort_asc OutlineExtractor.page headings with
    | [] => []
    | h :: rest => OutlineExtractor.swap_pass h rest
    end headings).
  { rewrite <- (sort_asc_perm OutlineExtractor.page headings) at 2.
    destruct (PySort.sort_asc OutlineExtractor.page headings);
      [reflexivity|apply swap_pass_perm]. }
  split; [exact Hperm|]. split; [now apply Permutation_length|].
  split; [|split; [|split]].
  - pose proof (sort_asc_sorted OutlineExtractor.page headings) as Hs.
    destruct (PySort.sort_asc OutlineExtractor.page headings);
      [constructor|]. now apply swap_pass_sorted.
  - intros Hs Hn. rewrite (sort_asc_sorted_id _ _ Hs).
    destruct headings as [|h rest]; [reflexivity|].
    now apply swap_pass_in_order.
  - intros a b Hab.
    rewrite (sort_asc_same_key _ [a; b] (OutlineExtractor.page b)).
    + cbn [OutlineExtractor.swap_pass].
      now rewrite (proj2 (out_of_order_reversed a b) Hab).
    + destruct Hab as [Hp _]. repeat constructor. exact Hp.
  - intros a b c Hab Hbc.
    assert (Hac : reversed_lines a c).
    { destruct Hab as [Hp (la & lb & Ea & Eb & Hl)].
      destruct Hbc as [Hp' (lb' & lc & Eb' & Ec & Hl')].
      split; [congruence|]. exists la, lc. rewrite Eb in Eb'.
      injection Eb' as <-. repeat split; try assumption. lia. }
    rewrite (sort_asc_same_key _ [a; b; c] (OutlineExtractor.page c)).
    + cbn [OutlineExtractor.swap_pass].
      rewrite (proj2 (out_of_order_reversed a b) Hab).
      now rewrite (proj2 (out_of_order_reversed a c) Hac).
    + destruct Hab as [Hp _], Hbc as [Hp' _].
      repeat constructor; congruence.
Qed.

Lemma sort_headings_by_page_witness :
  let late := OutlineExtractor.mkHeading "Results" Utils.H1 1 (Some 7%nat) None None in
  let early := OutlineExtractor.mkHeading "Method" Utils.H2 1 (Some 3%nat) None None in
  OutlineExtractor._sort_headings [late; early] = [early; late].
Proof.
  intros late early.
  destruct (sort_headings_by_page []) as (_ & _ & _ & _ & exchanged & _).
  apply exchanged. split; [reflexivity|].
  exists 7%nat, 3%nat. repeat split. lia.
Defined.

(* ===================================================================== *)
(** ** Further properties: the font strategy                              *)
(* ===================================================================== *)

Section FontStrategyFacts.
Import Py Utils OutlineExtractor.

Lemma get_heading_level_body
    (font_size : Q) (font_weight text : option string) :
  get_heading_level font_size font_weight text = BODY <->
  (font_size < 12)%Q /\ bold_weight font_weight = false
  /\ heading_text text = false.
Proof.
  pose proof (normalize_font_size_range font_size) as Hr.
  rewrite <- level_rank_zero, get_heading_level_rank.
  rewrite <- normalize_font_size_zero.
  destruct (bold_weight font_weight), (heading_text text); simpl;
    split; intros H; try lia; try (destruct H as (? & ? & ?); congruence);
    try (destruct H as (? & ? & ?); lia).
Qed.

Lemma Qle_bool_false_lt (c x : Q) : Qle_bool c x = false <-> (x < c)%Q.
Proof.
  split.
  - intros E. apply Qnot_le_lt. intros H. apply Qle_bool_iff in H. congruence.
  - intros H. destruct (Qle_bool c x) eqn:E; [|reflexivity].
    apply Qle_bool_iff in E. exfalso. exact (Qlt_not_le _ _ H E).
Qed.

Lemma font_block_heading_cases (page_num : Z) (block : TextBlock) :
  let text := strip (OutlineExtractor.get (block_text block) "") in
  let size := OutlineExtractor.get (block_font_size block) 0%Q in
  let name := OutlineExtractor.get (block_font_name block) "" in
  font_block_heading page_num block =
  if (2 <=? String.length text)%nat
     && (Qle_bool 14 size || contains "bold" (lower name)
         || is_heading_candidate text
         || (contains "black" (lower name) && Qle_bool 12 size))
  then [mkHeading text (get_heading_level size (Some name) (Some text))
          page_num None (Some size) (Some name)]
  else [].
Proof.
  intros text size name. unfold font_block_heading.
  fold text. fold size. fold name.
  destruct (2 <=? String.length text)%nat eqn:El.
  2:{ apply Nat.leb_gt in El.
      assert (E : (String.length text <? 2)%nat = true) by now apply Nat.ltb_lt.
      rewrite E, orb_true_r. reflexivity. }
  apply Nat.leb_le in El.
  assert (E : (String.length text <? 2)%nat = false) by now apply Nat.ltb_ge.
  assert (Ee : is_empty text = false)
    by (destruct text; [simpl in El; lia|reflexivity]).
  rewrite E, Ee. cbn [orb andb].
  unfold _is_font_heading.
  pose proof (get_heading_level_body size (Some name) (Some text)) as Hbody.
  cbn [bold_weight heading_text] in Hbody.
  pose proof (Qle_bool_iff 14 size) as H14.
  pose proof (Qle_bool_iff 12 size) as H12.
  pose proof (Qle_bool_false_lt 12 size) as H12'.
  assert (H1214 : (12 <= 14)%Q) by (unfold Qle; simpl; lia).
  destruct (Qle_bool 14 size), (contains "bold" (lower name)),
    (is_heading_candidate text), (contains "black" (lower name)),
    (Qle_bool 12 size); cbn [orb andb];
    destruct (get_heading_level size (Some name) (Some text));
    try reflexivity;
    try (exfalso; destruct (proj1 Hbody eq_refl) as (Hlt & Hb & Hc);
         try discriminate;
         solve [ apply (Qlt_not_le _ _ Hlt); apply Qle_trans with 14%Q;
                 [exact H1214 | now apply H14]
               | apply (Qlt_not_le _ _ Hlt); now apply H12 ]);
    try (assert (Hx : (size < 12)%Q) by (now apply H12');
         pose proof (proj2 Hbody (conj Hx (conj eq_refl eq_refl)));
         discriminate).
Qed.

Lemma font_block_heading_sound (page_num : Z) (block : TextBlock) (h : Heading) :
  In h (font_block_heading page_num block) ->
  level h <> BODY /\ line_number h = None /\ page h = page_num /\
  (2 <= String.length (OutlineExtractor.text h))%nat /\
  strip (OutlineExtractor.text h) = OutlineExtractor.text h.
Proof.
  rewrite font_block_heading_cases. cbv zeta.
  destruct (2 <=? _)%nat eqn:El; [|intros []]. cbn [andb].
  destruct (_ || _ || _ || _) eqn:Ec; [|intros []].
  intros [<-|[]]. cbn. apply Nat.leb_le in El.
  repeat split; try assumption; try apply strip_idem.
  intros Hbody. apply get_heading_level_body in Hbody.
  cbn [bold_weight heading_text] in Hbody.
  destruct Hbody as (Hlt & Hb & Hc). rewrite Hb, Hc in Ec.
  rewrite !orb_false_r in Ec. apply orb_true_iff in Ec.
  destruct Ec as [E14 | Ek].
  - apply Qle_bool_iff in E14. apply (Qlt_not_le _ _ Hlt).
    apply Qle_trans with 14%Q; [unfold Qle; simpl; lia|exact E14].
  - apply andb_true_iff in Ek. destruct Ek as [_ E12].
    apply Qle_bool_iff in E12. exact (Qlt_not_le _ _ Hlt E12).
Qed.

Lemma font_block_heading_emits (page_data : PageData) (block : TextBlock) :
  (font_emits block ->
   font_block_heading (OutlineExtractor.get (page_number page_data) 1%Z) block
   = [font_heading page_data block]) /\
  (~ font_emits block ->
   font_block_heading (OutlineExtractor.get (page_number page_data) 1%Z) block
   = []).
Proof.
  rewrite font_block_heading_cases. cbv zeta.
  unfold font_emits, font_heading, block_line, block_size, block_font.
  set (text := strip (OutlineExtractor.get (block_text block) "")).
  set (size := OutlineExtractor.get (block_font_size block) 0%Q).
  set (name := OutlineExtractor.get (block_font_name block) "").
  destruct (2 <=? String.length text)%nat eqn:El.
  2:{ apply Nat.leb_gt in El. cbn [andb]. split; [|reflexivity].
      intros [H _]. lia. }
  apply Nat.leb_le in El. cbn [andb].
  destruct (Qle_bool 14 size || contains "bold" (lower name)
            || is_heading_candidate text
            || contains "black" (lower name) && Qle_bool 12 size) eqn:Ec.
  - split; [reflexivity|]. intros Hn. exfalso. apply Hn. split; [exact El|].
    rewrite !orb_true_iff, andb_true_iff, !Qle_bool_iff in Ec. tauto.
  - split; [|reflexivity]. intros [_ H]. exfalso.
    rewrite <- !Qle_bool_iff in H.
    rewrite !orb_false_iff, andb_false_iff in Ec.
    destruct Ec as [[[E14 Eb] Eh] Ek].
    destruct H as [H | [H | [H | [H1 H2]]]]; try congruence.
    destruct Ek; congruence.
Qed.

(** The test of [font_emits], computed. *)
Lemma font_emits_test (block : TextBlock) :
  (2 <=? String.length (block_line block))%nat
  && (Qle_bool 14 (block_size block)
      || contains "bold" (lower (block_font block))
      || is_heading_candidate (block_line block)
      || contains "black" (lower (block_font block))
         && Qle_bool 12 (block_size block)) = true
  <-> font_emits block.
Proof.
  unfold font_emits.
  rewrite andb_true_iff, !orb_true_iff, andb_true_iff, !Qle_bool_iff,
    Nat.leb_le. tauto.
Qed.

(** The headings of the font strategy, block after block. *)
Lemma font_headings_in_order (metadata : Metadata) (keep : TextBlock -> bool) :
  (forall block, keep block = true <-> font_emits block) ->
  _extract_headings_by_font metadata =
  map (fun pb => font_heading (fst pb) (snd pb))
    (List.filter (fun pb => keep (snd pb)) (blocks_in_order metadata)).
Proof.
  intros Hkeep. unfold _extract_headings_by_font, blocks_in_order.
  induction (OutlineExtractor.get (pages metadata) []) as [|pd pds IH];
    [reflexivity|].
  cbn [flat_map]. rewrite List.filter_app, map_app, <- IH. f_equal.
  induction (OutlineExtractor.get (text_blocks pd) []) as [|b bs IHb];
    [reflexivity|].
  cbn [flat_map map List.filter snd]. rewrite IHb.
  destruct (font_block_heading_emits pd b) as [Hyes Hno].
  destruct (keep b) eqn:Eb.
  - rewrite Hyes by now apply Hkeep. reflexivity.
  - rewrite Hno; [reflexivity|]. intros H. apply Hkeep in H. congruence.
Qed.

End FontStrategyFacts.

(** X9.  The font strategy goes through the text blocks page after page and
    makes a heading of a block exactly when the trimmed text of the block
    has at least two characters and the font is 14 or larger, or its name
    contains "bold", or the text looks like a heading, or the name contains
    "black" and the font is 12 or larger: a black font smaller than 12 with
    an ordinary text is accepted as a heading font and then dropped as body
    text.  The headings come in the order of the blocks; each carries the
    trimmed text of its block, at least two characters long, the page of the
    block, the font, no line number, and never the body level. *)
Theorem font_strategy_emission (metadata : OutlineExtractor.Metadata) :
  let headings := OutlineExtractor._extract_headings_by_font metadata in
  (exists keep : OutlineExtractor.TextBlock -> bool,
     (forall block, keep block = true <-> font_emits block) /\
     headings =
     map (fun pb => font_heading (fst pb) (snd pb))
       (List.filter (fun pb => keep (snd pb)) (blocks_in_order metadata))) /\
  Forall (fun h =>
            OutlineExtractor.level h <> Utils.BODY /\
            OutlineExtractor.line_number h = None /\
            (2 <= String.length (OutlineExtractor.text h))%nat /\
            Py.strip (OutlineExtractor.text h) = OutlineExtractor.text h)
         headings.
Proof.
  intros headings. split.
  - eexists. split; [exact font_emits_test|].
    now apply font_headings_in_order, font_emits_test.
  - apply List.Forall_forall. intros h Hin.
    unfold headings, OutlineExtractor._extract_headings_by_font in Hin.
    apply in_flat_map in Hin. destruct Hin as [page_data [_ Hin]].
    apply in_flat_map in Hin. destruct Hin as [b [_ Hin]].
    apply font_block_heading_sound in Hin. tauto.
Qed.

(* ===================================================================== *)
(** ** Further properties: the line-oriented strategies                   *)
(* ===================================================================== *)

Section LineStrategyFacts.
Import Py Utils OutlineExtractor.

Lemma determine_level_by_pattern_not_body (line : string) :
  _determine_level_by_pattern line <> BODY.
Proof.
  unfold _determine_level_by_pattern.
  repeat match goal with |- context [if ?b then _ else _] => destruct b end;
    discriminate.
Qed.

Lemma determine_level_by_content_not_body (line : string) :
  _determine_level_by_content line <> BODY.
Proof.
  unfold _determine_level_by_content.
  repeat match goal with |- context [if ?b then _ else _] => destruct b end;
    discriminate.
Qed.

Lemma line_test_length (line : string) :
  is_empty line || (String.length line <? 2)%nat = false ->
  (2 <= String.length line)%nat.
Proof.
  intros H. apply orb_false_iff in H. destruct H as [_ H].
  now apply Nat.ltb_ge in H.
Qed.

Lemma pattern_line_heading_line : line_heading pattern_line_heading.
Proof.
  intros n line h. unfold pattern_line_heading.
  destruct (is_empty (strip line) || (String.length (strip line) <? 2)%nat)
    eqn:E; [intros []|].
  destruct (_matches_heading_pattern (strip line)); [|intros []].
  intros [<-|[]]. cbn. apply line_test_length in E.
  repeat split; auto. apply determine_level_by_pattern_not_body.
Qed.

Lemma content_line_heading_line : line_heading content_line_heading.
Proof.
  intros n line h. unfold content_line_heading.
  destruct (is_empty (strip line) || (String.length (strip line) <? 2)%nat)
    eqn:E; [intros []|].
  destruct (_contains_heading_keywords (strip line)); [|intros []].
  intros [<-|[]]. cbn. apply line_test_length in E.
  repeat split; auto. apply determine_level_by_content_not_body.
Qed.

Lemma enumerate_in {A : Type} (start : nat) (l : list A) (n : nat) (x : A) :
  In (n, x) (enumerate start l) <->
  (start <= n)%nat /\ nth_error l (n - start) = Some x.
Proof.
  revert start. induction l as [|y l IH]; intros start; simpl.
  - split; [intros []|]. intros [_ H]. destruct (n - start)%nat; discriminate.
  - rewrite IH. split.
    + intros [E | [Hle Hn]].
      * injection E as <- <-. rewrite Nat.sub_diag. auto.
      * split; [lia|]. replace (n - start)%nat with (S (n - S start)) by lia.
        exact Hn.
    + intros [Hle Hn]. destruct (Nat.eq_dec n start) as [->|Hne].
      * rewrite Nat.sub_diag in Hn. injection Hn as ->. now left.
      * right. split; [lia|].
        replace (n - start)%nat with (S (n - S start)) in Hn by lia.
        exact Hn.
Qed.

(** The headings of a line-oriented strategy, over the numbered lines from
    [start] on: each found on its line, and the line numbers increasing. *)
Lemma line_strategy_scan (f : nat * string -> list Heading)
    (start : nat) (lines : list string) :
  line_heading f ->
  Forall (fun h => exists n line,
            In (n, line) (enumerate start lines) /\ f (n, line) = [h])
         (flat_map f (enumerate start lines)) /\
  StronglySorted lt (map line_no (flat_map f (enumerate start lines))) /\
  Forall (fun h => (start <= line_no h)%nat)
         (flat_map f (enumerate start lines)).
Proof.
  intros Hf. revert start.
  induction lines as [|line lines IH]; intros start; simpl.
  - repeat split; constructor.
  - destruct (IH (S start)) as (H1 & H2 & H3).
    assert (Hhere : forall h, In h (f (start, line)) ->
              f (start, line) = [h] /\ line_no h = start).
    { intros h Hin. destruct (Hf _ _ _ Hin) as (E & _ & Hn & _).
      split; [exact E|]. unfold line_no. now rewrite Hn. }
    split; [|split].
    + apply Forall_app. split.
      * apply List.Forall_forall. intros h Hin.
        exists start, line. split; [now left|]. now apply Hhere.
      * eapply List.Forall_impl; [|exact H1].
        intros h (n & l & Hin & E). exists n, l. split; [now right|exact E].
    + destruct (f (start, line)) as [|h0 t] eqn:Ef; [exact H2|].
      destruct (Hhere h0 (or_introl eq_refl)) as [E Hn0].
      injection E as ->. cbn [app map]. constructor; [exact H2|].
      rewrite List.Forall_map. eapply List.Forall_impl; [|exact H3].
      intros h Hh. cbn in Hh. lia.
    + apply Forall_app. split.
      * apply List.Forall_forall. intros h Hin.
        destruct (Hhere h Hin) as [_ ->]. lia.
      * eapply List.Forall_impl; [|exact H3]. intros h Hh. cbn in Hh. lia.
Qed.

Lemma line_strategy_found (f : nat * string -> list Heading)
    (lines : list string) (h : Heading) :
  line_heading f -> In h (flat_map f (enumerate 1 lines)) ->
  found_on_line lines h.
Proof.
  intros Hf Hin. apply in_flat_map in Hin. destruct Hin as [[n line] [Hnl Hin]].
  destruct (Hf _ _ _ Hin) as (_ & Hp & Hn & Ht & Hlen & Hlv).
  apply enumerate_in in Hnl. destruct Hnl as [Hle Hnth].
  repeat split; try assumption.
  - now rewrite Ht.
  - rewrite Ht. apply strip_idem.
  - exists (n - 1)%nat, line. replace (S (n - 1)) with n by lia. auto.
Qed.

Lemma enumerate_combine {A : Type} (start : nat) (l : list A) :
  enumerate start l = combine (seq start (length l)) l.
Proof.
  revert start. induction l as [|x l IH]; intros start; [reflexivity|].
  simpl. now rewrite IH.
Qed.

Lemma line_test_long (line : string) :
  is_empty line || (String.length line <? 2)%nat
  = negb (2 <=? String.length line)%nat.
Proof.
  destruct line as [|c [|d r]]; reflexivity.
Qed.

Lemma pattern_strategy_filter (text : string) :
  _extract_headings_by_pattern text =
  map pattern_heading
    (List.filter
       (fun nl => long_line nl && _matches_heading_pattern (strip (snd nl)))
       (numbered_lines text)).
Proof.
  unfold _extract_headings_by_pattern, numbered_lines.
  rewrite <- enumerate_combine.
  induction (enumerate 1 (split_lines text)) as [|[n line] l IH];
    [reflexivity|].
  cbn [flat_map List.filter]. rewrite IH.
  unfold pattern_line_heading, long_line. cbn [snd].
  rewrite line_test_long.
  destruct (2 <=? String.length (strip line))%nat; cbn [negb andb];
    [|reflexivity].
  destruct (_matches_heading_pattern (strip line)); reflexivity.
Qed.

Lemma keyword_strategy_filter (text : string) :
  _extract_headings_by_content text =
  map keyword_heading
    (List.filter
       (fun nl => long_line nl && _contains_heading_keywords (strip (snd nl)))
       (numbered_lines text)).
Proof.
  unfold _extract_headings_by_content, numbered_lines.
  rewrite <- enumerate_combine.
  induction (enumerate 1 (split_lines text)) as [|[n line] l IH];
    [reflexivity|].
  cbn [flat_map List.filter]. rewrite IH.
  unfold content_line_heading, long_line. cbn [snd].
  rewrite line_test_long.
  destruct (2 <=? String.length (strip line))%nat; cbn [negb andb];
    [|reflexivity].
  destruct (_contains_heading_keywords (strip line)); reflexivity.
Qed.

End LineStrategyFacts.

(** X10.  The pattern strategy and the keyword strategy go through the
    lines of the text, numbered from 1: each makes a heading of the lines
    that, trimmed, have at least two characters and match a heading pattern,
    or hold a heading keyword, and of no others.  The headings come in the
    order of the lines, at most one a line, so the recorded line numbers
    increase strictly; every heading is on page 1, carries the number of its
    line and the trimmed text of that line, and never the body level. *)
Theorem line_strategies_follow_the_lines (text : string) :
  let lines := Py.split_lines text in
  let by_pattern := OutlineExtractor._extract_headings_by_pattern text in
  let by_content := OutlineExtractor._extract_headings_by_content text in
  by_pattern =
    map pattern_heading
      (List.filter
         (fun nl => long_line nl
                    && OutlineExtractor._matches_heading_pattern
                         (Py.strip (snd nl)))
         (numbered_lines text)) /\
  by_content =
    map keyword_heading
      (List.filter
         (fun nl => long_line nl
                    && OutlineExtractor._contains_heading_keywords
                         (Py.strip (snd nl)))
         (numbered_lines text)) /\
  Forall (found_on_line lines) by_pattern /\
  StronglySorted lt (map line_no by_pattern) /\
  Forall (found_on_line lines) by_content /\
  StronglySorted lt (map line_no by_content) /\
  (length by_pattern <= length lines)%nat /\
  (length by_content <= length lines)%nat.
Proof.
  intros lines by_pattern by_content.
  split; [apply pattern_strategy_filter|].
  split; [apply keyword_strategy_filter|].
  subst lines by_pattern by_content.
  unfold OutlineExtractor._extract_headings_by_pattern,
    OutlineExtractor._extract_headings_by_content.
  destruct (line_strategy_scan _ 1 (Py.split_lines text)
              pattern_line_heading_line) as (_ & Hp & Hp').
  destruct (line_strategy_scan _ 1 (Py.split_lines text)
              content_line_heading_line) as (_ & Hc & Hc').
  assert (Hlen : forall f, line_heading f -> forall start ls,
            (length (flat_map f (OutlineExtractor.enumerate start ls))
             <= length ls)%nat).
  { intros f Hf start ls. revert start.
    induction ls as [|l ls IH]; intros start; simpl; [lia|].
    rewrite length_app. specialize (IH (S start)).
    destruct (f (start, l)) as [|h t] eqn:Ef; [simpl; lia|].
    destruct (Hf start l h) as (E & _); [rewrite Ef; now left|].
    rewrite Ef in E. injection E as ->. simpl. lia. }
  repeat split; auto using pattern_line_heading_line, content_line_heading_line.
  - apply List.Forall_forall. intros h Hin.
    now apply (line_strategy_found _ _ _ pattern_line_heading_line).
  - apply List.Forall_forall. intros h Hin.
    now apply (line_strategy_found _ _ _ content_line_heading_line).
Qed.


(* ===================================================================== *)
(** ** Further properties: the outline as a whole                         *)
(* ===================================================================== *)

Section OutlineWholeFacts.
Import Py Utils OutlineExtractor.

Lemma font_headings_sound (metadata : Metadata) (h : Heading) :
  In h (_extract_headings_by_font metadata) ->
  level h <> BODY /\ (2 <= String.length (OutlineExtractor.text h))%nat /\
  strip (OutlineExtractor.text h) = OutlineExtractor.text h.
Proof.
  unfold _extract_headings_by_font. intros Hin.
  apply in_flat_map in Hin. destruct Hin as [page_data [_ Hin]].
  apply in_flat_map in Hin. destruct Hin as [b [_ Hin]].
  apply font_block_heading_sound in Hin. tauto.
Qed.

Lemma candidates_sound (text : string) (metadata : Metadata) (h : Heading) :
  In h (candidates text metadata) -> heading_entry (to_entry h).
Proof.
  unfold candidates, heading_entry. cbn [to_entry entry_level entry_text].
  rewrite !in_app_iff. intros [Hin | [Hin | Hin]].
  - now apply font_headings_sound in Hin.
  - apply (line_strategy_found _ _ _ pattern_line_heading_line) in Hin.
    destruct Hin as (_ & Hl & Hlen & Hs & _). auto.
  - apply (line_strategy_found _ _ _ content_line_heading_line) in Hin.
    destruct Hin as (_ & Hl & Hlen & Hs & _). auto.
Qed.

Lemma kept_from_keys (seen : gset string) (l : list Heading) (h : Heading) :
  In h l -> dedup_key h ∉ seen ->
  In (dedup_key h) (map dedup_key (kept_from seen l)).
Proof.
  revert seen. induction l as [|x l IH]; intros seen; simpl; [tauto|].
  intros [->|Hin] Hn.
  - rewrite bool_decide_eq_false_2 by exact Hn. now left.
  - case_bool_decide as Hx; [now apply IH|].
    destruct (String.eqb_spec (dedup_key x) (dedup_key h)) as [E|E].
    + left. exact E.
    + right. apply IH; [exact Hin|]. set_solver.
Qed.

Lemma sort_headings_perm (headings : list Heading) :
  Permutation (_sort_headings headings) headings.
Proof.
  unfold _sort_headings.
  rewrite <- (sort_asc_perm page headings) at 2.
  destruct (PySort.sort_asc page headings);
    [reflexivity|apply swap_pass_perm].
Qed.

Lemma sort_headings_sorted (headings : list Heading) :
  StronglySorted by_page (_sort_headings headings).
Proof.
  unfold _sort_headings.
  pose proof (sort_asc_sorted page headings) as Hs.
  destruct (PySort.sort_asc page headings); [constructor|].
  now apply swap_pass_sorted.
Qed.

Lemma sorted_map {A B : Type} (f : A -> B) (R : A -> A -> Prop)
    (Q : B -> B -> Prop) (l : list A) :
  (forall a b, R a b -> Q (f a) (f b)) ->
  StronglySorted R l -> StronglySorted Q (map f l).
Proof.
  intros HRQ. induction 1 as [|a l Hs IH Ha]; simpl; constructor; [exact IH|].
  rewrite List.Forall_map. eapply List.Forall_impl; [|exact Ha].
  intros b. apply HRQ.
Qed.

(** The outline of a text that is not empty. *)
Lemma extract_outline_of_text (pdf_data : PdfData) :
  is_empty (OutlineExtractor.get (pdf_text pdf_data) "") = false ->
  outline (extract_outline pdf_data) =
  map to_entry
    (_sort_headings
       (kept_from ∅
          (candidates (OutlineExtractor.get (pdf_text pdf_data) "")
             (OutlineExtractor.get (pdf_metadata pdf_data)
                {| pages := None |})))).
Proof.
  intros He. unfold extract_outline. rewrite He. cbn [outline].
  rewrite deduplicate_kept. reflexivity.
Qed.

Lemma outline_entry_of (text : string) (metadata : Metadata)
    (e : OutlineEntry) :
  In e (map to_entry (_sort_headings (kept_from ∅ (candidates text metadata))))
  <-> exists h, In h (kept_from ∅ (candidates text metadata)) /\ e = to_entry h.
Proof.
  rewrite in_map_iff. split.
  - intros (h & E & Hin). exists h. split; [|now symmetry].
    now apply (Permutation_in _ (sort_headings_perm _)).
  - intros (h & Hin & E). exists h. split; [now symmetry|].
    apply (Permutation_in _ (Permutation_sym (sort_headings_perm _))), Hin.
Qed.

(** A line that [is_heading_candidate] accepts is accepted by one of the two
    line-oriented strategies. *)
Lemma candidate_line_accepted (t : string) :
  is_heading_candidate t = true -> strip t = t ->
  _matches_heading_pattern t || _contains_heading_keywords t = true.
Proof.
  unfold is_heading_candidate. intros H Ht. rewrite Ht in H.
  destruct (is_empty t || (String.length t <? 2)%nat); [discriminate|].
  apply orb_true_iff.
  destruct (existsb (fun pattern => Re.re_match pattern t)
              Utils.heading_patterns) eqn:Ep.
  - left. unfold _matches_heading_pattern.
    apply existsb_exists in Ep. destruct Ep as (p & Hin & Hp).
    apply existsb_exists. exists p. split; [|exact Hp].
    cbn in Hin |- *. tauto.
  - right. unfold _contains_heading_keywords.
    apply existsb_exists in H. destruct H as (w & Hin & Hw).
    apply existsb_exists. exists w. split; [|exact Hw].
    cbn in Hin |- *. tauto.
Qed.

Lemma in_enumerate {A : Type} (start : nat) (l : list A) (x : A) :
  In x l -> exists n, In (n, x) (enumerate start l).
Proof.
  revert start. induction l as [|y l IH]; intros start; [intros []|].
  intros [->|Hin].
  - exists start. now left.
  - destruct (IH (S start) Hin) as [n Hn]. exists n. now right.
Qed.

(** A heading line of the text is the text of a candidate of a
    line-oriented strategy. *)
Lemma heading_line_candidate (text : string) (metadata : Metadata)
    (t : string) :
  heading_line text t ->
  exists h, In h (candidates text metadata) /\ OutlineExtractor.text h = t.
Proof.
  intros [Hc Hin]. unfold scanned_lines in Hin.
  apply filter_In in Hin. destruct Hin as [Hin Hne].
  apply in_map_iff in Hin. destruct Hin as (line & <- & Hline).
  pose proof (is_heading_candidate_long _ Hc) as Hlen.
  rewrite strip_idem in Hlen.
  assert (Hshort : is_empty (strip line)
                   || (String.length (strip line) <? 2)%nat = false).
  { apply orb_false_iff. split.
    - now apply negb_true_iff in Hne.
    - now apply Nat.ltb_ge. }
  destruct (in_enumerate 1 _ _ Hline) as [n Hn].
  pose proof (candidate_line_accepted _ Hc (strip_idem line)) as Hacc.
  apply orb_true_iff in Hacc. unfold candidates.
  destruct Hacc as [Hp | Hk].
  - eexists. split.
    + rewrite !in_app_iff. right. left.
      unfold _extract_headings_by_pattern. apply in_flat_map.
      exists (n, line). split; [exact Hn|].
      unfold pattern_line_heading. rewrite Hshort, Hp. now left.
    + reflexivity.
  - eexists. split.
    + rewrite !in_app_iff. right. right.
      unfold _extract_headings_by_content. apply in_flat_map.
      exists (n, line). split; [exact Hn|].
      unfold content_line_heading. rewrite Hshort, Hk. now left.
    + reflexivity.
Qed.

Lemma segment_titles (text : string) (s : SectionRec) :
  In s (segment_text_by_sections text) ->
  Utils.title s = "" \/ heading_line text (Utils.title s).
Proof.
  intros Hin. unfold segment_text_by_sections in Hin.
  assert (Hinv : titles_invariant text
      (fold_left segment_line (split_lines text)
         {| Utils.sections := [];
            Utils.current_section :=
              {| Utils.title := ""; Utils.content := []; Utils.page := 1 |} |})).
  { apply scan_titles; [auto|].
    split; [constructor|split; [constructor|]].
    split; [split; [now left|reflexivity]|]. intros H. now destruct H. }
  destruct (close_current_titles text _ Hinv) as [H1 _].
  rewrite List.Forall_forall in H1. now destruct (H1 _ Hin).
Qed.

Lemma segment_empty_text (text : string) :
  is_empty text = true -> segment_text_by_sections text = [].
Proof. destruct text; [reflexivity|discriminate]. Qed.

(** The keys of the outline are those of the candidates. *)
Lemma outline_keys (pdf_data : PdfData) (key : string) :
  is_empty (OutlineExtractor.get (pdf_text pdf_data) "") = false ->
  In key (map entry_key (outline (extract_outline pdf_data))) <->
  In key
     (map dedup_key
        (candidates (OutlineExtractor.get (pdf_text pdf_data) "")
           (OutlineExtractor.get (pdf_metadata pdf_data)
              {| pages := None |}))).
Proof.
  intros He. rewrite (extract_outline_of_text pdf_data He).
  set (kept := kept_from ∅ _). rewrite map_map.
  change (map (fun h => entry_key (to_entry h)) (_sort_headings kept))
    with (map dedup_key (_sort_headings kept)).
  assert (Hk : In key (map dedup_key (_sort_headings kept))
               <-> In key (map dedup_key kept)).
  { split; apply Permutation_in; apply Permutation_map;
      [apply sort_headings_perm | symmetry; apply sort_headings_perm]. }
  rewrite Hk. unfold kept. split.
  - intros Hin. apply in_map_iff in Hin. destruct Hin as (h & <- & Hin).
    apply kept_from_in in Hin. apply in_map. tauto.
  - intros Hin. apply in_map_iff in Hin. destruct Hin as (h & <- & Hin).
    apply kept_from_keys; [exact Hin|set_solver].
Qed.

End OutlineWholeFacts.

(** X11.  The outline that [extract_outline] returns holds, under each key
    (the text in lower case, trimmed), exactly one entry: the keys of the
    entries are those of the candidates of the three strategies, none
    twice.  Every entry has a heading level, never the body level, a trimmed
    text of at least two characters, and the entries stand in
    non-decreasing order of page.  The title is the one given, or
    "Untitled Document". *)
Theorem extract_outline_entries (pdf_data : OutlineExtractor.PdfData) :
  let result := OutlineExtractor.extract_outline pdf_data in
  let text := OutlineExtractor.get (OutlineExtractor.pdf_text pdf_data) "" in
  let metadata :=
    OutlineExtractor.get (OutlineExtractor.pdf_metadata pdf_data)
      {| OutlineExtractor.pages := None |} in
  OutlineExtractor.outline_title result =
    OutlineExtractor.get (OutlineExtractor.pdf_title pdf_data)
      "Untitled Document" /\
  Forall heading_entry (OutlineExtractor.outline result) /\
  List.NoDup (map entry_key (OutlineExtractor.outline result)) /\
  StronglySorted entries_by_page (OutlineExtractor.outline result) /\
  (Py.is_empty text = false ->
   forall key,
     In key (map entry_key (OutlineExtractor.outline result)) <->
     In key (map OutlineExtractor.dedup_key (candidates text metadata))).
Proof.
  intros result text metadata. subst result.
  split.
  { unfold OutlineExtractor.extract_outline.
    now destruct (Py.is_empty _). }
  destruct (Py.is_empty text) eqn:He.
  { unfold OutlineExtractor.extract_outline. fold text. rewrite He.
    cbn [OutlineExtractor.outline map].
    repeat split; try constructor; discriminate. }
  assert (Hlast : forall key,
            In key (map entry_key
                      (OutlineExtractor.outline
                         (OutlineExtractor.extract_outline pdf_data))) <->
            In key (map OutlineExtractor.dedup_key (candidates text metadata)))
    by (intros key; now apply outline_keys).
  rewrite (extract_outline_of_text pdf_data He) in Hlast |- *.
  fold text metadata. fold text metadata in Hlast.
  set (kept := kept_from ∅ (candidates text metadata)) in *.
  assert (Hperm : Permutation (OutlineExtractor._sort_headings kept) kept)
    by apply sort_headings_perm.
  assert (Hkeys : map entry_key (map to_entry (OutlineExtractor._sort_headings kept))
                  = map OutlineExtractor.dedup_key
                      (OutlineExtractor._sort_headings kept)).
  { rewrite map_map. reflexivity. }
  split; [|split; [|split]].
  - rewrite List.Forall_map. apply List.Forall_forall. intros h Hin.
    apply (Permutation_in _ Hperm) in Hin.
    apply kept_from_in in Hin. destruct Hin as [Hin _].
    now apply (candidates_sound text metadata).
  - rewrite Hkeys.
    apply (Permutation_NoDup (l := map OutlineExtractor.dedup_key kept)).
    + apply Permutation_map. now symmetry.
    + apply kept_from_nodup.
  - eapply sorted_map; [|apply sort_headings_sorted].
    intros a b H. exact H.
  - intros _. exact Hlast.
Qed.

Lemma extract_outline_entries_witness :
  In "1. scope"
     (map entry_key
        (OutlineExtractor.outline
           (OutlineExtractor.extract_outline
              (OutlineExtractor.mkPdfData (Some "1. Scope") None None)))).
Proof.
  destruct (extract_outline_entries
              (OutlineExtractor.mkPdfData (Some "1. Scope") None None))
    as (_ & _ & _ & _ & same_keys).
  apply same_keys; [reflexivity|]. vm_compute. left. reflexivity.
Defined.

(** X12.  The two views of a text agree on its headings: every titled
    section that [segment_text_by_sections] cuts from a text has its title in
    the outline that [extract_outline] makes of the same text, up to the
    case of the letters, whatever the title and the font metadata given with
    the text. *)
Theorem section_titles_in_outline
    (text : string) (title : option string)
    (metadata : option OutlineExtractor.Metadata) (s : Utils.SectionRec) :
  In s (Utils.segment_text_by_sections text) ->
  Utils.title s <> "" ->
  exists e,
    In e (OutlineExtractor.outline
            (OutlineExtractor.extract_outline
               (OutlineExtractor.mkPdfData (Some text) title metadata))) /\
    entry_key e = Py.strip (Py.lower (Utils.title s)).
Proof.
  intros Hin Hne.
  destruct (Py.is_empty text) eqn:He.
  { rewrite (segment_empty_text _ He) in Hin. destruct Hin. }
  destruct (segment_titles _ _ Hin) as [E|Hline]; [contradiction|].
  set (md := OutlineExtractor.get metadata {| OutlineExtractor.pages := None |}).
  destruct (heading_line_candidate text md _ Hline) as (h & Hh & Ht).
  pose proof (outline_keys
                (OutlineExtractor.mkPdfData (Some text) title metadata)
                (OutlineExtractor.dedup_key h) He) as Hkeys.
  cbn [OutlineExtractor.pdf_text OutlineExtractor.pdf_metadata
       OutlineExtractor.get] in Hkeys. fold md in Hkeys.
  assert (Hk : In (OutlineExtractor.dedup_key h)
                 (map OutlineExtractor.dedup_key (candidates text md)))
    by now apply in_map.
  apply Hkeys in Hk. apply in_map_iff in Hk. destruct Hk as (e & Ee & Hine).
  exists e. split; [exact Hine|].
  rewrite Ee. unfold OutlineExtractor.dedup_key. now rewrite Ht.
Qed.

Lemma section_titles_in_outline_witness :
  exists e,
    In e (OutlineExtractor.outline
            (OutlineExtractor.extract_outline
               (OutlineExtractor.mkPdfData
                  (Some ("Methods" ++ String Py.newline "we did it"))
                  None None))) /\
    entry_key e = "methods".
Proof.
  apply (section_titles_in_outline
           ("Methods" ++ String Py.newline "we did it") None None
           (Utils.mkSection "Methods" ["we did it"] 1)).
  - vm_compute. left. reflexivity.
  - discriminate.
Defined.


(* ===================================================================== *)
(** ** Further properties: the analysis of the documents                  *)
(* ===================================================================== *)

Section AnalyzeFurtherFacts.
Import Py Utils PersonaAnalyzer.

(** A list already in descending order is left as it is. *)
Lemma sort_desc_sorted_id {A : Type} (key : A -> Q) (l : list A) :
  StronglySorted (fun a b => (key b <= key a)%Q) l ->
  PySort.sort_desc key l = l.
Proof.
  unfold PySort.sort_desc. induction 1 as [|x l Hs IH Hx]; [reflexivity|].
  cbn [PySort.sort fold_right].
  fold (PySort.sort (fun y x => PySort.Qltb (key x) (key y)) l). rewrite IH.
  destruct l as [|y l]; [reflexivity|]. cbn [PySort.place].
  inversion Hx as [|? ? Hy _]; subst.
  replace (PySort.Qltb (key x) (key y)) with false; [reflexivity|].
  symmetry. apply Qltb_ge. exact Hy.
Qed.

Lemma sorted_filter {A : Type} (R : A -> A -> Prop) (p : A -> bool)
    (l : list A) :
  StronglySorted R l -> StronglySorted R (List.filter p l).
Proof.
  induction 1 as [|x l Hs IH Hx]; simpl; [constructor|].
  destruct (p x); [|exact IH]. constructor; [exact IH|].
  rewrite List.Forall_forall in *. intros y Hy.
  apply filter_In in Hy. now apply Hx.
Qed.

Lemma sorted_map_key {A B : Type} (f : A -> B) (key : A -> Q) (key' : B -> Q)
    (l : list A) :
  (forall a, key' (f a) = key a) ->
  StronglySorted (fun a b => (key b <= key a)%Q) l ->
  StronglySorted (fun a b => (key' b <= key' a)%Q) (map f l).
Proof.
  intros Hk. induction 1 as [|x l Hs IH Hx]; simpl; constructor; [exact IH|].
  rewrite List.Forall_map. eapply List.Forall_impl; [|exact Hx].
  intros y Hy. cbn. now rewrite !Hk.
Qed.

Lemma document_sections_cut (documents : list Document) (ds : DocSection) :
  In ds (flat_map document_sections documents) -> cut_from documents ds.
Proof.
  intros Hin. apply in_flat_map in Hin. destruct Hin as (doc & Hdoc & Hin).
  unfold document_sections in Hin.
  destruct (is_empty (PersonaAnalyzer.get (doc_text doc) "")) eqn:He;
    [destruct Hin|].
  apply in_map_iff in Hin. destruct Hin as (s & <- & Hs).
  split; [reflexivity|]. exists doc. cbn.
  repeat split; try assumption.
  intros E. rewrite E in He. discriminate.
Qed.

(** A section cut by segmentation is one paragraph for the sub-section
    step. *)
Lemma segmented_sub_sections (pk jk : list string) (r : Ranked DocSection)
    (text : string) :
  In (section (ranked_section r)) (segment_text_by_sections text) ->
  section_sub_sections pk jk r =
  paragraph_sub_section pk jk r
    (join " " (section_content (ranked_section r))).
Proof.
  intros Hin.
  pose proof (segment_filled text) as Hall.
  rewrite List.Forall_forall in Hall.
  destruct (Hall _ Hin) as [Hne Hlines].
  unfold section_sub_sections, section_content.
  rewrite (paragraphs_of_content_line _ (join_content_line _ Hne Hlines)).
  cbn [firstn flat_map]. apply app_nil_r.
Qed.

Lemma ranked_sub_sections (pk jk : list string) (documents : list Document)
    (r : Ranked DocSection) :
  In r (rank_sections_by_relevance section_content
          (flat_map document_sections documents) pk jk) ->
  section_sub_sections pk jk r =
  if PySort.Qltb (1 # 10) (importance_rank r) then [whole_section r] else [].
Proof.
  intros Hin. apply rank_in in Hin. destruct Hin as (ds & Hds & ->).
  destruct (document_sections_cut _ _ Hds) as (_ & doc & _ & _ & _ & Hseg).
  rewrite (segmented_sub_sections pk jk
             (score_section section_content pk jk ds) _ Hseg).
  reflexivity.
Qed.

Lemma flat_map_filter_map {A B : Type} (p : A -> bool) (f : A -> B)
    (g : A -> list B) (l : list A) :
  (forall a, In a l -> g a = if p a then [f a] else []) ->
  flat_map g l = map f (List.filter p l).
Proof.
  induction l as [|a l IH]; intros H; [reflexivity|].
  cbn [flat_map List.filter]. rewrite (H a) by now left.
  rewrite IH by (intros; apply H; now right).
  destruct (p a); reflexivity.
Qed.

Lemma firstn_short {A : Type} (n : nat) (l : list A) :
  (length l <= n)%nat -> firstn n l = l.
Proof. apply firstn_all2. Qed.

(** The sub-sections that [analyze_documents] returns. *)
Lemma analyze_documents_sub
    (timestamp : string) (documents : list Document)
    (persona job_to_be_done : string) :
  sub_section_analysis
    (analyze_documents timestamp documents persona job_to_be_done) =
  map whole_section
    (List.filter (fun r => PySort.Qltb (1 # 10) (importance_rank r))
       (firstn 10
          (rank_sections_by_relevance section_content
             (flat_map document_sections documents)
             (_extract_persona_keywords persona)
             (_extract_job_keywords job_to_be_done)))).
Proof.
  unfold analyze_documents. cbn [sub_section_analysis].
  unfold _generate_sub_section_analysis.
  set (pk := _extract_persona_keywords persona).
  set (jk := _extract_job_keywords job_to_be_done).
  set (ranked := rank_sections_by_relevance _ _ pk jk).
  set (above := fun r : Ranked DocSection =>
                  PySort.Qltb (1 # 10) (importance_rank r)).
  rewrite (flat_map_filter_map above whole_section).
  2:{ intros r Hr. apply in_firstn in Hr.
      now apply (ranked_sub_sections pk jk documents). }
  rewrite sort_desc_sorted_id.
  2:{ apply (sorted_map_key whole_section importance_rank);
        [reflexivity|].
      apply sorted_filter, sorted_firstn, sort_desc_sorted. }
  apply firstn_short. rewrite length_map.
  pose proof (filter_length_le above (firstn 10 ranked)).
  pose proof (firstn_le_length 10 ranked). lia.
Qed.


End AnalyzeFurtherFacts.

(* ===================================================================== *)
(** ** Further properties: the keyword lists                              *)
(* ===================================================================== *)

Section KeywordListFacts.
Import Py Utils PersonaAnalyzer.

Lemma first_keywords_in (test : string -> bool)
    (table : list (string * list string)) (kws : list string) :
  first_keywords test table = Some kws -> exists key, In (key, kws) table.
Proof.
  induction table as [|[k v] table IH]; simpl; [discriminate|].
  destruct (test k).
  - intros E. injection E as ->. exists k. now left.
  - intros E. destruct (IH E) as [key Hin]. exists key. now right.
Qed.

Lemma persona_keywords_source (persona : string) :
  (exists key, In (key, _extract_persona_keywords persona) persona_keywords)
  \/ _extract_persona_keywords persona = default_persona_keywords.
Proof.
  unfold _extract_persona_keywords.
  destruct (first_keywords _ persona_keywords) as [kws|] eqn:E1.
  { left. exact (first_keywords_in _ _ _ E1). }
  clear E1.
  destruct (first_keywords _ persona_keywords) as [kws|] eqn:E2.
  { left. exact (first_keywords_in _ _ _ E2). }
  now right.
Qed.

Lemma persona_keywords_length (persona : string) :
  (11 <= length (_extract_persona_keywords persona) <= 14)%nat.
Proof.
  destruct (persona_keywords_source persona) as [[key Hin] | ->].
  - set (kws := _extract_persona_keywords persona) in *. clearbody kws.
    cbn in Hin.
    repeat (destruct Hin as [E | Hin];
            [injection E as _ <-; simpl; lia|]).
    destruct Hin.
  - simpl. lia.
Qed.

Lemma lower_char_not_upper (c : ascii) : is_upper (lower_char c) = false.
Proof. destruct c as [[] [] [] [] [] [] [] []]; reflexivity. Qed.

Lemma lower_not_upper (s : string) :
  all_chars (fun c => is_upper c = false) (lower s).
Proof.
  induction s as [|c s IH]; simpl; [exact I|].
  split; [apply lower_char_not_upper|exact IH].
Qed.

Lemma rev_app_nonempty (a b : string) : b <> "" -> String.rev_app a b <> "".
Proof.
  revert b. induction a as [|c a IH]; intros b Hb; [exact Hb|].
  simpl. apply IH. discriminate.
Qed.

(** The words that [findall] cuts are runs of word characters, made of
    characters of the text. *)
Lemma find_words_go_words (P : ascii -> Prop) (cur s : string) :
  all_chars (fun c => is_word c = true /\ P c) cur -> all_chars P s ->
  Forall (fun w => w <> "" /\ all_chars (fun c => is_word c = true /\ P c) w)
         (find_words_go cur s).
Proof.
  revert cur. induction s as [|c s IH]; intros cur Hcur Hs; simpl.
  - destruct cur as [|d cur]; cbn [is_empty]; constructor; [|constructor].
    split.
    + change (String.rev (String d cur))
        with (String.rev_app cur (String d "")).
      apply rev_app_nonempty. discriminate.
    + now apply all_chars_rev.
  - destruct Hs as [Hc Hs]. destruct (is_word c) eqn:Ew.
    + apply IH; [|exact Hs]. simpl. auto.
    + destruct cur as [|d cur]; cbn [is_empty].
      * apply IH; [exact I|exact Hs].
      * constructor; [|apply IH; [exact I|exact Hs]]. split.
        -- change (String.rev (String d cur))
             with (String.rev_app cur (String d "")).
           apply rev_app_nonempty. discriminate.
        -- now apply all_chars_rev.
Qed.

Lemma find_words_lower (text : string) :
  Forall lower_word (find_words (lower text)).
Proof.
  apply (find_words_go_words (fun c => is_upper c = false));
    [exact I|apply lower_not_upper].
Qed.

Lemma forall_firstn {A : Type} (P : A -> Prop) (n : nat) (l : list A) :
  Forall P l -> Forall P (firstn n l).
Proof.
  rewrite !List.Forall_forall. intros H x Hx. apply H.
  now apply in_firstn in Hx.
Qed.

Lemma job_keywords_source (job : string) :
  (exists key, In (key, _extract_job_keywords job) job_keywords) \/
  _extract_job_keywords job =
    firstn 10 (List.filter (fun word => (3 <? String.length word)%nat)
                 (find_words (lower job))).
Proof.
  unfold _extract_job_keywords.
  destruct (first_keywords _ job_keywords) as [kws|] eqn:E1.
  { left. exact (first_keywords_in _ _ _ E1). }
  clear E1.
  destruct (first_keywords _ job_keywords) as [kws|] eqn:E2.
  { left. exact (first_keywords_in _ _ _ E2). }
  now right.
Qed.

End KeywordListFacts.

(** X13.  The keyword lists are never long, and the persona's is never
    empty: [_extract_persona_keywords] returns one of the five lists of the
    table, of 14 keywords each, or the 11 default keywords;
    [_extract_job_keywords] returns one of the five lists of its table, of
    8 to 10 keywords, or at most ten words of the description, each a word
    in lower case of more than three characters.  The empty description
    gives no job keyword at all. *)
Theorem extracted_keyword_lists (persona job : string) :
  let pk := PersonaAnalyzer._extract_persona_keywords persona in
  let jk := PersonaAnalyzer._extract_job_keywords job in
  (((exists key, In (key, pk) PersonaAnalyzer.persona_keywords)
    /\ length pk = 14%nat)
   \/ (pk = PersonaAnalyzer.default_persona_keywords /\ length pk = 11%nat)) /\
  (((exists key, In (key, jk) PersonaAnalyzer.job_keywords)
    /\ (8 <= length jk <= 10)%nat)
   \/ ((length jk <= 10)%nat /\
       Forall (fun w => lower_word w /\ (3 < String.length w)%nat) jk)) /\
  PersonaAnalyzer._extract_job_keywords "" = [].
Proof.
  intros pk jk. split; [|split].
  - destruct (persona_keywords_source persona) as [[key Hin] | E].
    + left. split; [now exists key|]. fold pk in Hin. clearbody pk.
      cbn in Hin.
      repeat (destruct Hin as [E | Hin]; [injection E as _ <-; reflexivity|]).
      destruct Hin.
    + right. split; [exact E|]. fold pk in E. now rewrite E.
  - destruct (job_keywords_source job) as [[key Hin] | E].
    + left. split; [now exists key|]. fold jk in Hin. clearbody jk.
      cbn in Hin.
      repeat (destruct Hin as [E | Hin];
              [injection E as _ <-; simpl; lia|]).
      destruct Hin.
    + right. fold jk in E. rewrite E. split; [apply firstn_le_length|].
      apply forall_firstn. apply List.Forall_forall. intros w Hw.
      apply filter_In in Hw. destruct Hw as [Hin Hlen].
      apply Nat.ltb_lt in Hlen. split; [|exact Hlen].
      pose proof (find_words_lower job) as Hall.
      rewrite List.Forall_forall in Hall. now apply Hall.
  - reflexivity.
Qed.

(** X14.  What [analyze_documents] returns is determined by the ten best
    sections of the documents, [top]: no other section scores more than one
    of them.  The extracted sections are these ten, in descending order of
    score, and the sub-section analysis is made of those among them that
    score above 1/10, in the same order, each with the score of its section
    and its whole content cut to 500 characters; for a section cut by
    segmentation is a single paragraph.  So there are never more
    sub-sections than extracted sections, and never more than ten.  Every
    section comes from a document that has a text, on page 1, and its score
    is the number of keywords found in its content over the number of
    keywords, which is never zero. *)
Theorem analyze_documents_results
    (timestamp : string) (documents : list PersonaAnalyzer.Document)
    (persona job_to_be_done : string) :
  let result :=
    PersonaAnalyzer.analyze_documents timestamp documents persona
      job_to_be_done in
  let pk := PersonaAnalyzer._extract_persona_keywords persona in
  let jk := PersonaAnalyzer._extract_job_keywords job_to_be_done in
  exists top : list (Utils.Ranked PersonaAnalyzer.DocSection),
    PersonaAnalyzer.extracted_sections result = map reported top /\
    PersonaAnalyzer.sub_section_analysis result =
      map whole_section
        (List.filter
           (fun r => PySort.Qltb (1 # 10) (Utils.importance_rank r)) top) /\
    (length top <= 10)%nat /\
    StronglySorted
      (fun a b => (Utils.importance_rank b <= Utils.importance_rank a)%Q)
      top /\
    Forall (fun r =>
              cut_from documents (Utils.ranked_section r) /\
              (0 <= Utils.importance_rank r <= 1)%Q /\
              Utils.importance_rank r =
              Z.of_nat (hits pk (Utils.ranked_section r)
                        + hits jk (Utils.ranked_section r))
              # Pos.of_nat (length pk + length jk))
           top /\
    (exists rest,
       Permutation (map Utils.ranked_section (top ++ rest))
         (flat_map PersonaAnalyzer.document_sections documents) /\
       (forall a b, In a top -> In b rest ->
          (Utils.importance_rank b <= Utils.importance_rank a)%Q) /\
       Forall (fun r =>
                 r = Utils.score_section PersonaAnalyzer.section_content
                       pk jk (Utils.ranked_section r))
              (top ++ rest) /\
       (rest <> [] -> length top = 10%nat)) /\
    (length (PersonaAnalyzer.sub_section_analysis result)
     <= length (PersonaAnalyzer.extracted_sections result) <= 10)%nat.
Proof.
  intros result pk jk.
  set (ranked :=
         Utils.rank_sections_by_relevance PersonaAnalyzer.section_content
           (flat_map PersonaAnalyzer.document_sections documents) pk jk).
  set (above := fun r : Utils.Ranked PersonaAnalyzer.DocSection =>
                  PySort.Qltb (1 # 10) (Utils.importance_rank r)).
  assert (Hsorted : StronglySorted
            (fun a b => (Utils.importance_rank b <= Utils.importance_rank a)%Q)
            (firstn 10 ranked))
    by apply sorted_firstn, sort_desc_sorted.
  assert (Hlen : (length (firstn 10 ranked) <= 10)%nat)
    by apply firstn_le_length.
  assert (Hsub : PersonaAnalyzer.sub_section_analysis result =
                 map whole_section (List.filter above (firstn 10 ranked)))
    by apply analyze_documents_sub.
  exists (firstn 10 ranked).
  split; [reflexivity|]. split; [exact Hsub|]. split; [exact Hlen|].
  split; [exact Hsorted|]. split.
  - apply List.Forall_forall. intros r Hr. apply in_firstn in Hr.
    apply rank_in in Hr. destruct Hr as (ds & Hds & ->).
    split; [now apply document_sections_cut|].
    split; [apply score_section_range|].
    assert (Hpos : (0 <? length pk + length jk)%nat = true).
    { apply Nat.ltb_lt. pose proof (persona_keywords_length persona).
      fold pk in H. lia. }
    unfold Utils.score_section. cbn [Utils.importance_rank].
    fold pk jk. now rewrite Hpos.
  - split.
    + exists (skipn 10 ranked). rewrite firstn_skipn.
      split; [|split; [|split]].
      * unfold ranked, Utils.rank_sections_by_relevance.
        rewrite (Permutation_map Utils.ranked_section (sort_desc_perm _ _)).
        rewrite map_map. cbn. now rewrite map_id.
      * intros a b Ha Hb.
        exact (sorted_split _ 10 _
                 (sort_desc_sorted Utils.importance_rank _) a b Ha Hb).
      * apply List.Forall_forall. intros r Hr.
        apply rank_in in Hr. destruct Hr as (ds & _ & ->). reflexivity.
      * intros Hrest. rewrite length_firstn.
        destruct (Nat.le_gt_cases (length ranked) 10) as [Hle|Hgt].
        -- apply skipn_all_iff in Hle. contradiction.
        -- lia.
    + rewrite Hsub. subst result. unfold PersonaAnalyzer.analyze_documents.
      cbn [PersonaAnalyzer.extracted_sections]. fold pk jk ranked.
      rewrite !length_map.
      pose proof (filter_length_le above (firstn 10 ranked)). lia.
Qed.


(* ===================================================================== *)
(** ** Further properties: a processed PDF is one line                    *)
(* ===================================================================== *)

Section OneLineFacts.
Import Py Utils.

(** Segmentation of a text of one line. *)
Lemma segment_one_line (text : string) :
  split_lines text = [text] ->
  segment_text_by_sections text =
  if is_empty (strip text) || is_heading_candidate (strip text) then []
  else [mkSection "" [strip text] 1].
Proof.
  intros Hone. unfold segment_text_by_sections. rewrite Hone.
  cbn [fold_left]. unfold segment_line. cbn [sections current_section].
  destruct (is_empty (strip text)) eqn:He; [reflexivity|].
  destruct (is_heading_candidate (strip text)); reflexivity.
Qed.

Lemma pattern_one_line (text : string) :
  split_lines text = [text] ->
  OutlineExtractor._extract_headings_by_pattern text =
  OutlineExtractor.pattern_line_heading (1%nat, text).
Proof.
  intros Hone. unfold OutlineExtractor._extract_headings_by_pattern.
  rewrite Hone. cbn [OutlineExtractor.enumerate flat_map]. apply app_nil_r.
Qed.

Lemma content_one_line (text : string) :
  split_lines text = [text] ->
  OutlineExtractor._extract_headings_by_content text =
  OutlineExtractor.content_line_heading (1%nat, text).
Proof.
  intros Hone. unfold OutlineExtractor._extract_headings_by_content.
  rewrite Hone. cbn [OutlineExtractor.enumerate flat_map]. apply app_nil_r.
Qed.

Lemma line_heading_one (f : nat * string -> list OutlineExtractor.Heading)
    (text : string) :
  line_heading f ->
  (length (f (1%nat, text)) <= 1)%nat /\
  Forall (fun h => OutlineExtractor.text h = strip text /\
                   OutlineExtractor.line_number h = Some 1%nat)
         (f (1%nat, text)).
Proof.
  intros Hf. destruct (f (1%nat, text)) as [|h t] eqn:E.
  - split; [simpl; lia|constructor].
  - destruct (Hf 1%nat text h) as (E1 & _ & Hn & Ht & _);
      [rewrite E; now left|].
    rewrite E in E1. injection E1 as ->.
    split; [simpl; lia|]. constructor; [auto|constructor].
Qed.

Lemma processed_sections (doc : PersonaAnalyzer.Document) :
  processed_pdf doc ->
  (length (PersonaAnalyzer.document_sections doc) <= 1)%nat /\
  Forall (fun ds => title (PersonaAnalyzer.section ds) = "")
         (PersonaAnalyzer.document_sections doc).
Proof.
  intros (pt & pm & py & path & ->).
  unfold PersonaAnalyzer.document_sections, PDFProcessor.as_document.
  cbn [PersonaAnalyzer.doc_text PersonaAnalyzer.file_path PersonaAnalyzer.get
       PDFProcessor.text PDFProcessor.file_path
       PDFProcessor.extract_text_with_metadata].
  set (t := clean_text _).
  destruct (is_empty t); [split; [simpl; lia|constructor]|].
  rewrite (segment_one_line t (clean_text_one_line _)).
  destruct (is_empty (strip t) || is_heading_candidate (strip t));
    cbn [map]; [split; [simpl; lia|constructor]|].
  split; [simpl; lia|]. constructor; [reflexivity|constructor].
Qed.

Lemma flat_map_length_le {A B : Type} (f : A -> list B) (l : list A) :
  (forall a, In a l -> (length (f a) <= 1)%nat) ->
  (length (flat_map f l) <= length l)%nat.
Proof.
  induction l as [|a l IH]; intros H; simpl; [lia|].
  rewrite length_app. specialize (H a (or_introl eq_refl)) as Ha.
  assert (length (flat_map f l) <= length l)%nat
    by (apply IH; intros; apply H; now right).
  lia.
Qed.

End OneLineFacts.

(** X15.  The text that [extract_text_with_metadata] returns has been
    through [clean_text] and is a single line.  Segmentation therefore cuts
    no titled section from it: it gives nothing when the text, trimmed, is
    empty or looks like a heading, as a text with a heading word anywhere in
    it does, and else the one untitled section that holds the whole text.
    Each of the two line-oriented strategies finds at most one heading in
    it, the whole text on line 1.  So the sections that [analyze_documents]
    extracts from processed PDFs are all untitled, at most one a
    document. *)
Theorem processed_pdf_is_one_line
    (plumber_text : string) (plumber_metadata : OutlineExtractor.Metadata)
    (pypdf_text pdf_path : string)
    (timestamp : string) (documents : list PersonaAnalyzer.Document)
    (persona job_to_be_done : string) :
  let text :=
    PDFProcessor.text
      (PDFProcessor.extract_text_with_metadata
         plumber_text plumber_metadata pypdf_text pdf_path) in
  let line := Py.strip text in
  let by_pattern := OutlineExtractor._extract_headings_by_pattern text in
  let by_content := OutlineExtractor._extract_headings_by_content text in
  Py.split_lines text = [text] /\
  Utils.segment_text_by_sections text =
    (if Py.is_empty line || Utils.is_heading_candidate line then []
     else [Utils.mkSection "" [line] 1]) /\
  (length by_pattern <= 1)%nat /\ (length by_content <= 1)%nat /\
  Forall (fun h => OutlineExtractor.text h = line /\
                   OutlineExtractor.line_number h = Some 1%nat)
         (by_pattern ++ by_content) /\
  (Forall processed_pdf documents ->
   let result :=
     PersonaAnalyzer.analyze_documents timestamp documents persona
       job_to_be_done in
   Forall (fun x => PersonaAnalyzer.section_title x = "")
          (PersonaAnalyzer.extracted_sections result) /\
   (length (PersonaAnalyzer.extracted_sections result)
    <= length documents)%nat).
Proof.
  intros text line by_pattern by_content.
  assert (Hone : Py.split_lines text = [text]) by apply clean_text_one_line.
  destruct (line_heading_one _ text pattern_line_heading_line) as [Hp1 Hp2].
  destruct (line_heading_one _ text content_line_heading_line) as [Hc1 Hc2].
  split; [exact Hone|]. split; [now apply segment_one_line|].
  unfold by_pattern, by_content.
  rewrite (pattern_one_line _ Hone), (content_one_line _ Hone).
  split; [exact Hp1|]. split; [exact Hc1|].
  split; [apply Forall_app; split; assumption|].
  intros Hdocs.
  rewrite List.Forall_forall in Hdocs.
  unfold PersonaAnalyzer.analyze_documents.
  cbn [PersonaAnalyzer.extracted_sections].
  set (ranked := Utils.rank_sections_by_relevance _ _ _ _).
  split.
  - rewrite List.Forall_map. apply List.Forall_forall. intros r Hr.
    cbn [PersonaAnalyzer.section_title].
    apply in_firstn in Hr. apply rank_in in Hr.
    destruct Hr as (ds & Hds & ->). cbn [Utils.ranked_section Utils.score_section].
    apply in_flat_map in Hds. destruct Hds as (doc & Hdoc & Hds).
    destruct (processed_sections doc (Hdocs doc Hdoc)) as [_ Hall].
    rewrite List.Forall_forall in Hall. now apply Hall.
  - rewrite length_map.
    assert (Hlen : length ranked
                   = length (flat_map PersonaAnalyzer.document_sections documents)).
    { unfold ranked, Utils.rank_sections_by_relevance.
      rewrite (Permutation_length (sort_desc_perm _ _)). apply length_map. }
    pose proof (flat_map_length_le PersonaAnalyzer.document_sections documents
                  (fun doc Hdoc => proj1 (processed_sections doc (Hdocs doc Hdoc)))).
    rewrite length_firstn. lia.
Qed.

Lemma processed_pdf_is_one_line_witness :
  let page := String Py.newline "Plain words of a page" in
  let document :=
    PDFProcessor.as_document
      (PDFProcessor.extract_text_with_metadata
         ("Quarterly figures" ++ page) (OutlineExtractor.mkMetadata None)
         "" "a.pdf") in
  let result :=
    PersonaAnalyzer.analyze_documents "now" [document] "student" "exam" in
  Forall (fun x => PersonaAnalyzer.section_title x = "")
         (PersonaAnalyzer.extracted_sections result) /\
  (length (PersonaAnalyzer.extracted_sections result) <= 1)%nat.
Proof.
  intros page document result.
  destruct (processed_pdf_is_one_line
              "" (OutlineExtractor.mkMetadata None) "" ""
              "now" [document] "student" "exam")
    as (_ & _ & _ & _ & _ & untitled).
  apply untitled. constructor; [|constructor].
  exists ("Quarterly figures" ++ page), (OutlineExtractor.mkMetadata None),
    "", "a.pdf". reflexivity.
Defined.


(* ===================================================================== *)
(** ** Further properties: related sections                               *)
(* ===================================================================== *)

Section RelatedFacts.
Import Py Utils PersonaAnalyzer.

Lemma text_similarity_range (a b : string) :
  (0 <= calculate_text_similarity a b <= 1)%Q.
Proof.
  rewrite overlap_cases.
  destruct (bool_decide (text_words a = ∅) || bool_decide (text_words b = ∅))
    eqn:E; [unfold Qle; simpl; lia|].
  apply orb_false_iff in E. destruct E as [Ea _].
  apply bool_decide_eq_false in Ea.
  apply ratio_range.
  - apply subseteq_size. set_solver.
  - apply Nat.neq_0_lt_0. intros E. apply size_empty_iff in E. set_solver.
Qed.

(** When the vectoriser raises, the similarity of two documents is the word
    overlap of [utils]. *)
Lemma document_similarity_fallback
    (tfidf_cosine : string -> string -> option Q) (a b : string) :
  tfidf_cosine a b = None ->
  calculate_document_similarity tfidf_cosine a b =
  calculate_text_similarity a b.
Proof.
  intros Hfail. unfold calculate_document_similarity, calculate_text_similarity.
  now rewrite Hfail.
Qed.

Lemma related_in {S : Type} (tfidf_cosine : string -> string -> option Q)
    (content_of : S -> list string) (target : string) (all : list S)
    (threshold : Q) :
  flat_map
    (fun section =>
       if Qle_bool threshold
            (calculate_document_similarity tfidf_cosine target
               (join " " (content_of section)))
       then [mkRelated section
               (calculate_document_similarity tfidf_cosine target
                  (join " " (content_of section)))]
       else []) all =
  map (fun section =>
         mkRelated section
           (calculate_document_similarity tfidf_cosine target
              (join " " (content_of section))))
      (List.filter
         (fun section =>
            Qle_bool threshold
              (calculate_document_similarity tfidf_cosine target
                 (join " " (content_of section)))) all).
Proof.
  apply flat_map_filter_map. reflexivity.
Qed.

Lemma filter_none {A : Type} (p : A -> bool) (l : list A) :
  (forall x, In x l -> p x = false) -> List.filter p l = [].
Proof.
  induction l as [|x l IH]; intros H; [reflexivity|]. cbn [List.filter].
  rewrite (H x) by now left. apply IH. intros y Hy. apply H. now right.
Qed.

Lemma filter_all {A : Type} (p : A -> bool) (l : list A) :
  (forall x, In x l -> p x = true) -> List.filter p l = l.
Proof.
  induction l as [|x l IH]; intros H; [reflexivity|]. cbn [List.filter].
  rewrite (H x) by now left. f_equal. apply IH. intros y Hy. apply H. now right.
Qed.

End RelatedFacts.

(** X16.  [find_related_sections] returns the sections whose similarity
    with the target reaches the threshold, each with that similarity, and
    no others; it returns them in descending order of similarity, sections
    of equal similarity in the order they were given.  Where the vectoriser
    raises, the similarity is the word overlap of
    [calculate_text_similarity], between 0 and 1: if it raises on every
    section, a threshold above 1 finds nothing and a threshold of 0 or less
    returns every section. *)
Theorem find_related_sections_spec
    {S : Type} (tfidf_cosine : string -> string -> option Q)
    (content_of : S -> list string) (target_section : string)
    (all_sections : list S) (threshold : Q) :
  let related :=
    PersonaAnalyzer.find_related_sections tfidf_cosine content_of
      target_section all_sections threshold in
  let similarity (section : S) :=
    PersonaAnalyzer.calculate_document_similarity tfidf_cosine target_section
      (Py.join " " (content_of section)) in
  let score := PersonaAnalyzer.similarity_score (S := S) in
  let found :=
    map (fun section => PersonaAnalyzer.mkRelated section (similarity section))
      (List.filter (fun section => Qle_bool threshold (similarity section))
         all_sections) in
  Permutation related found /\
  StronglySorted (fun a b => (score b <= score a)%Q) related /\
  (forall q : Q,
     List.filter (fun r => Qeq_bool (score r) q) related =
     List.filter (fun r => Qeq_bool (score r) q) found) /\
  Forall (fun r => (threshold <= score r)%Q /\
                   score r = similarity (PersonaAnalyzer.related_section r))
         related /\
  (forall section,
     tfidf_cosine target_section (Py.join " " (content_of section)) = None ->
     similarity section =
     Utils.calculate_text_similarity target_section
       (Py.join " " (content_of section))) /\
  ((forall section,
      tfidf_cosine target_section (Py.join " " (content_of section)) = None) ->
   ((1 < threshold)%Q -> related = []) /\
   ((threshold <= 0)%Q ->
    Permutation (map PersonaAnalyzer.related_section related) all_sections)).
Proof.
  intros related similarity score found.
  assert (Hrel : related = PySort.sort_desc score found).
  { unfold related, PersonaAnalyzer.find_related_sections.
    now rewrite related_in. }
  assert (Hperm : Permutation related found)
    by (rewrite Hrel; apply sort_desc_perm).
  split; [exact Hperm|].
  split; [rewrite Hrel; apply sort_desc_sorted|].
  split; [intros q; rewrite Hrel; apply sort_desc_stable|].
  split; [|split].
  - apply List.Forall_forall. intros r Hr.
    apply (Permutation_in _ Hperm) in Hr. unfold found in Hr.
    apply in_map_iff in Hr. destruct Hr as (s & <- & Hs).
    apply filter_In in Hs. destruct Hs as [_ Hs].
    apply Qle_bool_iff in Hs. split; [exact Hs|reflexivity].
  - intros section. apply document_similarity_fallback.
  - intros Hfail.
    assert (Hrange : forall section, (0 <= similarity section <= 1)%Q).
    { intros section. unfold similarity.
      rewrite (document_similarity_fallback _ _ _ (Hfail section)).
      apply text_similarity_range. }
    split.
    + intros Hhigh.
      assert (Hnone : found = []).
      { unfold found. rewrite filter_none; [reflexivity|].
        intros s _.
        destruct (Qle_bool threshold (similarity s)) eqn:E; [|reflexivity].
        apply Qle_bool_iff in E. exfalso.
        apply (Qlt_not_le _ _ Hhigh).
        apply Qle_trans with (similarity s); [exact E|apply Hrange]. }
      rewrite Hnone in Hperm. apply Permutation_sym in Hperm.
      now apply Permutation_nil in Hperm.
    + intros Hlow.
      rewrite (Permutation_map PersonaAnalyzer.related_section Hperm).
      unfold found. rewrite map_map. cbn [PersonaAnalyzer.related_section].
      rewrite map_id.
      rewrite filter_all; [reflexivity|].
      intros s _. apply Qle_bool_iff.
      apply Qle_trans with 0%Q; [exact Hlow|apply Hrange].
Qed.

Lemma find_related_sections_spec_witness :
  PersonaAnalyzer.find_related_sections (fun _ _ => None)
    (fun section : list string => section)
    "x y" [["x"; "y"]; ["z"]] (11 # 10) = [].
Proof.
  destruct (find_related_sections_spec (fun _ _ => None)
              (fun section : list string => section)
              "x y" [["x"; "y"]; ["z"]] (11 # 10))
    as (_ & _ & _ & _ & _ & on_fallback).
  destruct on_fallback as [none _]; [reflexivity|].
  apply none. reflexivity.
Defined.


(* ===================================================================== *)
(** ** Further properties: the error counts                               *)
(* ===================================================================== *)

Section ErrorCountFacts.
Import ErrorHandler.

Lemma total_errors_insert_new (counts : gmap string nat) (t : string)
    (n : nat) :
  counts !! t = None ->
  total_errors (<[t := n]> counts) = (n + total_errors counts)%nat.
Proof.
  intros Hnew. unfold total_errors.
  rewrite map_fold_insert_L; [reflexivity| |exact Hnew].
  intros. lia.
Qed.

Lemma total_errors_count (counts : gmap string nat) (t : string) :
  total_errors (count_error t counts) = S (total_errors counts).
Proof.
  unfold count_error. destruct (counts !! t) as [n|] eqn:E; cbn [default].
  - rewrite <- insert_delete_eq.
    rewrite total_errors_insert_new by apply lookup_delete_eq.
    unfold total_errors at 2.
    rewrite (map_fold_delete_L _ _ t n counts); [|intros; lia|exact E].
    unfold total_errors, id. lia.
  - rewrite total_errors_insert_new by exact E. lia.
Qed.

Lemma counted_count (counts : gmap string nat) (t t' : string) :
  counted (count_error t counts) t' =
  (counted counts t' + if String.eqb t t' then 1 else 0)%nat.
Proof.
  unfold counted, count_error. destruct (String.eqb_spec t t') as [->|Hne].
  - rewrite lookup_insert_eq. destruct (counts !! t'); cbn; unfold id; lia.
  - rewrite lookup_insert_ne by exact Hne. lia.
Qed.

Lemma handle_counts (now : string) (counts : gmap string nat) (h : handled) :
  handle now counts h = count_error (handled_type h) counts.
Proof.
  destruct h as [path e strategy | docs e strategy]; cbn.
  - unfold handle_pdf_processing_error.
    destruct (String.eqb strategy "skip"); [reflexivity|].
    destruct (String.eqb strategy "retry"); [reflexivity|].
    destruct (String.eqb strategy "partial"); reflexivity.
  - reflexivity.
Qed.

Lemma total_errors_empty : total_errors ∅ = 0%nat.
Proof. reflexivity. Qed.

End ErrorCountFacts.

(** X17.  The error handler counts every error it handles, once, under the
    name of its type, whichever of the two handlers took it and whatever
    the recovery strategy: after a series of errors each count has grown by
    the number of errors of its type, and the total by the number of
    errors.  The health it reports follows the total alone: excellent for
    none, good up to 5, fair up to 10, poor beyond.  [safe_execute] counts
    a call that raises as one error, and a call that returns not at all. *)
Theorem error_counts_accumulate
    (error_counts : gmap string nat)
    (errors : list (string * ErrorHandler.handled)) :
  let after := handle_all error_counts errors in
  let total := ErrorHandler.total_errors in
  let health := ErrorHandler._calculate_system_health in
  (forall error_type,
     counted after error_type =
     (counted error_counts error_type + errors_of_type error_type errors)%nat) /\
  total after = (total error_counts + length errors)%nat /\
  total ∅ = 0%nat /\
  (health after = ErrorHandler.EXCELLENT <-> total after = 0%nat) /\
  (health after = ErrorHandler.GOOD <-> (1 <= total after <= 5)%nat) /\
  (health after = ErrorHandler.FAIR <-> (6 <= total after <= 10)%nat) /\
  (health after = ErrorHandler.POOR <-> (10 < total after)%nat) /\
  (forall (A : Type) now (outcome : ErrorHandler.Exception + A) first_arg,
     total (fst (ErrorHandler.safe_execute error_counts now outcome first_arg))
     = (total error_counts
        + match outcome with inl _ => 1 | inr _ => 0 end)%nat /\
     ErrorHandler.success
       (snd (ErrorHandler.safe_execute error_counts now outcome first_arg))
     = match outcome with inl _ => false | inr _ => true end).
Proof.
  intros after total health. subst after total health.
  split; [|split; [|split; [exact total_errors_empty|]]].
  - intros t. unfold handle_all, errors_of_type. revert error_counts.
    induction errors as [|[now h] errors IH]; intros counts; simpl; [lia|].
    rewrite IH, handle_counts, counted_count.
    rewrite (String.eqb_sym (ErrorHandler.handled_type h) t) at 1.
    destruct (String.eqb t (ErrorHandler.handled_type h)) eqn:E.
    + rewrite String.eqb_sym, E. simpl. lia.
    + rewrite String.eqb_sym, E. lia.
  - unfold handle_all. revert error_counts.
    induction errors as [|[now h] errors IH]; intros counts; simpl; [lia|].
    rewrite IH, handle_counts, total_errors_count. lia.
  - assert (Hsafe : forall (A : Type) now
              (outcome : ErrorHandler.Exception + A) first_arg,
      ErrorHandler.total_errors
        (fst (ErrorHandler.safe_execute error_counts now outcome first_arg))
      = (ErrorHandler.total_errors error_counts
         + match outcome with inl _ => 1 | inr _ => 0 end)%nat /\
      ErrorHandler.success
        (snd (ErrorHandler.safe_execute error_counts now outcome first_arg))
      = match outcome with inl _ => false | inr _ => true end).
    { intros A now [e|v] first_arg; cbn; [|split; [lia|reflexivity]].
      split; [|reflexivity]. rewrite total_errors_count. lia. }
    unfold ErrorHandler._calculate_system_health.
    set (n := ErrorHandler.total_errors (handle_all error_counts errors)).
    destruct (n =? 0)%nat eqn:E0;
      [apply Nat.eqb_eq in E0|apply Nat.eqb_neq in E0].
    { repeat split; intros; try discriminate; try lia; try reflexivity;
        apply Hsafe. }
    destruct (n <=? 5)%nat eqn:E5;
      [apply Nat.leb_le in E5|apply Nat.leb_gt in E5].
    { repeat split; intros; try discriminate; try lia; try reflexivity;
        apply Hsafe. }
    destruct (n <=? 10)%nat eqn:E10;
      [apply Nat.leb_le in E10|apply Nat.leb_gt in E10].
    { repeat split; intros; try discriminate; try lia; try reflexivity;
        apply Hsafe. }
    repeat split; intros; try discriminate; try lia; try reflexivity;
      apply Hsafe.
Qed.


(* ===================================================================== *)
(** ** Further properties: the grades of the benchmark                    *)
(* ===================================================================== *)

Section GradeFacts.
Import PerformanceBenchmark.

Lemma Qle_bool_upper (t c d : Q) :
  (c <= d)%Q -> Qle_bool t c = true -> Qle_bool t d = true.
Proof.
  intros Hcd H. apply Qle_bool_iff in H. apply Qle_bool_iff.
  now apply Qle_trans with c.
Qed.

Lemma Qle_bool_gt (t c : Q) : Qle_bool t c = false <-> (c < t)%Q.
Proof.
  split.
  - intros E. apply Qnot_le_lt. intros H. apply Qle_bool_iff in H. congruence.
  - intros H. destruct (Qle_bool t c) eqn:E; [|reflexivity].
    apply Qle_bool_iff in E. exfalso. exact (Qlt_not_le _ _ H E).
Qed.

(** The score of a round, from its time and its two limits. *)
Lemma round_score_cases (t full reduced : Q) :
  (full <= reduced)%Q ->
  ((t <= full)%Q /\ round_score t full reduced = 100%Q) \/
  ((full < t)%Q /\ (t <= reduced)%Q /\ round_score t full reduced = 80%Q) \/
  ((reduced < t)%Q /\ round_score t full reduced = 60%Q).
Proof.
  intros Hfr. unfold round_score.
  destruct (Qle_bool t full) eqn:E1.
  { left. split; [now apply Qle_bool_iff|reflexivity]. }
  apply Qle_bool_gt in E1.
  destruct (Qle_bool t reduced) eqn:E2.
  { right. left. split; [exact E1|]. split; [now apply Qle_bool_iff|reflexivity]. }
  apply Qle_bool_gt in E2. right. right. split; [exact E2|reflexivity].
Qed.

Lemma metrics_invariant (outlines : list (option OutlineExtractor.Outline))
    (m : Metrics) :
  (heading_detection m <= total_tests m)%nat ->
  (hierarchy_classification m <= total_tests m)%nat ->
  (page_tracking m <= total_tests m)%nat ->
  let m' := fold_left accuracy_step outlines m in
  (heading_detection m' <= total_tests m')%nat /\
  (hierarchy_classification m' <= total_tests m')%nat /\
  (page_tracking m' <= total_tests m')%nat /\
  persona_matching m' = persona_matching m /\
  total_tests m' =
    (total_tests m
     + length (List.filter (fun o => match o with Some _ => true | None => false end)
                 outlines))%nat.
Proof.
  revert m. induction outlines as [|o outlines IH]; intros m H1 H2 H3; simpl.
  - repeat split; try assumption. lia.
  - destruct o as [o|]; [|now apply IH].
    destruct (IH (accuracy_step m (Some o))) as (I1 & I2 & I3 & I4 & I5).
    + cbn. unfold bump. destruct (Utils.nonempty _); lia.
    + cbn. unfold bump. destruct (existsb _ _); lia.
    + cbn. unfold bump. destruct (existsb _ _); lia.
    + repeat split; try assumption. rewrite I5. cbn. lia.
Qed.

Lemma percentage_range (count total : nat) :
  (count <= total)%nat -> (0 < total)%nat ->
  (0 <= percentage count total <= 100)%Q.
Proof.
  intros Hle Hpos. unfold percentage.
  destruct (ratio_range count total Hle Hpos) as [H0 H1].
  split.
  - apply Qmult_le_0_compat; [exact H0|discriminate].
  - apply Qle_trans with (1 * 100)%Q; [|discriminate].
    apply Qmult_le_compat_r; [exact H1|discriminate].
Qed.

Lemma percentage_zero (total : nat) : (percentage 0 total == 0)%Q.
Proof. unfold percentage. reflexivity. Qed.

End GradeFacts.

(** X18.  [_calculate_performance_grade] never gives the grade C: the two
    rounds score 100, 80 or 60 each, so their mean is 60 at least.  The grade
    is A+ when both rounds keep their reduced limit (15 and 90 seconds) and
    one at least its full limit (10 and 60 seconds), B when both rounds miss
    their reduced limit, and A or B+ in between.  A round whose time is
    missing counts as one that took no time. *)
Theorem performance_grade_table (round1a_time round1b_time : option Q) :
  let grade :=
    PerformanceBenchmark._calculate_performance_grade round1a_time
      round1b_time in
  let time_a := OutlineExtractor.get round1a_time 0%Q in
  let time_b := OutlineExtractor.get round1b_time 0%Q in
  grade <> "C" /\
  (grade = "A+" \/ grade = "A" \/ grade = "B+" \/ grade = "B") /\
  (grade = "A+" <->
   ((time_a <= 10)%Q /\ (time_b <= 90)%Q) \/
   ((time_a <= 15)%Q /\ (time_b <= 60)%Q)) /\
  (grade = "B" <-> (15 < time_a)%Q /\ (90 < time_b)%Q) /\
  (grade = "B+" <->
   ((15 < time_a)%Q /\ (60 < time_b)%Q /\ (time_b <= 90)%Q) \/
   ((10 < time_a)%Q /\ (time_a <= 15)%Q /\ (90 < time_b)%Q)) /\
  PerformanceBenchmark._calculate_performance_grade None None = "A+".
Proof.
  intros grade time_a time_b.
  assert (H1015 : (10 <= 15)%Q) by discriminate.
  assert (H6090 : (60 <= 90)%Q) by discriminate.
  assert (H1510 : (10 < 15)%Q) by reflexivity.
  assert (H9060 : (60 < 90)%Q) by reflexivity.
  unfold grade, PerformanceBenchmark._calculate_performance_grade.
  fold time_a time_b. clearbody time_a time_b.
  destruct (round_score_cases time_a 10 15 H1015)
    as [[Ha ->] | [(Ha & Ha' & ->) | [Ha ->]]];
  destruct (round_score_cases time_b 60 90 H6090)
    as [[Hb ->] | [(Hb & Hb' & ->) | [Hb ->]]];
  cbn;
  (split; [discriminate|]);
  (split; [tauto|]);
  repeat split; try discriminate; try reflexivity; intros; 
    try tauto;
    repeat match goal with
    | H : _ \/ _ |- _ => destruct H
    | H : _ /\ _ |- _ => destruct H
    end;
    try (exfalso;
         match goal with
         | H1 : (?x <= ?c)%Q, H2 : (?d < ?x)%Q |- _ =>
             apply (Qlt_irrefl x);
             apply Qle_lt_trans with c; [exact H1|];
             first [exact H2
                   | apply Qle_lt_trans with d; [discriminate|exact H2]
                   | apply Qlt_trans with d; [reflexivity|exact H2]]
         end);
    try (left; split; first [assumption | now apply Qle_trans with 10%Q
                                        | now apply Qle_trans with 60%Q]);
    try (right; split; first [assumption | now apply Qle_trans with 10%Q
                                         | now apply Qle_trans with 60%Q]);
    auto.
Qed.

(** X19.  The accuracy grade of a benchmark run is never better than C.
    [benchmark_accuracy] never counts a persona match, so of its four
    percentages one is 0 and their mean is 75 at most: the grade that
    [_calculate_accuracy_grade] gives to its result is C as soon as the
    outline of one test file could be extracted, and N/A when none could. *)
Theorem accuracy_grade_never_above_C
    (outlines : list (option OutlineExtractor.Outline)) :
  let accuracy := PerformanceBenchmark.benchmark_accuracy outlines in
  let grade := PerformanceBenchmark._calculate_accuracy_grade accuracy in
  (grade = "N/A" <-> Forall (fun o => o = None) outlines) /\
  (grade = "C" <-> Exists (fun o => o <> None) outlines) /\
  (forall value, In ("persona_matching", value) accuracy -> (value == 0)%Q) /\
  Forall (fun entry => (0 <= snd entry <= 100)%Q) accuracy.
Proof.
  intros accuracy grade.
  destruct (metrics_invariant outlines (PerformanceBenchmark.mkMetrics 0 0 0 0 0))
    as (H1 & H2 & H3 & H4 & H5); try (cbn; lia).
  cbn [PerformanceBenchmark.total_tests PerformanceBenchmark.persona_matching
       Nat.add] in H4, H5.
  set (m := fold_left PerformanceBenchmark.accuracy_step outlines
              (PerformanceBenchmark.mkMetrics 0 0 0 0 0)) in *.
  assert (Hcount : forall l : list (option OutlineExtractor.Outline),
            (length (List.filter
                       (fun o => match o with Some _ => true | None => false end) l)
             = 0)%nat <-> Forall (fun o => o = None) l).
  { induction l as [|[o|] l IH]; simpl.
    - split; [constructor|reflexivity].
    - split; [discriminate|]. intros H. inversion H; discriminate.
    - rewrite IH. split; [now constructor|]. intros H. now inversion H. }
  assert (Hex : ~ Forall (fun o => o = None) outlines
                <-> Exists (fun o : option OutlineExtractor.Outline => o <> None)
                      outlines).
  { rewrite <- List.Exists_Forall_neg; [reflexivity|].
    intros [o|]; [right; discriminate|now left]. }
  unfold grade, accuracy, PerformanceBenchmark.benchmark_accuracy. fold m.
  destruct (0 <? PerformanceBenchmark.total_tests m)%nat eqn:Et.
  2:{ apply Nat.ltb_ge in Et.
      assert (Hnone : Forall (fun o => o = None) outlines)
        by (apply Hcount; lia).
      cbn. split; [tauto|]. split.
      - split; [discriminate|]. intros H. apply Hex in H. contradiction.
      - split; [intros v []|constructor]. }
  apply Nat.ltb_lt in Et.
  assert (Hsome : ~ Forall (fun o => o = None) outlines).
  { intros H. apply Hcount in H. lia. }
  pose proof (percentage_range _ _ H1 Et) as P1.
  pose proof (percentage_range _ _ H2 Et) as P2.
  pose proof (percentage_range _ _ H3 Et) as P3.
  pose proof (percentage_zero (PerformanceBenchmark.total_tests m)) as P4.
  rewrite H4.
  set (p1 := PerformanceBenchmark.percentage _ _) in *.
  set (p2 := PerformanceBenchmark.percentage
               (PerformanceBenchmark.hierarchy_classification m) _) in *.
  set (p3 := PerformanceBenchmark.percentage
               (PerformanceBenchmark.page_tracking m) _) in *.
  set (p4 := PerformanceBenchmark.percentage 0 _) in *.
  assert (Hgrade : PerformanceBenchmark._calculate_accuracy_grade
                     [("heading_detection", p1);
                      ("hierarchy_classification", p2);
                      ("page_tracking", p3); ("persona_matching", p4)] = "C").
  { unfold PerformanceBenchmark._calculate_accuracy_grade.
    cbn [map snd fold_right length].
    assert (Havg : ((p1 + (p2 + (p3 + (p4 + 0)))) / inject_Z (Z.of_nat 4)
                    <= 75)%Q).
    { assert (P4' : (p4 <= 0)%Q) by (rewrite P4; apply Qle_refl).
      apply Qle_shift_div_r; [reflexivity|].
      apply Qle_trans with (100 + (100 + (100 + (0 + 0))))%Q; [|discriminate].
      repeat apply Qplus_le_compat; try apply Qle_refl; tauto. }
    assert (Hlow : forall c, (75 < c)%Q ->
              Qle_bool c ((p1 + (p2 + (p3 + (p4 + 0))))
                          / inject_Z (Z.of_nat 4)) = false).
    { intros c Hc. apply Qle_bool_gt.
      now apply Qle_lt_trans with 75%Q. }
    rewrite !Hlow by reflexivity. reflexivity. }
  rewrite Hgrade.
  split; [split; [discriminate|intros H; contradiction]|].
  split; [split; [intros _; now apply Hex|reflexivity]|].
  split.
  - intros v [E | [E | [E | [E | []]]]]; try discriminate.
    injection E as <-. exact P4.
  - repeat constructor; cbn [snd]; try tauto.
    + rewrite P4. discriminate.
    + rewrite P4. discriminate.
Qed.


(* ===================================================================== *)
(** ** Further properties: the tally of the second round                  *)
(* ===================================================================== *)

Section RoundFacts.
Import Py Utils EnhancedPDFIntelligenceSystem.




End RoundFacts.

